(** * Character-level name classification (RNN_vs_LSTM.py)

    A shallow embedding of the data preparation, the one-hot encoder, the
    hand-written RNN cell, the training step, the evaluation loop, the
    confusion matrix and the top-k prediction of [RNN_vs_LSTM.py].

    Conventions of the embedding:
    - a Python [str] is the list of its code points ([pystr]);
    - the tensors of the network hold rationals ([Q]): the forward pass
      is written over finite numbers, without the rounding and the
      overflow of float32, and what is stated of its scores is stated of
      finite scores;
    - the confusion matrix holds floats ([xq]): its counts are integers,
      exact in float32 below 2^24, and the division that normalizes a row
      rounds to float32 ([float32]) and yields NaN for 0/0;
    - the clock readings of the training loop are binary64 floats, as
      Python's are;
    - a 2-D tensor is the list of its rows, a 3-D tensor a list of 2-D ones;
    - a Python exception is the [Raised] case of [result];
    - the module-level mutable state (the parameters of [rnn], their
      gradients, standard output, the random generator) is the record
      [world], threaded by the monad [M]. *)

From Stdlib Require Import String Ascii Bool Arith ZArith NArith QArith Lia Lqa.
From Stdlib Require Import Qround Qabs Qpower.
From Stdlib Require Import Floats.
From Stdlib Require Import List Sorting.Sorted.
Import ListNotations.
Close Scope Q_scope.

Set Implicit Arguments.

(** ** Python values *)

Definition codepoint := N.
Definition pystr := list codepoint.

Definition str_of (s : string) : pystr :=
  map N_of_ascii (list_ascii_of_string s).

Inductive exn : Type :=
| UnboundLocalError
| RuntimeError
| IndexError
| ValueError
| KeyError
| AttributeError
| OverflowError.

Inductive result (A : Type) : Type :=
| Raised (e : exn)
| Returned (a : A).

Arguments Raised {A} e.
Arguments Returned {A} a.

Definition rbind {A B} (r : result A) (k : A -> result B) : result B :=
  match r with
  | Raised e => Raised e
  | Returned a => k a
  end.

(** [s[i]] for a Python sequence: negative indices count from the end, an
    index outside [-len, len) raises [IndexError]. *)
Definition py_norm_index (len : nat) (i : Z) : option nat :=
  let n := Z.of_nat len in
  if (0 <=? i)%Z && (i <? n)%Z then Some (Z.to_nat i)
  else if (- n <=? i)%Z && (i <? 0)%Z then Some (Z.to_nat (i + n))
  else None.

Definition py_getitem {A} (l : list A) (i : Z) : result A :=
  match py_norm_index (length l) i with
  | Some n =>
      match nth_error l n with
      | Some a => Returned a
      | None => Raised IndexError
      end
  | None => Raised IndexError
  end.

Fixpoint list_set {A} (l : list A) (n : nat) (a : A) : list A :=
  match l, n with
  | [], _ => []
  | _ :: t, O => a :: t
  | h :: t, S n' => h :: list_set t n' a
  end.

Definition py_setitem {A} (l : list A) (i : Z) (a : A) : result (list A) :=
  match py_norm_index (length l) i with
  | Some n => Returned (list_set l n a)
  | None => Raised IndexError
  end.

(** [s.find(c)] for a one-character [c]: first position, or -1. *)
Fixpoint find_from (s : pystr) (c : codepoint) (i : Z) : Z :=
  match s with
  | [] => (-1)%Z
  | x :: s' => if N.eqb x c then i else find_from s' c (i + 1)%Z
  end.

Definition str_find (s : pystr) (c : codepoint) : Z := find_from s c 0%Z.

(** [c in s] for a one-character [c]. *)
Definition str_contains (s : pystr) (c : codepoint) : bool :=
  existsb (N.eqb c) s.

(** ** Step 1: preparing the data *)

Definition ascii_lowercase : pystr := str_of "abcdefghijklmnopqrstuvwxyz".
Definition ascii_uppercase : pystr := str_of "ABCDEFGHIJKLMNOPQRSTUVWXYZ".
Definition ascii_letters : pystr := ascii_lowercase ++ ascii_uppercase.

Definition all_letters : pystr := ascii_letters ++ str_of " .,;'".
Definition n_letters : nat := length all_letters.

(** [str.isspace] of a code point, as CPython's [_PyUnicode_IsWhitespace]. *)
Definition isspace (c : codepoint) : bool :=
  ((9 <=? c) && (c <=? 13) || (28 <=? c) && (c <=? 32)
   || (c =? 133) || (c =? 160) || (c =? 5760)
   || (8192 <=? c) && (c <=? 8202)
   || (c =? 8232) || (c =? 8233) || (c =? 8239) || (c =? 8287)
   || (c =? 12288))%N.

Fixpoint lstrip (s : pystr) : pystr :=
  match s with
  | [] => []
  | c :: s' => if isspace c then lstrip s' else s
  end.

Definition rstrip (s : pystr) : pystr := rev (lstrip (rev s)).

Definition strip (s : pystr) : pystr := rstrip (lstrip s).

(** [s.split(sep)] for a one-character separator: never the empty list. *)
Fixpoint split (sep : codepoint) (s : pystr) : list pystr :=
  match s with
  | [] => [[]]
  | c :: s' =>
      if N.eqb c sep then [] :: split sep s'
      else match split sep s' with
           | [] => [[c]]
           | h :: t => (c :: h) :: t
           end
  end.

Definition newline : codepoint := 10%N.

(** A dictionary with string keys, in insertion order. *)
Definition dict (V : Type) := list (string * V).

Fixpoint dict_get {V} (d : dict V) (k : string) : option V :=
  match d with
  | [] => None
  | (k', v) :: d' => if String.eqb k' k then Some v else dict_get d' k
  end.

Fixpoint dict_set {V} (d : dict V) (k : string) (v : V) : dict V :=
  match d with
  | [] => [(k, v)]
  | (k', v') :: d' =>
      if String.eqb k' k then (k, v) :: d' else (k', v') :: dict_set d' k v
  end.

Section Unicode.

(** The tables of [unicodedata] are outside the script: the canonical
    decomposition and the general category are parameters. *)
Variable normalize_NFD : pystr -> pystr.
Variable category : codepoint -> string.

Definition unicodeToAscii (s : pystr) : pystr :=
  filter (fun c => negb (String.eqb (category c) "Mn")
                   && str_contains all_letters c)
         (normalize_NFD s).

(** [readLines] on the decoded text of a file. *)
Definition readLines (text : pystr) : list pystr :=
  let lines := split newline (strip text) in
  map unicodeToAscii lines.

(** The loading loop over the files found, each given by its category
    (the base name without extension) and its text. *)
Record corpus : Type := {
  corpus_categories : list string;
  corpus_lines : dict (list pystr)
}.

Definition load_file (c : corpus) (file : string * pystr) : corpus :=
  let (category_name, text) := file in
  let lines := readLines text in
  {| corpus_categories := corpus_categories c ++ [category_name];
     corpus_lines := dict_set (corpus_lines c) category_name lines |}.

Definition load_corpus (files : list (string * pystr)) : corpus :=
  fold_left load_file files
            {| corpus_categories := []; corpus_lines := [] |}.

End Unicode.

(** A fragment of the Unicode tables, enough to run the script's own
    examples: the precomposed letters of ["Ślusàrski"] and ["García"], the
    combining diacritical marks U+0300..U+036F (all of category Mn), and
    the ASCII letters, digits and space; the remaining code points are
    given "Po", the category of the alphabet's four punctuation marks. *)
Definition decompose_sample (c : codepoint) : pystr :=
  (if c =? 346 then [83; 769]          (* Ś = S + acute *)
   else if c =? 224 then [97; 768]     (* à = a + grave *)
   else if c =? 237 then [105; 769]    (* í = i + acute *)
   else [c])%N.

Definition normalize_NFD_sample (s : pystr) : pystr :=
  flat_map decompose_sample s.

Definition category_sample (c : codepoint) : string :=
  (if (768 <=? c) && (c <=? 879) then "Mn"
   else if (65 <=? c) && (c <=? 90) then "Lu"
   else if (97 <=? c) && (c <=? 122) then "Ll"
   else if c =? 32 then "Zs"
   else if (48 <=? c) && (c <=? 57) then "Nd"
   else if c =? 346 then "Lu"
   else if (c =? 224) || (c =? 237) then "Ll"
   else "Po")%N%string.

(** ** Step 2: turning names into tensors *)

Definition tensor1 := list Q.
Definition tensor2 := list tensor1.
Definition tensor3 := list tensor2.

Definition zeros1 (n : nat) : tensor1 := repeat 0%Q n.
Definition zeros2 (r c : nat) : tensor2 := repeat (zeros1 c) r.
Definition zeros3 (a b c : nat) : tensor3 := repeat (zeros2 b c) a.

Definition letterToIndex (letter : codepoint) : Z :=
  str_find all_letters letter.

(** [tensor[i][j] = v] and [tensor[i][j][k] = v]: the views [tensor[i]] and
    [tensor[i][j]] alias the tensor, so the write goes through. *)
Definition setitem2 {A} (t : list (list A)) (i j : Z) (v : A)
  : result (list (list A)) :=
  rbind (py_getitem t i) (fun row =>
  rbind (py_setitem row j v) (fun row' =>
  py_setitem t i row')).

Definition setitem3 {A} (t : list (list (list A))) (i j k : Z) (v : A)
  : result (list (list (list A))) :=
  rbind (py_getitem t i) (fun m =>
  rbind (setitem2 m j k v) (fun m' =>
  py_setitem t i m')).

Definition letterToTensor (letter : codepoint) : result tensor2 :=
  let tensor := zeros2 1 n_letters in
  setitem2 tensor 0 (letterToIndex letter) 1%Q.

Definition enumerate {A} (l : list A) : list (nat * A) :=
  combine (seq 0 (length l)) l.

Fixpoint lineToTensor_loop (items : list (nat * codepoint)) (tensor : tensor3)
  : result tensor3 :=
  match items with
  | [] => Returned tensor
  | (li, letter) :: rest =>
      rbind (setitem3 tensor (Z.of_nat li) 0 (letterToIndex letter) 1%Q)
            (lineToTensor_loop rest)
  end.

Definition lineToTensor (line : pystr) : result tensor3 :=
  let tensor := zeros3 (length line) 1 n_letters in
  lineToTensor_loop (enumerate line) tensor.

(** ** Step 3: the network *)

Fixpoint map2 {A B C} (f : A -> B -> C) (la : list A) (lb : list B) : list C :=
  match la, lb with
  | a :: la', b :: lb' => f a b :: map2 f la' lb'
  | _, _ => []
  end.

Fixpoint mapR {A B} (f : A -> result B) (l : list A) : result (list B) :=
  match l with
  | [] => Returned []
  | a :: l' =>
      rbind (f a) (fun b => rbind (mapR f l') (fun bs => Returned (b :: bs)))
  end.

Definition dot (x w : tensor1) : Q :=
  fold_right Qplus 0%Q (map2 Qmult x w).

(** [nn.Linear(in_features, out_features)]: [weight] has [out_features]
    rows of [in_features] entries, [bias] has [out_features] entries. *)
Record Linear : Type := {
  in_features : nat;
  out_features : nat;
  weight : tensor2;
  bias : tensor1
}.

Definition Linear_row (self : Linear) (x : tensor1) : result tensor1 :=
  if length x =? in_features self
  then Returned (map2 (fun w b => (dot x w + b)%Q) (weight self) (bias self))
  else Raised RuntimeError.

Definition Linear_forward (self : Linear) (x : tensor2) : result tensor2 :=
  mapR (Linear_row self) x.

(** [torch.cat((a, b), 1)] *)
Definition cat1 (a b : tensor2) : result tensor2 :=
  if length a =? length b then Returned (map2 (@app Q) a b)
  else Raised RuntimeError.

Record RNN : Type := {
  hidden_size : nat;
  i2h : Linear;
  i2o : Linear
}.

(** The shapes [RNN(input_size, hidden_size, output_size)] constructs. *)
Definition Linear_shape (n_in n_out : nat) (l : Linear) : Prop :=
  in_features l = n_in /\ out_features l = n_out /\
  length (weight l) = n_out /\ length (bias l) = n_out /\
  Forall (fun w => length w = n_in) (weight l).

Definition RNN_shape (input_size output_size : nat) (r : RNN) : Prop :=
  Linear_shape (input_size + hidden_size r) (hidden_size r) (i2h r) /\
  Linear_shape (input_size + hidden_size r) output_size (i2o r).

Definition initHidden (self : RNN) : tensor2 := zeros2 1 (hidden_size self).

(** [tensor.topk(k)] along the last dimension, largest first, sorted:
    a stable insertion sort of the (value, index) pairs by descending
    value (of equal values the lower index comes first), cut after [k];
    [k] larger than the dimension is an error. *)
Fixpoint insert_desc (p : Q * nat) (l : list (Q * nat)) : list (Q * nat) :=
  match l with
  | [] => [p]
  | q :: l' =>
      if Qle_bool (fst q) (fst p) then p :: l
      else q :: insert_desc p l'
  end.

Definition sort_desc (l : list (Q * nat)) : list (Q * nat) :=
  fold_right insert_desc [] l.

Definition topk1 (k : nat) (row : tensor1) : result (tensor1 * list nat) :=
  if k <=? length row
  then let top := firstn k (sort_desc (combine row (seq 0 (length row)))) in
       Returned (map fst top, map snd top)
  else Raised RuntimeError.

Definition topk (k : nat) (t : tensor2) : result (tensor2 * list (list nat)) :=
  rbind (mapR (topk1 k) t) (fun rows =>
  Returned (map fst rows, map snd rows)).

(** [t.item()] of a tensor with one element. *)
Definition item {A} (t : list A) : result A :=
  match t with
  | [a] => Returned a
  | _ => Raised RuntimeError
  end.

(** [l.index(x)] *)
Fixpoint list_index (l : list string) (x : string) : result nat :=
  match l with
  | [] => Raised ValueError
  | y :: l' =>
      if String.eqb y x then Returned 0
      else rbind (list_index l' x) (fun n => Returned (S n))
  end.

(** [nn.NLLLoss()] on a batch of one, the only batch size of the script. *)
Definition NLLLoss (output : tensor2) (target : list nat) : result Q :=
  match output, target with
  | [row], [c] =>
      rbind (py_getitem row (Z.of_nat c)) (fun v => Returned (- v)%Q)
  | _, _ => Raised ValueError
  end.

Definition learning_rate : Q := (5 # 1000)%Q.

(** [p.data.add_(alpha, g)] on every entry of a parameter. *)
Definition add_1 (alpha : Q) (p g : tensor1) : tensor1 :=
  map2 (fun x y => (x + alpha * y)%Q) p g.

Definition add_2 (alpha : Q) (p g : tensor2) : tensor2 :=
  map2 (add_1 alpha) p g.

Definition Linear_add (alpha : Q) (p g : Linear) : Linear :=
  {| in_features := in_features p;
     out_features := out_features p;
     weight := add_2 alpha (weight p) (weight g);
     bias := add_1 alpha (bias p) (bias g) |}.

Definition RNN_add (alpha : Q) (p g : RNN) : RNN :=
  {| hidden_size := hidden_size p;
     i2h := Linear_add alpha (i2h p) (i2h g);
     i2o := Linear_add alpha (i2o p) (i2o g) |}.

(** ** The state of the process *)

Inductive event : Type :=
| PrintInput (input_line : pystr)
| PrintGuess (value : Q) (category : string).

(** The [.grad] of the four parameters of [rnn], each [None] until a
    backward pass reaches the parameter. *)
Record RNN_grad : Type := {
  i2h_weight_grad : option tensor2;
  i2h_bias_grad : option tensor1;
  i2o_weight_grad : option tensor2;
  i2o_bias_grad : option tensor1
}.

Record world : Type := {
  rnn : RNN;                      (* the parameters of the global [rnn] *)
  rnn_grad : option RNN_grad;     (* their [.grad], [None] when all are
                                     [None]: never set, or cleared *)
  stdout : list event;
  entropy : nat -> nat;           (* the stream behind [random] *)
  draws : nat                     (* how much of it has been consumed *)
}.

Definition M (A : Type) : Type := world -> result A * world.

Definition mret {A} (a : A) : M A := fun w => (Returned a, w).

Definition mbind {A B} (c : M A) (k : A -> M B) : M B :=
  fun w =>
    match c w with
    | (Raised e, w') => (Raised e, w')
    | (Returned a, w') => k a w'
    end.

Definition lift {A} (r : result A) : M A := fun w => (r, w).

Definition gets {A} (f : world -> A) : M A := fun w => (Returned (f w), w).

Definition modify (f : world -> world) : M unit := fun w => (Returned tt, f w).

(** No parameter has a gradient. *)
Definition no_grad : RNN_grad :=
  {| i2h_weight_grad := None; i2h_bias_grad := None;
     i2o_weight_grad := None; i2o_bias_grad := None |}.

(** Adding a gradient to a [.grad], or storing it where there is none. *)
Definition accumulate {A} (add : A -> A -> A) (old : option A) (g : A)
  : option A :=
  Some (match old with
        | None => g
        | Some g0 => add g0 g
        end).

(** [p.grad.data] of one parameter: [AttributeError] when [p.grad] is
    [None]. *)
Definition grad_data {A} (get : RNN_grad -> option A) : M A :=
  fun w =>
    match rnn_grad w with
    | Some g =>
        match get g with
        | Some x => (Returned x, w)
        | None => (Raised AttributeError, w)
        end
    | None => (Raised AttributeError, w)
    end.

Definition set_rnn (f : RNN -> RNN) : M unit :=
  modify (fun w => {| rnn := f (rnn w); rnn_grad := rnn_grad w;
                      stdout := stdout w; entropy := entropy w;
                      draws := draws w |}).

Declare Scope monad_scope.
Delimit Scope monad_scope with monad.
Notation "x <- c ;; k" := (mbind c (fun x => k))
  (at level 61, c at next level, right associativity) : monad_scope.
Notation "' p <- c ;; k" := (mbind c (fun x => match x with p => k end))
  (at level 61, p pattern, c at next level, right associativity) : monad_scope.
Notation "c ;; k" := (mbind c (fun _ => k))
  (at level 61, right associativity) : monad_scope.
Local Open Scope monad_scope.

(** [for a in items: body], the loop's variables being the state [s]. *)
Fixpoint for_each {A S} (items : list A) (body : A -> S -> M S) (s : S) : M S :=
  match items with
  | [] => mret s
  | a :: rest => s' <- body a s ;; for_each rest body s'
  end.

Definition range (n : nat) : list nat := seq 0 n.

(** Reading a local variable that no assignment has bound yet. *)
Definition local {A} (v : option A) : M A :=
  match v with
  | Some a => mret a
  | None => lift (Raised UnboundLocalError)
  end.

Definition print (e : event) : M unit :=
  modify (fun w => {| rnn := rnn w; rnn_grad := rnn_grad w;
                      stdout := stdout w ++ [e];
                      entropy := entropy w; draws := draws w |}).

(** [random.randint(a, b)]: [ValueError] on an empty range. *)
Definition randint (a b : Z) : M Z :=
  fun w =>
    if (b <? a)%Z then (Raised ValueError, w)
    else (Returned (a + Z.of_nat (entropy w (draws w)) mod (b - a + 1))%Z,
          {| rnn := rnn w; rnn_grad := rnn_grad w; stdout := stdout w;
             entropy := entropy w; draws := S (draws w) |}).

Definition randomChoice {A} (l : list A) : M A :=
  i <- randint 0 (Z.of_nat (length l) - 1) ;;
  lift (py_getitem l i).

(** Floats where the script divides: finite values and the IEEE infinities
    and NaN that a division by zero produces. *)
Inductive xq : Type :=
| Finite (q : Q)
| PosInf
| NegInf
| NaN.

(** [floor (log2 a)] for a positive [a]. *)
Definition floor_log2 (a : Q) : Z :=
  let k := (Z.log2 (Qnum a) - Z.log2 (Zpos (Qden a)))%Z in
  if Qle_bool (2 ^ k) a then k else (k - 1)%Z.

(** The nearest integer, a tie going to the even one. *)
Definition round_half_even (y : Q) : Z :=
  let f := Qfloor y in
  match (y - inject_Z f ?= 1 # 2)%Q with
  | Lt => f
  | Gt => (f + 1)%Z
  | Eq => if Z.even f then f else (f + 1)%Z
  end.

(** The rounding of [torch.float32], the dtype of the script's tensors:
    the nearest number [m * 2^e] of 24 significant bits with [-149 <= e],
    a tie going to the even [m], and an infinity from [2^128] on. *)
Definition float32 (x : Q) : xq :=
  if Qeq_bool x 0 then Finite 0%Q
  else
    let a := Qabs x in
    let e := Z.max (floor_log2 a - 23) (-149) in
    let m := round_half_even (a / 2 ^ e)%Q in
    let y := Qred (inject_Z m * 2 ^ e)%Q in
    if Qle_bool (2 ^ 128) y then if Qle_bool 0 x then PosInf else NegInf
    else Finite (if Qle_bool 0 x then y else - y)%Q.

(** The sum of two counts is an integer, exact in float32 while it stays
    below [2^24]; the addition is left exact. *)
Definition xadd (a b : xq) : xq :=
  match a, b with
  | NaN, _ | _, NaN => NaN
  | Finite x, Finite y => Finite (x + y)%Q
  | PosInf, NegInf | NegInf, PosInf => NaN
  | PosInf, _ | _, PosInf => PosInf
  | NegInf, _ | _, NegInf => NegInf
  end.

(** The quotient of two floats, rounded to float32. *)
Definition xdiv (a b : xq) : xq :=
  match a, b with
  | NaN, _ | _, NaN => NaN
  | Finite x, Finite y =>
      if Qeq_bool y 0 then
        if Qeq_bool x 0 then NaN
        else if Qle_bool 0 x then PosInf else NegInf
      else float32 (x / y)%Q
  | Finite _, _ => Finite 0%Q
  | PosInf, Finite y => if Qle_bool 0 y then PosInf else NegInf
  | NegInf, Finite y => if Qle_bool 0 y then NegInf else PosInf
  | _, _ => NaN
  end.


Definition xtensor1 := list xq.
Definition xtensor2 := list xtensor1.

Definition xzeros (r c : nat) : xtensor2 := repeat (repeat (Finite 0%Q) c) r.

(** [row.sum()] *)
Definition xsum (row : xtensor1) : xq := fold_right xadd (Finite 0%Q) row.

(** [t[i][j] += v] *)
Definition iadd2 (t : xtensor2) (i j : Z) (v : xq) : result xtensor2 :=
  rbind (py_getitem t i) (fun row =>
  rbind (py_getitem row j) (fun x =>
  setitem2 t i j (xadd x v))).

Section Network.

(** [nn.LogSoftmax(dim=1)] on one row and the gradients that
    [loss.backward()] leaves in [.grad] belong to the tensor library;
    the corpus is what the loading loop left in the two globals. *)
Variable log_softmax : tensor1 -> tensor1.
Variable autograd : RNN -> tensor3 -> list nat -> RNN.
Variable all_categories : list string.
Variable category_lines : dict (list pystr).

Definition n_categories : nat := length all_categories.

Definition RNN_forward (self : RNN) (input hidden : tensor2)
  : result (tensor2 * tensor2) :=
  rbind (cat1 input hidden) (fun combined =>
  rbind (Linear_forward (i2h self) combined) (fun hidden =>
  rbind (Linear_forward (i2o self) combined) (fun output =>
  let output := map log_softmax output in
  Returned (output, hidden)))).

(** [rnn(input, hidden)] on the global network. *)
Definition rnn_call (input hidden : tensor2) : M (tensor2 * tensor2) :=
  self <- gets rnn ;;
  lift (RNN_forward self input hidden).

Definition rnn_initHidden : M tensor2 :=
  self <- gets rnn ;;
  mret (initHidden self).

(** ** Step 4: training *)

Definition categoryFromOutput (output : tensor2) : result (string * nat) :=
  rbind (topk 1 output) (fun '(top_n, top_i) =>
  rbind (py_getitem top_i 0) (fun top_i0 =>
  rbind (item top_i0) (fun category_i =>
  rbind (py_getitem all_categories (Z.of_nat category_i)) (fun c =>
  Returned (c, category_i))))).

Definition randomTrainingExample
  : M (string * pystr * list nat * tensor3) :=
  category <- randomChoice all_categories ;;
  lines <- lift (match dict_get category_lines category with
                 | Some l => Returned l
                 | None => Raised KeyError
                 end) ;;
  line <- randomChoice lines ;;
  category_i <- lift (list_index all_categories category) ;;
  let category_tensor := [category_i] in
  line_tensor <- lift (lineToTensor line) ;;
  mret (category, line, category_tensor, line_tensor).

(** [rnn.zero_grad()]: the [.grad] of every parameter is reset to
    [None]. *)
Definition zero_grad : M unit :=
  modify (fun w => {| rnn := rnn w; rnn_grad := None; stdout := stdout w;
                      entropy := entropy w; draws := draws w |}).

(** [loss.backward()] after a forward pass over [line_tensor]: the
    gradient of each parameter the loss depends on is added to its
    [.grad], or stored there when that is [None]; the [.grad] of a
    parameter the loss does not depend on is left as it is. The loss is
    taken from the output of the last step, which [i2o] computes from the
    last input and the hidden state of the step before: it depends on
    [i2o] always, and on [i2h] only when there is a step before, that is
    when the line has at least two characters. *)
Definition backward (category_tensor : list nat) (line_tensor : tensor3)
  : M unit :=
  modify (fun w =>
    let g := autograd (rnn w) line_tensor category_tensor in
    let old := match rnn_grad w with
               | Some old => old
               | None => no_grad
               end in
    let reaches_i2h := 2 <=? length line_tensor in
    {| rnn := rnn w;
       rnn_grad :=
         Some {| i2h_weight_grad :=
                   if reaches_i2h
                   then accumulate (add_2 1) (i2h_weight_grad old)
                                   (weight (i2h g))
                   else i2h_weight_grad old;
                 i2h_bias_grad :=
                   if reaches_i2h
                   then accumulate (add_1 1) (i2h_bias_grad old)
                                   (bias (i2h g))
                   else i2h_bias_grad old;
                 i2o_weight_grad :=
                   accumulate (add_2 1) (i2o_weight_grad old)
                              (weight (i2o g));
                 i2o_bias_grad :=
                   accumulate (add_1 1) (i2o_bias_grad old)
                              (bias (i2o g)) |};
       stdout := stdout w; entropy := entropy w; draws := draws w |}).

(** [for p in rnn.parameters(): p.data.add_(-learning_rate, p.grad.data)],
    the parameters in the order of their definition: each is updated in
    place in its turn, and [p.grad.data] raises [AttributeError] at the
    first parameter whose [.grad] is [None]. *)
Definition sgd_step : M unit :=
  g <- grad_data i2h_weight_grad ;;
  set_rnn (fun p =>
    {| hidden_size := hidden_size p;
       i2h := {| in_features := in_features (i2h p);
                 out_features := out_features (i2h p);
                 weight := add_2 (- learning_rate) (weight (i2h p)) g;
                 bias := bias (i2h p) |};
       i2o := i2o p |}) ;;
  g <- grad_data i2h_bias_grad ;;
  set_rnn (fun p =>
    {| hidden_size := hidden_size p;
       i2h := {| in_features := in_features (i2h p);
                 out_features := out_features (i2h p);
                 weight := weight (i2h p);
                 bias := add_1 (- learning_rate) (bias (i2h p)) g |};
       i2o := i2o p |}) ;;
  g <- grad_data i2o_weight_grad ;;
  set_rnn (fun p =>
    {| hidden_size := hidden_size p;
       i2h := i2h p;
       i2o := {| in_features := in_features (i2o p);
                 out_features := out_features (i2o p);
                 weight := add_2 (- learning_rate) (weight (i2o p)) g;
                 bias := bias (i2o p) |} |}) ;;
  g <- grad_data i2o_bias_grad ;;
  set_rnn (fun p =>
    {| hidden_size := hidden_size p;
       i2h := i2h p;
       i2o := {| in_features := in_features (i2o p);
                 out_features := out_features (i2o p);
                 weight := weight (i2o p);
                 bias := add_1 (- learning_rate) (bias (i2o p)) g |} |}).

Definition train (category_tensor : list nat) (line_tensor : tensor3)
  : M (tensor2 * Q) :=
  hidden <- rnn_initHidden ;;
  zero_grad ;;
  ' (output, hidden) <-
    for_each (range (length line_tensor))
      (fun i '(output, hidden) =>
         x <- lift (py_getitem line_tensor (Z.of_nat i)) ;;
         ' (output, hidden) <- rnn_call x hidden ;;
         mret (Some output, hidden))
      (None, hidden) ;;
  output <- local output ;;
  loss <- lift (NLLLoss output category_tensor) ;;
  backward category_tensor line_tensor ;;
  sgd_step ;;
  mret (output, loss).

(** ** Step 5: evaluating the results *)

Definition evaluate (line_tensor : tensor3) : M tensor2 :=
  hidden <- rnn_initHidden ;;
  ' (output, hidden) <-
    for_each (range (length line_tensor))
      (fun i '(output, hidden) =>
         x <- lift (py_getitem line_tensor (Z.of_nat i)) ;;
         ' (output, hidden) <- rnn_call x hidden ;;
         mret (Some output, hidden))
      (None, hidden) ;;
  local output.

(** The sampling loop that fills the confusion matrix. *)
Definition confusion_accumulate (n_confusion : nat) : M xtensor2 :=
  for_each (range n_confusion)
    (fun _ confusion =>
       ' (category, line, category_tensor, line_tensor) <-
         randomTrainingExample ;;
       output <- evaluate line_tensor ;;
       ' (guess, guess_i) <- lift (categoryFromOutput output) ;;
       category_i <- lift (list_index all_categories category) ;;
       lift (iadd2 confusion (Z.of_nat category_i) (Z.of_nat guess_i)
                   (Finite 1%Q)))
    (xzeros n_categories n_categories).

(** [confusion[i] = confusion[i] / confusion[i].sum()] *)
Definition normalize_row (row : xtensor1) : xtensor1 :=
  let s := xsum row in
  map (fun x => xdiv x s) row.

Definition confusion_normalize (confusion : xtensor2) : M xtensor2 :=
  for_each (range n_categories)
    (fun i confusion =>
       row <- lift (py_getitem confusion (Z.of_nat i)) ;;
       lift (py_setitem confusion (Z.of_nat i) (normalize_row row)))
    confusion.

Definition confusion_matrix (n_confusion : nat) : M xtensor2 :=
  confusion <- confusion_accumulate n_confusion ;;
  confusion_normalize confusion.

(** The trials of the sampling loop, as pairs (index of the true category,
    index of the guess) in the order sampled: the loop of
    [confusion_accumulate] with the pair recorded instead of counted. *)
Definition confusion_trials (n_confusion : nat) : M (list (nat * nat)) :=
  for_each (range n_confusion)
    (fun _ trials =>
       ' (category, line, category_tensor, line_tensor) <-
         randomTrainingExample ;;
       output <- evaluate line_tensor ;;
       ' (guess, guess_i) <- lift (categoryFromOutput output) ;;
       category_i <- lift (list_index all_categories category) ;;
       mret (trials ++ [(category_i, guess_i)]))
    [].

(** ** Step 5.1: running on user input *)

(** The body of [predict], up to the end of its loop: the value is the
    local list [predictions]. *)
Definition predict_body (input_line : pystr) (n_predictions : nat)
  : M (list (Q * string)) :=
  print (PrintInput input_line) ;;
  line_tensor <- lift (lineToTensor input_line) ;;
  output <- evaluate line_tensor ;;
  ' (topv, topi) <- lift (topk n_predictions output) ;;
  for_each (range n_predictions)
    (fun i predictions =>
       topv0 <- lift (py_getitem topv 0) ;;
       value <- lift (py_getitem topv0 (Z.of_nat i)) ;;
       topi0 <- lift (py_getitem topi 0) ;;
       category_index <- lift (py_getitem topi0 (Z.of_nat i)) ;;
       category <-
         lift (py_getitem all_categories (Z.of_nat category_index)) ;;
       print (PrintGuess value category) ;;
       mret (predictions ++ [(value, category)]))
    [].

(** [predict] has no [return]: its value is [None]. *)
Definition predict (input_line : pystr) (n_predictions : nat) : M unit :=
  predict_body input_line n_predictions ;;
  mret tt.

End Network.

(** ** Reference definitions and sample data *)

(** The alphabet as the specification words it: the 52 letters plus space,
    period, comma and apostrophe. *)
Definition spec_alphabet : pystr := ascii_letters ++ str_of " .,'".

Definition is_ascii_letter (c : codepoint) : bool :=
  ((65 <=? c) && (c <=? 90) || (97 <=? c) && (c <=? 122))%N.

(** The extra punctuation of [all_letters]: space . , ; ' *)
Definition alphabet_punctuation : pystr := [32; 46; 44; 59; 39]%N.

(** The one-hot row with its 1 at position [n]. *)
Definition one_hot (n : nat) : tensor1 := list_set (zeros1 n_letters) n 1%Q.

(** The position a letter's index selects in a row of [n_letters] entries,
    negative indices counting from the end. *)
Definition letter_slot (letter : codepoint) : nat :=
  let k := letterToIndex letter in
  if (k <? 0)%Z then Z.to_nat (k + Z.of_nat n_letters) else Z.to_nat k.

Definition count_ones (row : tensor1) : nat :=
  length (filter (fun x => Qeq_bool x 1) row).

(** A small network and corpus to run the definitions on: two categories,
    the script's hidden width, integer weights, and in place of the
    library's log-softmax the shift of a row by its largest entry. *)
Definition sample_categories : list string := ["English"; "Spanish"]%string.

Definition sample_lines : dict (list pystr) :=
  [("English"%string, [str_of "Smith"; str_of "Jones"]);
   ("Spanish"%string, [str_of "Garcia"; str_of "Lopez"])].

Definition n_hidden : nat := 128.

Definition sample_weight (n_in n_out : nat) : tensor2 :=
  map (fun j => map (fun i => inject_Z (Z.of_nat ((i + 2 * j) mod 3) - 1))
                    (seq 0 n_in))
      (seq 0 n_out).

Definition sample_Linear (n_in n_out : nat) : Linear :=
  {| in_features := n_in;
     out_features := n_out;
     weight := sample_weight n_in n_out;
     bias := map (fun j => inject_Z (Z.of_nat (j mod 2))) (seq 0 n_out) |}.

Definition sample_rnn : RNN :=
  {| hidden_size := n_hidden;
     i2h := sample_Linear (n_letters + n_hidden) n_hidden;
     i2o := sample_Linear (n_letters + n_hidden) (length sample_categories) |}.

Definition row_max (row : tensor1) : Q :=
  match row with
  | [] => 0%Q
  | x :: rest => fold_left (fun m y => if Qle_bool m y then y else m) rest x
  end.

Definition log_softmax_sample (row : tensor1) : tensor1 :=
  let m := row_max row in
  map (fun x => (x - m)%Q) row.

Definition sample_world : world :=
  {| rnn := sample_rnn;
     rnn_grad := None;
     stdout := [];
     entropy := fun n => 7 * n + 3;
     draws := 0 |}.





(** The gradients a backward pass stores from cleared ones: those of all
    four parameters, or those of [i2o] alone. *)
Definition full_grad (g : RNN) : RNN_grad :=
  {| i2h_weight_grad := Some (weight (i2h g));
     i2h_bias_grad := Some (bias (i2h g));
     i2o_weight_grad := Some (weight (i2o g));
     i2o_bias_grad := Some (bias (i2o g)) |}.

Definition i2o_grad_only (g : RNN) : RNN_grad :=
  {| i2h_weight_grad := None;
     i2h_bias_grad := None;
     i2o_weight_grad := Some (weight (i2o g));
     i2o_bias_grad := Some (bias (i2o g)) |}.

(** The forward pass as a fold over the sequence, the loop's variables
    [(output, hidden)] being the accumulator and the parameters fixed. *)
Definition forward_step (log_softmax : tensor1 -> tensor1) (self : RNN)
  (x : tensor2) (st : option tensor2 * tensor2)
  : result (option tensor2 * tensor2) :=
  rbind (RNN_forward log_softmax self x (snd st)) (fun '(output, hidden) =>
  Returned (Some output, hidden)).

Fixpoint forward_fold (log_softmax : tensor1 -> tensor1) (self : RNN)
  (xs : tensor3) (st : option tensor2 * tensor2)
  : result (option tensor2 * tensor2) :=
  match xs with
  | [] => Returned st
  | x :: xs' =>
      rbind (forward_step log_softmax self x st)
            (forward_fold log_softmax self xs')
  end.

Definition read_output (st : option tensor2 * tensor2) : result tensor2 :=
  match fst st with
  | Some output => Returned output
  | None => Raised UnboundLocalError
  end.

(** The world after more lines have been printed. *)
Definition printed (w : world) (evs : list event) : world :=
  {| rnn := rnn w; rnn_grad := rnn_grad w; stdout := stdout w ++ evs;
     entropy := entropy w; draws := draws w |}.

Definition guess_event (p : Q * string) : event :=
  PrintGuess (fst p) (snd p).

(** Scores in non-increasing order. *)
Definition non_increasing (l : list Q) : Prop :=
  StronglySorted (fun a b => (b <= a)%Q) l.

(** A row-wise function that keeps the length of a row, as log-softmax
    does. *)
Definition keeps_length (f : tensor1 -> tensor1) : Prop :=
  forall row, length (f row) = length row.

(** A 2-D tensor of one row of [n] entries. *)
Definition one_row (n : nat) (t : tensor2) : Prop :=
  exists r, t = [r] /\ length r = n.

(** The entry [predict] reports for a (value, index) pair of the top-k. *)
Definition prediction_of (all_categories : list string) (p : Q * nat)
  : Q * string :=
  (fst p, nth (snd p) all_categories EmptyString).

(** Descending order of (value, index) pairs by value. *)
Definition ge_fst (a b : Q * nat) : Prop := (fst b <= fst a)%Q.




(** The number of trials with true category [i] and guess [j], and the
    number of trials with true category [i]. *)
Definition count_pair (i j : nat) (trials : list (nat * nat)) : nat :=
  length (filter (fun p => (fst p =? i) && (snd p =? j)) trials).

Definition count_true (i : nat) (trials : list (nat * nat)) : nat :=
  length (filter (fun p => fst p =? i) trials).

(** The matrix of the counts of a list of trials. *)
Definition counts_of (n : nat) (trials : list (nat * nat)) : xtensor2 :=
  map (fun i =>
         map (fun j => Finite (inject_Z (Z.of_nat (count_pair i j trials))))
             (seq 0 n))
      (seq 0 n).

(** The exact share of the guess [j] among the trials of true category
    [i]. *)
Definition share (i j : nat) (trials : list (nat * nat)) : Q :=
  (inject_Z (Z.of_nat (count_pair i j trials))
   / inject_Z (Z.of_nat (count_true i trials)))%Q.

(** The value of a float of the Standard Library's IEEE 754 specification,
    and an integer as a float32 there. *)
Definition xq_of_spec_float (f : spec_float) : xq :=
  match f with
  | S754_zero _ => Finite 0%Q
  | S754_infinity false => PosInf
  | S754_infinity true => NegInf
  | S754_nan => NaN
  | S754_finite s m e =>
      Finite (Qred (inject_Z (if s then Z.neg m else Z.pos m) * 2 ^ e)%Q)
  end.

Definition float32_of_Z (z : Z) : spec_float :=
  binary_normalize 24 128 z 0 false.


(** A computation whose only effect on the world is to print. *)
Definition only_prints {A} (c : M A) : Prop :=
  forall w, exists evs, snd (c w) = printed w evs.

(** No category of a name dictionary has an empty list. *)
Definition no_empty_list (d : dict (list pystr)) : Prop :=
  forall k lines, dict_get d k = Some lines -> lines <> [].

(** ** Elapsed time and the training loop *)

(** Python's [float] is the binary64 format of the primitive floats.
    [float(z)] of an integer is its nearest float, [OverflowError] beyond
    the range. *)
Definition float_of_int (z : Z) : result float :=
  let x := SF2Prim (binary_normalize prec emax z 0 false) in
  match Prim2SF x with
  | S754_infinity _ => Raised OverflowError
  | _ => Returned x
  end.

(** [math.floor(x)]: [ValueError] on NaN, [OverflowError] on an
    infinity. *)
Definition math_floor (x : float) : result Z :=
  match Prim2SF x with
  | S754_zero _ => Returned 0%Z
  | S754_finite s m e =>
      let n := if s then Z.neg m else Z.pos m in
      Returned (if (0 <=? e)%Z then n * 2 ^ e else n / 2 ^ (- e))%Z
  | S754_infinity _ => Raised OverflowError
  | S754_nan => Raised ValueError
  end.

(** [int(x)], which ['%d' % x] applies to a float: truncation toward
    zero, with the same errors. *)
Definition int_of_float (x : float) : result Z :=
  match Prim2SF x with
  | S754_zero _ => Returned 0%Z
  | S754_finite s m e =>
      let n := if s then Z.neg m else Z.pos m in
      Returned (if (0 <=? e)%Z then n * 2 ^ e else Z.quot n (2 ^ (- e)))%Z
  | S754_infinity _ => Raised OverflowError
  | S754_nan => Raised ValueError
  end.

(** [timeSince(since)], [now] being what [time.time()] reads: the minutes
    and the seconds that ['%dm %ds' % (m, s)] shows. *)
Definition timeSince (now since : float) : result (Z * Z) :=
  let s := (now - since)%float in
  rbind (math_floor (s / 60)%float) (fun m =>
  rbind (float_of_int (m * 60)%Z) (fun m60 =>
  let s := (s - m60)%float in
  rbind (int_of_float s) (fun seconds =>
  Returned (m, seconds)))).

(** [iter / n_iters * 100] under ['%d']; the quotient of the two integers
    is that of their floats, both being exact below 2^53. *)
Definition percent_done (iter n_iters : nat) : result Z :=
  rbind (float_of_int (Z.of_nat iter)) (fun a =>
  rbind (float_of_int (Z.of_nat n_iters)) (fun b =>
  int_of_float (a / b * 100)%float)).

(** A progress line of the training loop, by the values it formats; the
    correctness mark is [None] for the check mark and the true category
    for the cross. *)
Record progress : Type := {
  progress_iter : nat;
  progress_percent : Z;
  progress_time : Z * Z;
  progress_loss : Q;
  progress_line : pystr;
  progress_guess : string;
  progress_correct : option string
}.

(** The variables of the training loop; the lines it prints are collected
    in [progress_lines]. *)
Record training : Type := {
  current_loss : Q;
  all_losses : list Q;
  progress_lines : list progress
}.

Section TrainingLoop.

Variable log_softmax : tensor1 -> tensor1.
Variable autograd : RNN -> tensor3 -> list nat -> RNN.
Variable all_categories : list string.
Variable category_lines : dict (list pystr).

(** [time.time()] as read when the loop starts and in iteration [iter]. *)
Variable start : float.
Variable clock : nat -> float.

(** The loop's constants; [print_every] and [plot_every] are positive in
    the script. *)
Variable n_iters : nat.
Variable print_every : nat.
Variable plot_every : nat.

Definition training_iteration (iter : nat) (st : training) : M training :=
  ' (category, line, category_tensor, line_tensor) <-
    randomTrainingExample all_categories category_lines ;;
  ' (output, loss) <-
    train log_softmax autograd category_tensor line_tensor ;;
  let current_loss := (current_loss st + loss)%Q in
  lines <-
    (if iter mod print_every =? 0 then
       ' (guess, guess_i) <- lift (categoryFromOutput all_categories output) ;;
       let correct :=
         if String.eqb guess category then None else Some category in
       elapsed <- lift (timeSince (clock iter) start) ;;
       percent <- lift (percent_done iter n_iters) ;;
       mret (progress_lines st ++
             [{| progress_iter := iter;
                 progress_percent := percent;
                 progress_time := elapsed;
                 progress_loss := loss;
                 progress_line := line;
                 progress_guess := guess;
                 progress_correct := correct |}])
     else mret (progress_lines st)) ;;
  if iter mod plot_every =? 0 then
    mret {| current_loss := 0%Q;
            all_losses :=
              all_losses st
              ++ [(current_loss / inject_Z (Z.of_nat plot_every))%Q];
            progress_lines := lines |}
  else
    mret {| current_loss := current_loss;
            all_losses := all_losses st;
            progress_lines := lines |}.

(** [for iter in range(1, n_iters + 1): ...] from a zero running loss and
    an empty history. *)
Definition training_loop : M training :=
  for_each (seq 1 n_iters) training_iteration
    {| current_loss := 0%Q; all_losses := []; progress_lines := [] |}.

End TrainingLoop.

(** ** The LSTM classifier *)

(** The module [LSTM]: its [nn.LSTM] layer, which belongs to the tensor
    library and is taken with its weights as the function it computes (the
    output sequence and the final hidden and cell states), and its linear
    layer. *)
Record LSTM : Type := {
  LSTM_hidden_size : nat;
  LSTM_LSTM : tensor3 -> result (tensor3 * (tensor3 * tensor3));
  LSTM_linear : Linear
}.

Definition LSTM_forward (self : LSTM) (x : tensor3) : result tensor2 :=
  rbind (LSTM_LSTM self x) (fun '(lstm, _) =>
  rbind (py_getitem lstm (-1)) (fun last =>
  Linear_forward (LSTM_linear self) last)).

(** The second [predict] of the script, which asks the global [lstm]. *)
Definition predict_lstm_body (lstm : LSTM) (all_categories : list string)
  (input_line : pystr) (n_predictions : nat) : M (list (Q * string)) :=
  print (PrintInput input_line) ;;
  line_tensor <- lift (lineToTensor input_line) ;;
  output <- lift (LSTM_forward lstm line_tensor) ;;
  ' (topv, topi) <- lift (topk n_predictions output) ;;
  for_each (range n_predictions)
    (fun i predictions =>
       topv0 <- lift (py_getitem topv 0) ;;
       value <- lift (py_getitem topv0 (Z.of_nat i)) ;;
       topi0 <- lift (py_getitem topi 0) ;;
       category_index <- lift (py_getitem topi0 (Z.of_nat i)) ;;
       category <-
         lift (py_getitem all_categories (Z.of_nat category_index)) ;;
       print (PrintGuess value category) ;;
       mret (predictions ++ [(value, category)]))
    [].

Definition predict_lstm (lstm : LSTM) (all_categories : list string)
  (input_line : pystr) (n_predictions : nat) : M unit :=
  predict_lstm_body lstm all_categories input_line n_predictions ;;
  mret tt.

(** The output shape of [nn.LSTM] on a sequence of one-row inputs: one
    one-row hidden state of the hidden width per step. *)
Definition LSTM_layer_shape (n_in : nat) (self : LSTM) : Prop :=
  forall x, x <> [] -> Forall (one_row n_in) x ->
    exists seq hc,
      LSTM_LSTM self x = Returned (seq, hc) /\
      length seq = length x /\
      Forall (one_row (LSTM_hidden_size self)) seq.

(** A stand-in layer for running the definitions: the hidden state of a
    step is the first [h] entries of the step's input. *)
Definition sample_LSTM_layer (h : nat) (x : tensor3)
  : result (tensor3 * (tensor3 * tensor3)) :=
  let seq := map (fun step => map (fun row => firstn h (row ++ zeros1 h)) step) x in
  Returned (seq, ([], [])).

Definition sample_lstm : LSTM :=
  {| LSTM_hidden_size := 4;
     LSTM_LSTM := sample_LSTM_layer 4;
     LSTM_linear := sample_Linear 4 (length sample_categories) |}.

(** * Properties *)

Unset Implicit Arguments.

(** ** The alphabet *)

Lemma str_contains_In (s : pystr) (c : codepoint) :
  str_contains s c = true <-> In c s.
Proof.
  unfold str_contains. rewrite existsb_exists. split.
  - intros [x [Hin Heq]]. apply N.eqb_eq in Heq. now subst.
  - intros Hin. exists c. split; [assumption | apply N.eqb_refl].
Qed.

Lemma all_letters_below_128 (c : codepoint) :
  In c all_letters -> (c < 128)%N.
Proof.
  intros Hin.
  assert (H : forallb (fun x => (x <? 128)%N) all_letters = true)
    by (vm_compute; reflexivity).
  rewrite forallb_forall in H. apply H in Hin. now apply N.ltb_lt.
Qed.

Lemma In_all_letters_classes (c : codepoint) :
  In c all_letters <->
  is_ascii_letter c = true \/ In c alphabet_punctuation.
Proof.
  split.
  - intros Hin.
    assert (H : forallb (fun x => is_ascii_letter x
                                  || str_contains alphabet_punctuation x)
                        all_letters = true)
      by (vm_compute; reflexivity).
    rewrite forallb_forall in H. apply H in Hin.
    apply orb_true_iff in Hin. destruct Hin as [Hl | Hp].
    + now left.
    + right. now apply str_contains_In.
  - intros [Hl | Hp].
    + assert (Hc : (c < 128)%N).
      { unfold is_ascii_letter in Hl.
        apply orb_true_iff in Hl.
        destruct Hl as [Hl | Hl]; apply andb_true_iff in Hl;
          destruct Hl as [_ Hl]; apply N.leb_le in Hl; lia. }
      assert (H : forallb (fun n => implb (is_ascii_letter (N.of_nat n))
                                          (str_contains all_letters (N.of_nat n)))
                          (seq 0 128) = true)
        by (vm_compute; reflexivity).
      rewrite forallb_forall in H.
      specialize (H (N.to_nat c)).
      rewrite N2Nat.id in H.
      apply str_contains_In.
      assert (Hs : In (N.to_nat c) (seq 0 128)) by (apply in_seq; lia).
      apply H in Hs. rewrite Hl in Hs. exact Hs.
    + assert (H : forallb (str_contains all_letters) alphabet_punctuation = true)
        by (vm_compute; reflexivity).
      rewrite forallb_forall in H. apply str_contains_In. now apply H.
Qed.

(** C2 (as stated, refuted): the alphabet does not have 55 characters, and
    it is not the 52 letters plus space, period, comma and apostrophe: the
    semicolon is a member too. *)
Lemma C2_alphabet_not_55 :
  ~ (n_letters = 55 /\ forall c, In c all_letters <-> In c spec_alphabet).
Proof.
  intros [H _]. vm_compute in H. discriminate H.
Qed.

(** C2 (amended): the fixed alphabet has exactly 57 distinct characters:
    the 52 upper- and lower-case ASCII letters plus space, period, comma,
    semicolon and apostrophe. *)
Theorem C2_alphabet_57 :
  n_letters = 57 /\
  NoDup all_letters /\
  (forall c, In c all_letters <->
             is_ascii_letter c = true \/ In c alphabet_punctuation) /\
  In 59%N all_letters /\ ~ In 59%N spec_alphabet.
Proof.
  split; [reflexivity |].
  split.
  { assert (H : nodup N.eq_dec all_letters = all_letters)
      by (vm_compute; reflexivity).
    rewrite <- H. apply NoDup_nodup. }
  split; [apply In_all_letters_classes |].
  split.
  - apply str_contains_In. reflexivity.
  - intros H. apply str_contains_In in H. vm_compute in H. discriminate H.
Qed.

(** ** The encoder *)

Lemma find_from_range (s : pystr) (c : codepoint) (i : Z) :
  find_from s c i = (-1)%Z \/
  (i <= find_from s c i < i + Z.of_nat (length s))%Z.
Proof.
  revert i. induction s as [| x s IH]; intros i; simpl.
  - now left.
  - destruct (N.eqb x c).
    + right. lia.
    + destruct (IH (i + 1)%Z) as [H | H]; [now left | right; lia].
Qed.

Lemma find_from_absent (s : pystr) (c : codepoint) (i : Z) :
  ~ In c s -> find_from s c i = (-1)%Z.
Proof.
  revert i. induction s as [| x s IH]; intros i Hn; simpl.
  - reflexivity.
  - destruct (N.eqb_spec x c) as [-> | _].
    + exfalso. apply Hn. now left.
    + apply IH. intros H. apply Hn. now right.
Qed.

Lemma find_from_present (s : pystr) (c : codepoint) (i : Z) :
  In c s -> (0 <= i)%Z ->
  (i <= find_from s c i)%Z /\
  nth_error s (Z.to_nat (find_from s c i - i)) = Some c.
Proof.
  revert i. induction s as [| x s IH]; intros i Hin Hi; simpl.
  - destruct Hin.
  - destruct (N.eqb_spec x c) as [-> | Hne].
    + rewrite Z.sub_diag. simpl. split; [lia | reflexivity].
    + destruct Hin as [-> | Hin]; [congruence |].
      destruct (IH (i + 1)%Z Hin ltac:(lia)) as [Hle Hnth].
      split; [lia |].
      replace (Z.to_nat (find_from s c (i + 1) - i))
        with (S (Z.to_nat (find_from s c (i + 1) - (i + 1)))) by lia.
      exact Hnth.
Qed.

Lemma letterToIndex_range (c : codepoint) :
  (-1 <= letterToIndex c < Z.of_nat n_letters)%Z.
Proof.
  unfold letterToIndex, str_find, n_letters.
  destruct (find_from_range all_letters c 0) as [H | H]; lia.
Qed.

Lemma letter_slot_lt (c : codepoint) : letter_slot c < n_letters.
Proof.
  unfold letter_slot. pose proof (letterToIndex_range c) as H.
  assert (Hn : n_letters = 57) by reflexivity.
  destruct (Z.ltb_spec (letterToIndex c) 0); lia.
Qed.

Lemma py_norm_index_slot (c : codepoint) :
  py_norm_index n_letters (letterToIndex c) = Some (letter_slot c).
Proof.
  unfold py_norm_index, letter_slot. cbv zeta.
  pose proof (letterToIndex_range c) as H.
  assert (Hn : n_letters = 57) by reflexivity.
  destruct (Z.leb_spec 0 (letterToIndex c)),
           (Z.ltb_spec (letterToIndex c) (Z.of_nat n_letters)),
           (Z.leb_spec (- Z.of_nat n_letters) (letterToIndex c)),
           (Z.ltb_spec (letterToIndex c) 0);
    cbn [andb]; try reflexivity; lia.
Qed.

Lemma py_norm_index_nat (len n : nat) :
  n < len -> py_norm_index len (Z.of_nat n) = Some n.
Proof.
  intros H. unfold py_norm_index. cbv zeta.
  destruct (Z.leb_spec 0 (Z.of_nat n)), (Z.ltb_spec (Z.of_nat n) (Z.of_nat len));
    cbn [andb]; try lia.
  now rewrite Nat2Z.id.
Qed.

Lemma py_getitem_nat {A} (l : list A) (n : nat) (a : A) :
  nth_error l n = Some a -> py_getitem l (Z.of_nat n) = Returned a.
Proof.
  intros H. unfold py_getitem.
  assert (Hlt : n < length l) by (apply nth_error_Some; congruence).
  rewrite (py_norm_index_nat _ _ Hlt), H. reflexivity.
Qed.

Lemma py_getitem_middle {A} (pre post : list A) (a : A) :
  py_getitem (pre ++ a :: post) (Z.of_nat (length pre)) = Returned a.
Proof.
  apply py_getitem_nat. rewrite nth_error_app2 by lia.
  now rewrite Nat.sub_diag.
Qed.

Lemma list_set_middle {A} (pre post : list A) (a b : A) :
  list_set (pre ++ a :: post) (length pre) b = pre ++ b :: post.
Proof.
  induction pre as [| x pre IH]; simpl; [reflexivity | now rewrite IH].
Qed.

Lemma py_setitem_middle {A} (pre post : list A) (a b : A) :
  py_setitem (pre ++ a :: post) (Z.of_nat (length pre)) b
  = Returned (pre ++ b :: post).
Proof.
  unfold py_setitem. rewrite py_norm_index_nat.
  - now rewrite list_set_middle.
  - rewrite length_app. simpl. lia.
Qed.

Lemma length_list_set {A} (l : list A) (n : nat) (a : A) :
  length (list_set l n a) = length l.
Proof.
  revert n. induction l as [| x l IH]; intros [| n]; simpl; auto.
Qed.

Lemma nth_error_list_set {A} (l : list A) (n j : nat) (a : A) :
  n < length l ->
  nth_error (list_set l n a) j = if j =? n then Some a else nth_error l j.
Proof.
  revert n j. induction l as [| x l IH]; intros n j Hn; simpl in Hn; [lia |].
  destruct n as [| n], j as [| j]; simpl; try reflexivity.
  apply IH. lia.
Qed.

(** Writing the 1 of one letter into a fresh row of zeros. *)
Lemma setitem2_letter (c : codepoint) :
  setitem2 (zeros2 1 n_letters) 0 (letterToIndex c) 1%Q
  = Returned [one_hot (letter_slot c)].
Proof.
  unfold setitem2, zeros2. simpl repeat.
  change (py_getitem [zeros1 n_letters] 0) with (Returned (zeros1 n_letters)).
  simpl rbind. unfold py_setitem at 1.
  replace (length (zeros1 n_letters)) with n_letters
    by (unfold zeros1; now rewrite repeat_length).
  rewrite py_norm_index_slot. simpl rbind. reflexivity.
Qed.

Lemma lineToTensor_loop_spec (rest : pystr) (pre : tensor3) :
  lineToTensor_loop (combine (seq (length pre) (length rest)) rest)
                    (pre ++ repeat (zeros2 1 n_letters) (length rest))
  = Returned (pre ++ map (fun c => [one_hot (letter_slot c)]) rest).
Proof.
  revert pre. induction rest as [| c rest IH]; intros pre.
  - reflexivity.
  - cbn [length seq combine lineToTensor_loop repeat map].
    unfold setitem3. rewrite py_getitem_middle. cbn [rbind].
    rewrite setitem2_letter. cbn [rbind].
    rewrite py_setitem_middle. cbn [rbind].
    specialize (IH (pre ++ [[one_hot (letter_slot c)]])).
    rewrite length_app in IH. simpl length in IH.
    rewrite Nat.add_1_r in IH.
    rewrite <- !app_assoc in IH. simpl app in IH. exact IH.
Qed.

(** What [lineToTensor] returns on any line: it never raises, and the
    element for a letter is the one-hot row of the slot its index selects. *)
Lemma lineToTensor_spec (line : pystr) :
  lineToTensor line
  = Returned (map (fun c => [one_hot (letter_slot c)]) line).
Proof.
  unfold lineToTensor, enumerate, zeros3.
  exact (lineToTensor_loop_spec line []).
Qed.

Lemma letter_slot_member (c : codepoint) :
  In c all_letters ->
  Z.of_nat (letter_slot c) = letterToIndex c /\
  nth_error all_letters (letter_slot c) = Some c.
Proof.
  intros Hin. unfold letter_slot, letterToIndex, str_find.
  destruct (find_from_present all_letters c 0 Hin ltac:(lia)) as [Hle Hnth].
  rewrite Z.sub_0_r in Hnth.
  destruct (Z.ltb_spec (find_from all_letters c 0) 0); [lia |].
  split; [lia | exact Hnth].
Qed.

Lemma letter_slot_absent (c : codepoint) :
  ~ In c all_letters -> letterToIndex c = (-1)%Z /\ letter_slot c = 56.
Proof.
  intros Hn.
  assert (H : letterToIndex c = (-1)%Z)
    by (apply find_from_absent; exact Hn).
  split; [exact H |]. unfold letter_slot. rewrite H. reflexivity.
Qed.

Lemma one_hot_length (n : nat) : length (one_hot n) = n_letters.
Proof.
  unfold one_hot. rewrite length_list_set. unfold zeros1.
  apply repeat_length.
Qed.

Lemma one_hot_nth (n j : nat) :
  n < n_letters ->
  nth_error (one_hot n) j =
  if j <? n_letters then Some (if j =? n then 1%Q else 0%Q) else None.
Proof.
  intros Hn. unfold one_hot.
  rewrite nth_error_list_set
    by (unfold zeros1; rewrite repeat_length; exact Hn).
  destruct (Nat.eqb_spec j n) as [-> | Hne].
  - apply Nat.ltb_lt in Hn. now rewrite Hn.
  - destruct (Nat.ltb_spec j n_letters) as [Hj | Hj].
    + unfold zeros1. now apply nth_error_repeat.
    + apply nth_error_None. unfold zeros1. now rewrite repeat_length.
Qed.

Lemma one_hot_count (n : nat) : n < n_letters -> count_ones (one_hot n) = 1.
Proof.
  intros Hn.
  assert (H : forallb (fun k => count_ones (one_hot k) =? 1) (seq 0 n_letters)
              = true) by (vm_compute; reflexivity).
  rewrite forallb_forall in H.
  apply Nat.eqb_eq. apply H. apply in_seq. lia.
Qed.

(** C3 (as stated, refuted): for the digit ["1"], which is outside the
    alphabet, the index lookup does not fail: it returns -1, and
    [lineToTensor] uses it as an index, producing the encoding of the
    apostrophe, the alphabet's last character. *)
Lemma C3_digit_is_encoded :
  ~ In 49%N all_letters /\
  letterToIndex 49%N = (-1)%Z /\
  lineToTensor [49%N] = Returned [[one_hot 56]] /\
  lineToTensor [49%N] = lineToTensor (str_of "'").
Proof.
  split.
  { intros H. apply str_contains_In in H. vm_compute in H. discriminate H. }
  split; [reflexivity |].
  split; reflexivity.
Qed.

(** C3 (amended): for every character outside the fixed alphabet,
    [letterToIndex] returns -1 without raising, and the encoder then uses
    -1 as an index into the one-hot row: [letterToTensor] and
    [lineToTensor] succeed and set the row's last position, 56. *)
Theorem C3_outside_alphabet_index (c : codepoint) (line : pystr) (i : nat) :
  ~ In c all_letters ->
  nth_error line i = Some c ->
  letterToIndex c = (-1)%Z /\
  letterToTensor c = Returned [one_hot 56] /\
  exists t, lineToTensor line = Returned t /\
            nth_error t i = Some [one_hot 56].
Proof.
  intros Hout Hnth.
  destruct (letter_slot_absent c Hout) as [Hidx Hslot].
  split; [exact Hidx |].
  split.
  - unfold letterToTensor. rewrite setitem2_letter, Hslot. reflexivity.
  - eexists. split; [apply lineToTensor_spec |].
    rewrite nth_error_map, Hnth. simpl. now rewrite Hslot.
Qed.

Lemma C3_outside_alphabet_index_witness :
  ~ In 49%N all_letters /\
  nth_error [74; 49]%N 1 = Some 49%N /\
  letterToIndex 49%N = (-1)%Z /\
  letterToTensor 49%N = Returned [one_hot 56] /\
  exists t, lineToTensor [74; 49]%N = Returned t /\
            nth_error t 1 = Some [one_hot 56].
Proof.
  assert (Hout : ~ In 49%N all_letters).
  { intros H. apply str_contains_In in H. vm_compute in H. discriminate H. }
  split; [exact Hout |].
  split; [reflexivity |].
  exact (C3_outside_alphabet_index 49%N [74; 49]%N 1 Hout eq_refl).
Defined.

(** C4: for every name whose characters are all members of the fixed
    alphabet, [lineToTensor] returns a sequence as long as the name, whose
    i-th element is one row of [n_letters] entries holding exactly one 1,
    at index [letterToIndex] of the i-th character, and 0 elsewhere. *)
Theorem C4_lineToTensor_one_hot (line : pystr) :
  Forall (fun c => In c all_letters) line ->
  exists t,
    lineToTensor line = Returned t /\
    length t = length line /\
    forall i c,
      nth_error line i = Some c ->
      exists row k,
        nth_error t i = Some [row] /\
        Z.of_nat k = letterToIndex c /\
        length row = n_letters /\
        (forall j, j < n_letters ->
                   nth_error row j = Some (if j =? k then 1%Q else 0%Q)) /\
        count_ones row = 1.
Proof.
  intros Hall. eexists. split; [apply lineToTensor_spec |].
  split; [apply length_map |].
  intros i c Hnth.
  assert (Hin : In c all_letters).
  { rewrite Forall_forall in Hall. apply Hall.
    eapply nth_error_In. exact Hnth. }
  destruct (letter_slot_member c Hin) as [Hk _].
  exists (one_hot (letter_slot c)), (letter_slot c).
  split; [rewrite nth_error_map, Hnth; reflexivity |].
  split; [exact Hk |].
  split; [apply one_hot_length |].
  split.
  - intros j Hj. rewrite one_hot_nth by apply letter_slot_lt.
    apply Nat.ltb_lt in Hj. now rewrite Hj.
  - apply one_hot_count. apply letter_slot_lt.
Qed.

Lemma C4_lineToTensor_one_hot_witness :
  Forall (fun c => In c all_letters) (str_of "Jones") /\
  exists t,
    lineToTensor (str_of "Jones") = Returned t /\
    length t = length (str_of "Jones") /\
    forall i c,
      nth_error (str_of "Jones") i = Some c ->
      exists row k,
        nth_error t i = Some [row] /\
        Z.of_nat k = letterToIndex c /\
        length row = n_letters /\
        (forall j, j < n_letters ->
                   nth_error row j = Some (if j =? k then 1%Q else 0%Q)) /\
        count_ones row = 1.
Proof.
  assert (H : Forall (fun c => In c all_letters) (str_of "Jones")).
  { apply Forall_forall. intros c Hc. apply str_contains_In.
    assert (Hb : forallb (str_contains all_letters) (str_of "Jones") = true)
      by reflexivity.
    rewrite forallb_forall in Hb. now apply Hb. }
  split; [exact H |].
  exact (C4_lineToTensor_one_hot (str_of "Jones") H).
Defined.

(** ** Normalization *)

Section UnicodeFacts.

Variable normalize_NFD : pystr -> pystr.
Variable category : codepoint -> string.

Lemma unicodeToAscii_In (s : pystr) (c : codepoint) :
  In c (unicodeToAscii normalize_NFD category s) <->
  In c (normalize_NFD s) /\ category c <> "Mn"%string /\ In c all_letters.
Proof.
  unfold unicodeToAscii. rewrite filter_In, andb_true_iff.
  rewrite negb_true_iff, str_contains_In.
  split; intros [H1 [H2 H3]]; (split; [exact H1 | split; [| exact H3]]).
  - intros Heq. apply String.eqb_eq in Heq. congruence.
  - apply String.eqb_neq. exact H2.
Qed.

Lemma filter_andb {A} (f g : A -> bool) (l : list A) :
  filter (fun x => f x && g x) l = filter g (filter f l).
Proof.
  induction l as [| x l IH]; simpl; [reflexivity |].
  destruct (f x); simpl; [destruct (g x) |]; now rewrite IH.
Qed.

Lemma filter_all_true {A} (f : A -> bool) (l : list A) :
  (forall x, In x l -> f x = true) -> filter f l = l.
Proof.
  induction l as [| x l IH]; intros H; simpl; [reflexivity |].
  rewrite (H x (or_introl eq_refl)). f_equal.
  apply IH. intros y Hy. apply H. now right.
Qed.

(** C7: every character of the output of [unicodeToAscii] is a member of
    the fixed alphabet, and every character of the decomposed input that
    is outside the alphabet is dropped: the output is the decomposed
    input without its combining marks, filtered by membership. *)
Theorem C7_unicodeToAscii_in_alphabet (s : pystr) :
  (forall c, In c (unicodeToAscii normalize_NFD category s) ->
             In c all_letters) /\
  (forall c, In c (normalize_NFD s) -> ~ In c all_letters ->
             ~ In c (unicodeToAscii normalize_NFD category s)) /\
  unicodeToAscii normalize_NFD category s
  = filter (str_contains all_letters)
      (filter (fun c => negb (String.eqb (category c) "Mn"))
              (normalize_NFD s)).
Proof.
  split; [| split].
  - intros c Hc. now apply unicodeToAscii_In in Hc.
  - intros c _ Hout Hc. apply unicodeToAscii_In in Hc. tauto.
  - unfold unicodeToAscii. apply filter_andb.
Qed.

(** C8: normalization is idempotent, given of the Unicode tables that a
    string over the alphabet is its own canonical decomposition and that
    no character of the alphabet is a combining mark. *)
Theorem C8_unicodeToAscii_idempotent (s : pystr) :
  (forall t, Forall (fun c => In c all_letters) t -> normalize_NFD t = t) ->
  (forall c, In c all_letters -> category c <> "Mn"%string) ->
  unicodeToAscii normalize_NFD category
    (unicodeToAscii normalize_NFD category s)
  = unicodeToAscii normalize_NFD category s.
Proof.
  intros Hnfd Hcat.
  set (out := unicodeToAscii normalize_NFD category s).
  assert (Hall : Forall (fun c => In c all_letters) out).
  { apply Forall_forall. intros c Hc. now apply unicodeToAscii_In in Hc. }
  unfold unicodeToAscii. rewrite (Hnfd _ Hall).
  apply filter_all_true. intros c Hc.
  rewrite Forall_forall in Hall. specialize (Hall c Hc).
  apply andb_true_iff. split.
  - apply negb_true_iff. apply String.eqb_neq. now apply Hcat.
  - now apply str_contains_In.
Qed.

(** ** The loader *)

Lemma split_nonempty (sep : codepoint) (s : pystr) : split sep s <> [].
Proof.
  destruct s as [| c s]; simpl; [discriminate |].
  destruct (N.eqb c sep); [discriminate |].
  destruct (split sep s); discriminate.
Qed.

Lemma readLines_nonempty (text : pystr) :
  readLines normalize_NFD category text <> [].
Proof.
  unfold readLines. intros H. apply map_eq_nil in H.
  exact (split_nonempty _ _ H).
Qed.

Lemma dict_get_set {V} (d : dict V) (k k' : string) (v : V) :
  dict_get (dict_set d k v) k'
  = if String.eqb k k' then Some v else dict_get d k'.
Proof.
  induction d as [| [k0 v0] d IH]; simpl.
  - reflexivity.
  - destruct (String.eqb_spec k0 k) as [-> | Hne]; simpl.
    + destruct (String.eqb k k'); reflexivity.
    + rewrite IH. destruct (String.eqb_spec k0 k') as [-> | Hne'].
      * destruct (String.eqb_spec k k'); [congruence | reflexivity].
      * reflexivity.
Qed.

Lemma load_files_no_empty_list (files : list (string * pystr)) (c : corpus) :
  no_empty_list (corpus_lines c) ->
  no_empty_list
    (corpus_lines (fold_left (load_file normalize_NFD category) files c)).
Proof.
  revert c. induction files as [| [name text] files IH]; intros c Hc.
  - exact Hc.
  - simpl fold_left. apply IH. simpl. intros k lines.
    rewrite dict_get_set.
    destruct (String.eqb name k).
    + intros [= <-]. apply readLines_nonempty.
    + apply Hc.
Qed.

End UnicodeFacts.

Lemma load_files_categories
  (normalize_NFD : pystr -> pystr) (category : codepoint -> string)
  (files : list (string * pystr)) (c : corpus) :
  corpus_categories (fold_left (load_file normalize_NFD category) files c)
  = corpus_categories c ++ map fst files.
Proof.
  revert c. induction files as [| [name text] files IH]; intros c; simpl.
  - now rewrite app_nil_r.
  - rewrite IH. simpl. now rewrite <- app_assoc.
Qed.

Lemma load_files_entry
  (normalize_NFD : pystr -> pystr) (category : codepoint -> string)
  (files : list (string * pystr)) (c : corpus) (name : string) :
  In name (map fst files) ->
  exists text,
    In (name, text) files /\
    dict_get (corpus_lines
                (fold_left (load_file normalize_NFD category) files c)) name
    = Some (readLines normalize_NFD category text).
Proof.
  induction files as [| [n t] files IH] using rev_ind; intros Hin.
  - destruct Hin.
  - rewrite fold_left_app. cbn [fold_left load_file corpus_lines].
    rewrite dict_get_set.
    destruct (String.eqb_spec n name) as [-> | Hne].
    + exists t. split; [apply in_or_app; right; now left | reflexivity].
    + rewrite map_app in Hin. apply in_app_or in Hin.
      destruct Hin as [Hin | [Hin | []]]; [| simpl in Hin; congruence].
      destruct (IH Hin) as [text [Htext Hget]].
      exists text. split; [apply in_or_app; now left | exact Hget].
Qed.

Lemma randomChoice_nonempty {A} (l : list A) (w : world) :
  l <> [] ->
  exists a, In a l /\
    randomChoice l w
    = (Returned a,
       {| rnn := rnn w; rnn_grad := rnn_grad w; stdout := stdout w;
          entropy := entropy w; draws := S (draws w) |}).
Proof.
  intros Hne.
  assert (Hlen : 0 < length l) by (destruct l; [congruence | simpl; lia]).
  unfold randomChoice, mbind, randint.
  destruct (Z.ltb_spec (Z.of_nat (length l) - 1) 0) as [Hlt | _]; [lia |].
  set (e := Z.of_nat (entropy w (draws w))).
  replace (0 + e mod (Z.of_nat (length l) - 1 - 0 + 1))%Z
    with (Z.of_nat (Z.to_nat (e mod Z.of_nat (length l)))).
  2:{ rewrite Z2Nat.id by (apply Z.mod_pos_bound; lia).
      rewrite Z.add_0_l. f_equal. lia. }
  assert (Hi : Z.to_nat (e mod Z.of_nat (length l)) < length l).
  { pose proof (Z.mod_pos_bound e (Z.of_nat (length l)) ltac:(lia)). lia. }
  destruct (nth_error l (Z.to_nat (e mod Z.of_nat (length l)))) as [a |] eqn:Ha.
  - exists a. split; [eapply nth_error_In; exact Ha |].
    unfold lift. now rewrite (py_getitem_nat _ _ _ Ha).
  - apply nth_error_None in Ha. lia.
Qed.

(** C9 (amended): the loader rejects no file and handles no empty
    category. Every file is loaded: its category is listed and mapped to
    the names of the lines of a file of that category; a file with no text
    but white space gives the single name that normalizing the empty
    string gives. No category is mapped to an empty list (a text always
    splits into at least one line), so [randomChoice] over a category's
    names never draws from an empty list: it returns one of the names,
    which may be the empty name. *)
Theorem C9_loader_accepts_every_file
  (normalize_NFD : pystr -> pystr) (category : codepoint -> string)
  (files : list (string * pystr)) (name : string) (text : pystr) :
  In (name, text) files ->
  In name (corpus_categories (load_corpus normalize_NFD category files)) /\
  (exists text',
      In (name, text') files /\
      dict_get (corpus_lines (load_corpus normalize_NFD category files)) name
      = Some (readLines normalize_NFD category text')) /\
  (strip text = [] ->
   readLines normalize_NFD category text
   = [unicodeToAscii normalize_NFD category []]) /\
  forall name' lines,
    dict_get (corpus_lines (load_corpus normalize_NFD category files)) name'
    = Some lines ->
    lines <> [] /\
    forall w, exists line w',
      In line lines /\ randomChoice lines w = (Returned line, w').
Proof.
  intros Hin.
  assert (Hname : In name (map fst files)).
  { apply in_map_iff. now exists (name, text). }
  split; [| split; [| split]].
  - unfold load_corpus. rewrite load_files_categories. exact Hname.
  - unfold load_corpus. now apply load_files_entry.
  - intros Hblank. unfold readLines. now rewrite Hblank.
  - intros name' lines Hget.
    assert (Hne : lines <> []).
    { pose proof (load_files_no_empty_list normalize_NFD category files
                    {| corpus_categories := []; corpus_lines := [] |}) as H.
      apply (H ltac:(intros k l Hk; discriminate Hk) name' lines Hget). }
    split; [exact Hne |].
    intros w. destruct (randomChoice_nonempty lines w Hne) as [a [Ha Hrun]].
    eauto.
Qed.

Lemma normalize_NFD_sample_alphabet (t : pystr) :
  Forall (fun c => In c all_letters) t -> normalize_NFD_sample t = t.
Proof.
  induction 1 as [| c t Hc _ IH]; [reflexivity |].
  unfold normalize_NFD_sample in *. simpl. rewrite IH.
  apply all_letters_below_128 in Hc. unfold decompose_sample.
  destruct (N.eqb_spec c 346); [lia |].
  destruct (N.eqb_spec c 224); [lia |].
  destruct (N.eqb_spec c 237); [lia | reflexivity].
Qed.

Lemma category_sample_alphabet (c : codepoint) :
  In c all_letters -> category_sample c <> "Mn"%string.
Proof.
  intros Hc. apply all_letters_below_128 in Hc. unfold category_sample.
  destruct (N.leb_spec 768 c); [lia |]. cbn [andb].
  repeat match goal with
         | |- context [if ?b then _ else _] => destruct b
         end; discriminate.
Qed.

Lemma C7_unicodeToAscii_in_alphabet_witness :
  In 769%N (normalize_NFD_sample [346; 108]%N) /\
  ~ In 769%N all_letters /\
  ~ In 769%N (unicodeToAscii normalize_NFD_sample category_sample [346; 108]%N).
Proof.
  assert (Hin : In 769%N (normalize_NFD_sample [346; 108]%N))
    by (vm_compute; tauto).
  assert (Hout : ~ In 769%N all_letters).
  { intros H. apply all_letters_below_128 in H. lia. }
  split; [exact Hin |]. split; [exact Hout |].
  exact (proj1 (proj2 (C7_unicodeToAscii_in_alphabet
                         normalize_NFD_sample category_sample [346; 108]%N))
               769%N Hin Hout).
Defined.

Lemma C8_unicodeToAscii_idempotent_witness :
  unicodeToAscii normalize_NFD_sample category_sample
    (unicodeToAscii normalize_NFD_sample category_sample
       [346; 108; 117; 115; 224; 114; 115; 107; 105]%N)
  = unicodeToAscii normalize_NFD_sample category_sample
      [346; 108; 117; 115; 224; 114; 115; 107; 105]%N.
Proof.
  exact (C8_unicodeToAscii_idempotent normalize_NFD_sample category_sample
           [346; 108; 117; 115; 224; 114; 115; 107; 105]%N
           normalize_NFD_sample_alphabet category_sample_alphabet).
Defined.

Lemma C9_loader_accepts_every_file_witness :
  In "Empty"%string
     (corpus_categories
        (load_corpus normalize_NFD_sample category_sample
           [("English"%string, str_of "Smith"); ("Empty"%string, [])])) /\
  (exists text',
      In ("Empty"%string, text')
         [("English"%string, str_of "Smith"); ("Empty"%string, [])] /\
      dict_get (corpus_lines
                  (load_corpus normalize_NFD_sample category_sample
                     [("English"%string, str_of "Smith");
                      ("Empty"%string, [])]))
               "Empty"
      = Some (readLines normalize_NFD_sample category_sample text')) /\
  (strip [] = [] ->
   readLines normalize_NFD_sample category_sample []
   = [unicodeToAscii normalize_NFD_sample category_sample []]) /\
  forall name' lines,
    dict_get (corpus_lines
                (load_corpus normalize_NFD_sample category_sample
                   [("English"%string, str_of "Smith");
                    ("Empty"%string, [])]))
             name'
    = Some lines ->
    lines <> [] /\
    forall w, exists line w',
      In line lines /\ randomChoice lines w = (Returned line, w').
Proof.
  apply (C9_loader_accepts_every_file normalize_NFD_sample category_sample
           [("English"%string, str_of "Smith"); ("Empty"%string, [])]
           "Empty" []).
  right. left. reflexivity.
Defined.

(** C9 (as stated, refuted): a file without a name is not rejected. Its
    category is listed and mapped to the one empty name; the sampler draws
    that name, whose tensor has no rows, and [evaluate] then fails on
    it. *)
Lemma C9_empty_file_is_loaded :
  corpus_categories
    (load_corpus normalize_NFD_sample category_sample [("Empty"%string, [])])
  = ["Empty"%string] /\
  corpus_lines
    (load_corpus normalize_NFD_sample category_sample [("Empty"%string, [])])
  = [("Empty"%string, [[]])] /\
  fst (randomTrainingExample ["Empty"%string] [("Empty"%string, [[]])]
                             sample_world)
  = Returned ("Empty"%string, [], [0], []) /\
  fst (evaluate log_softmax_sample [] sample_world)
  = Raised UnboundLocalError.
Proof.
  split; [reflexivity |]. split; [reflexivity |].
  split; vm_compute; reflexivity.
Qed.

(** ** The forward pass *)

Lemma skipn_nth_error {A} (l : list A) (n : nat) (a : A) :
  nth_error l n = Some a -> skipn n l = a :: skipn (S n) l.
Proof.
  revert n. induction l as [| x l IH]; intros [| n] H; simpl in *;
    try discriminate.
  - now injection H as ->.
  - now apply IH.
Qed.

(** A loop over the indices of [line_tensor] whose body reads the network
    and leaves the world alone is the fold of [forward_step]. *)
Lemma forward_loop_fold (log_softmax : tensor1 -> tensor1)
  (line_tensor : tensor3)
  (body : nat -> option tensor2 * tensor2 -> M (option tensor2 * tensor2)) :
  (forall i st w,
      body i st w
      = (rbind (py_getitem line_tensor (Z.of_nat i))
               (fun x => forward_step log_softmax (rnn w) x st), w)) ->
  forall m s st w,
    s + m <= length line_tensor ->
    for_each (seq s m) body st w
    = (forward_fold log_softmax (rnn w) (firstn m (skipn s line_tensor)) st, w).
Proof.
  intros Hbody. induction m as [| m IH]; intros s st w Hlen.
  - reflexivity.
  - destruct (nth_error line_tensor s) as [x |] eqn:Hx.
    2:{ apply nth_error_None in Hx. lia. }
    rewrite (skipn_nth_error _ _ _ Hx).
    cbn [seq for_each firstn forward_fold]. unfold mbind at 1.
    rewrite Hbody, (py_getitem_nat _ _ _ Hx). cbn [rbind].
    destruct (forward_step log_softmax (rnn w) x st) as [e | st'].
    + reflexivity.
    + cbn [rbind]. apply IH. lia.
Qed.

Lemma evaluate_fold (log_softmax : tensor1 -> tensor1)
  (line_tensor : tensor3) (w : world) :
  evaluate log_softmax line_tensor w
  = (rbind (forward_fold log_softmax (rnn w) line_tensor
                         (None, initHidden (rnn w)))
           read_output, w).
Proof.
  unfold evaluate, rnn_initHidden, range.
  unfold mbind at 1 2. unfold gets at 1, mret at 1. unfold mbind at 1.
  erewrite forward_loop_fold with (log_softmax := log_softmax).
  - rewrite skipn_O, firstn_all.
    destruct (forward_fold log_softmax (rnn w) line_tensor
                           (None, initHidden (rnn w))) as [e | [[o |] h]];
      reflexivity.
  - intros i [o h] w0. cbv [mbind lift rnn_call gets mret forward_step].
    destruct (py_getitem line_tensor (Z.of_nat i)) as [e | x]; [reflexivity |].
    cbn [rbind snd].
    destruct (RNN_forward log_softmax (rnn w0) x h) as [e | [o' h']];
      reflexivity.
  - simpl. lia.
Qed.

(** What [train] returns and does to the world, by the outcome of its
    forward pass and of the loss, and by whether the loss reaches [i2h]. *)
Lemma train_run (log_softmax : tensor1 -> tensor1)
  (autograd : RNN -> tensor3 -> list nat -> RNN)
  (category_tensor : list nat) (line_tensor : tensor3) (w : world) :
  train log_softmax autograd category_tensor line_tensor w
  = match rbind (forward_fold log_softmax (rnn w) line_tensor
                              (None, initHidden (rnn w)))
                (fun st =>
                   rbind (read_output st) (fun output =>
                   rbind (NLLLoss output category_tensor) (fun loss =>
                   Returned (output, loss))))
    with
    | Raised e =>
        (Raised e,
         {| rnn := rnn w; rnn_grad := None; stdout := stdout w;
            entropy := entropy w; draws := draws w |})
    | Returned r =>
        if 2 <=? length line_tensor then
          (Returned r,
           {| rnn := RNN_add (- learning_rate) (rnn w)
                             (autograd (rnn w) line_tensor category_tensor);
              rnn_grad :=
                Some (full_grad
                        (autograd (rnn w) line_tensor category_tensor));
              stdout := stdout w; entropy := entropy w; draws := draws w |})
        else
          (Raised AttributeError,
           {| rnn := rnn w;
              rnn_grad :=
                Some (i2o_grad_only
                        (autograd (rnn w) line_tensor category_tensor));
              stdout := stdout w; entropy := entropy w; draws := draws w |})
    end.
Proof.
  unfold train, rnn_initHidden, range.
  unfold mbind at 1 2. unfold gets at 1, mret at 1.
  unfold mbind at 1. unfold zero_grad at 1, modify at 1.
  unfold mbind at 1.
  erewrite forward_loop_fold with (log_softmax := log_softmax).
  - rewrite skipn_O, firstn_all. cbn [rnn].
    destruct (forward_fold log_softmax (rnn w) line_tensor
                           (None, initHidden (rnn w))) as [e | [[o |] h]];
      [reflexivity | | reflexivity].
    cbn [rbind read_output fst local]. unfold mbind at 1. unfold mret at 1.
    unfold mbind at 1. unfold lift at 1.
    destruct (NLLLoss o category_tensor) as [e | loss]; [reflexivity |].
    cbn [rbind].
    cbv [mbind backward sgd_step grad_data set_rnn modify mret accumulate
         no_grad rnn rnn_grad stdout entropy draws
         i2h_weight_grad i2h_bias_grad i2o_weight_grad i2o_bias_grad].
    destruct (2 <=? length line_tensor); reflexivity.
  - intros i [o h] w0. cbv [mbind lift rnn_call gets mret forward_step].
    destruct (py_getitem line_tensor (Z.of_nat i)) as [e | x]; [reflexivity |].
    cbn [rbind snd].
    destruct (RNN_forward log_softmax (rnn w0) x h) as [e | [o' h']];
      reflexivity.
  - simpl. lia.
Qed.

(** C6: for every line tensor and every state of the parameters,
    [evaluate] leaves the world (parameters, gradients, output, random
    stream) unchanged, and [train] run from the same state computes the
    same forward pass: it fails as [evaluate] fails, or when the loss
    cannot be taken, or, on a one-character line, whose loss does not reach
    [i2h], with [AttributeError] in its update loop; otherwise it returns
    the very output that [evaluate] returns, with its loss. *)
Theorem C6_evaluate_is_forward_of_train
  (log_softmax : tensor1 -> tensor1)
  (autograd : RNN -> tensor3 -> list nat -> RNN)
  (category_tensor : list nat) (line_tensor : tensor3) (w : world) :
  snd (evaluate log_softmax line_tensor w) = w /\
  fst (train log_softmax autograd category_tensor line_tensor w)
  = rbind (fst (evaluate log_softmax line_tensor w)) (fun output =>
    rbind (NLLLoss output category_tensor) (fun loss =>
    if 2 <=? length line_tensor then Returned (output, loss)
    else Raised AttributeError)).
Proof.
  rewrite evaluate_fold, train_run. cbn [fst snd].
  split; [reflexivity |].
  destruct (forward_fold log_softmax (rnn w) line_tensor
                         (None, initHidden (rnn w))) as [e | st];
    [reflexivity |].
  cbn [rbind]. destruct (read_output st) as [e | output]; [reflexivity |].
  cbn [rbind].
  destruct (NLLLoss output category_tensor) as [e | loss]; [reflexivity |].
  cbn [rbind]. destruct (2 <=? length line_tensor); reflexivity.
Qed.

(** C10: on the empty line [lineToTensor] returns a tensor of no rows, the
    loop of [evaluate] does not run, and reading the unbound [output]
    raises [UnboundLocalError]; [predict] fails the same way, having
    printed only its input line. *)
Theorem C10_evaluate_empty_line_fails
  (log_softmax : tensor1 -> tensor1) (all_categories : list string)
  (n_predictions : nat) (w : world) :
  lineToTensor [] = Returned [] /\
  evaluate log_softmax [] w = (Raised UnboundLocalError, w) /\
  predict log_softmax all_categories [] n_predictions w
  = (Raised UnboundLocalError, printed w [PrintInput []]).
Proof.
  split; [reflexivity |]. split; reflexivity.
Qed.

(** ** Shapes along the forward pass *)

Lemma length_map2 {A B C} (f : A -> B -> C) (la : list A) (lb : list B) :
  length (map2 f la lb) = Nat.min (length la) (length lb).
Proof.
  revert lb. induction la as [| a la IH]; intros [| b lb]; simpl; auto.
Qed.

Lemma Linear_forward_shape (n_in n_out : nat) (l : Linear) (x : tensor1) :
  Linear_shape n_in n_out l ->
  length x = n_in ->
  exists y, Linear_forward l [x] = Returned [y] /\ length y = n_out.
Proof.
  intros (Hin & _ & Hw & Hb & _) Hx.
  unfold Linear_forward, mapR, Linear_row.
  rewrite Hx, Hin, Nat.eqb_refl. cbn [rbind].
  eexists. split; [reflexivity |].
  rewrite length_map2, Hw, Hb. apply Nat.min_id.
Qed.

Lemma RNN_forward_shape (log_softmax : tensor1 -> tensor1)
  (n_in n_out : nat) (self : RNN) (r h : tensor1) :
  keeps_length log_softmax ->
  RNN_shape n_in n_out self ->
  length r = n_in ->
  length h = hidden_size self ->
  exists o h',
    RNN_forward log_softmax self [r] [h] = Returned ([o], [h']) /\
    length o = n_out /\ length h' = hidden_size self.
Proof.
  intros Hls [Hh Ho] Hr Hlen.
  unfold RNN_forward, cat1. cbn [length Nat.eqb map2 rbind].
  assert (Hc : length (r ++ h) = n_in + hidden_size self)
    by (rewrite length_app; lia).
  destruct (Linear_forward_shape _ _ _ _ Hh Hc) as [h' [Eh Lh]].
  destruct (Linear_forward_shape _ _ _ _ Ho Hc) as [o [Eo Lo]].
  exists (log_softmax o), h'. unfold tensor2, tensor1 in *.
  rewrite Eh, Eo. cbn [rbind map].
  split; [reflexivity |].
  split; [now rewrite Hls | exact Lh].
Qed.

Lemma forward_fold_shape (log_softmax : tensor1 -> tensor1)
  (n_in n_out : nat) (self : RNN) :
  keeps_length log_softmax ->
  RNN_shape n_in n_out self ->
  forall (xs : tensor3) (st : option tensor2 * tensor2),
    Forall (one_row n_in) xs ->
    one_row (hidden_size self) (snd st) ->
    exists st',
      forward_fold log_softmax self xs st = Returned st' /\
      one_row (hidden_size self) (snd st') /\
      (xs <> [] \/ (exists o, fst st = Some o /\ one_row n_out o) ->
       exists o, fst st' = Some o /\ one_row n_out o).
Proof.
  intros Hls Hshape. induction xs as [| x xs IH]; intros st Hxs Hst.
  - exists st. split; [reflexivity |]. split; [exact Hst |].
    intros [H | H]; [congruence | exact H].
  - destruct (Forall_inv Hxs) as [r [-> Hr]].
    pose proof (Forall_inv_tail Hxs) as Hxs'.
    destruct st as [o0 hid]. destruct Hst as [h [Hh Hlen]].
    cbn [snd] in Hh. subst hid.
    destruct (RNN_forward_shape log_softmax n_in n_out self r h
                Hls Hshape Hr Hlen) as [o [h' [Hf [Lo Lh]]]].
    cbn [forward_fold]. unfold forward_step. cbn [snd].
    rewrite Hf. cbn [rbind].
    destruct (IH (Some [o], [h']) Hxs') as [st' [Hfold [Hhid Hout]]].
    { exists h'. split; [reflexivity | exact Lh]. }
    exists st'. split; [exact Hfold |]. split; [exact Hhid |].
    intros _. apply Hout. right. exists [o]. split; [reflexivity |].
    exists o. split; [reflexivity | exact Lo].
Qed.

(** On the encoding of a non-empty line, a network of the constructed
    shapes returns one row of one score per category. *)
Lemma evaluate_encoded_line (log_softmax : tensor1 -> tensor1)
  (n_out : nat) (line : pystr) (w : world) :
  keeps_length log_softmax ->
  RNN_shape n_letters n_out (rnn w) ->
  line <> [] ->
  exists o,
    evaluate log_softmax
      (map (fun c => [one_hot (letter_slot c)]) line) w
    = (Returned [o], w) /\ length o = n_out.
Proof.
  intros Hls Hshape Hne. rewrite evaluate_fold.
  destruct (forward_fold_shape log_softmax n_letters n_out (rnn w) Hls Hshape
              (map (fun c => [one_hot (letter_slot c)]) line)
              (None, initHidden (rnn w)))
    as [st' [Hfold [_ Hout]]].
  - apply Forall_forall. intros x Hx. apply in_map_iff in Hx.
    destruct Hx as [c [<- _]]. eexists. split; [reflexivity |].
    apply one_hot_length.
  - exists (zeros1 (hidden_size (rnn w))). split; [reflexivity |].
    apply repeat_length.
  - destruct Hout as [o [Ho [r [-> Hr]]]].
    { left. destruct line; [congruence | discriminate]. }
    exists r. rewrite Hfold. cbn [rbind]. unfold read_output. rewrite Ho.
    split; [reflexivity | exact Hr].
Qed.

(** ** Top-k selection *)

Lemma insert_desc_length (p : Q * nat) (l : list (Q * nat)) :
  length (insert_desc p l) = S (length l).
Proof.
  induction l as [| q l IH]; simpl; [reflexivity |].
  destruct (Qle_bool (fst q) (fst p)); simpl; [reflexivity | now rewrite IH].
Qed.

Lemma sort_desc_length (l : list (Q * nat)) :
  length (sort_desc l) = length l.
Proof.
  induction l as [| p l IH]; simpl; [reflexivity |].
  now rewrite insert_desc_length, IH.
Qed.

Lemma insert_desc_Forall (P : Q * nat -> Prop) (p : Q * nat)
  (l : list (Q * nat)) :
  P p -> Forall P l -> Forall P (insert_desc p l).
Proof.
  intros Hp. induction 1 as [| q l Hq Hl IH]; simpl.
  - now constructor.
  - destruct (Qle_bool (fst q) (fst p)); repeat constructor; assumption.
Qed.

Lemma sort_desc_Forall (P : Q * nat -> Prop) (l : list (Q * nat)) :
  Forall P l -> Forall P (sort_desc l).
Proof.
  induction 1 as [| p l Hp Hl IH]; simpl; [constructor |].
  now apply insert_desc_Forall.
Qed.

Lemma insert_desc_sorted (p : Q * nat) (l : list (Q * nat)) :
  StronglySorted ge_fst l -> StronglySorted ge_fst (insert_desc p l).
Proof.
  induction 1 as [| q l Hs IH Hq]; simpl.
  - repeat constructor.
  - destruct (Qle_bool (fst q) (fst p)) eqn:Hle.
    + apply Qle_bool_iff in Hle.
      constructor; [now constructor |].
      constructor; [exact Hle |].
      eapply Forall_impl; [| exact Hq].
      intros r Hr. unfold ge_fst in *. eapply Qle_trans; eassumption.
    + assert (Hlt : (fst p <= fst q)%Q).
      { destruct (Qlt_le_dec (fst p) (fst q)) as [H | H].
        - now apply Qlt_le_weak.
        - apply Qle_bool_iff in H. congruence. }
      constructor; [exact IH |].
      apply insert_desc_Forall; [exact Hlt | exact Hq].
Qed.

Lemma sort_desc_sorted (l : list (Q * nat)) :
  StronglySorted ge_fst (sort_desc l).
Proof.
  induction l as [| p l IH]; simpl; [constructor |].
  now apply insert_desc_sorted.
Qed.

Lemma In_firstn {A} (k : nat) (l : list A) (x : A) :
  In x (firstn k l) -> In x l.
Proof.
  revert k. induction l as [| a l IH]; intros [| k]; simpl; try tauto.
  intros [H | H]; [now left | right; eapply IH; exact H].
Qed.

Lemma firstn_sorted {A} (R : A -> A -> Prop) (k : nat) (l : list A) :
  StronglySorted R l -> StronglySorted R (firstn k l).
Proof.
  intros H. revert k. induction H as [| a l Hs IH Ha]; intros [| k]; simpl;
    try constructor.
  - apply IH.
  - apply Forall_forall. intros x Hx. rewrite Forall_forall in Ha.
    apply Ha. eapply In_firstn. exact Hx.
Qed.

Lemma map_fst_sorted (l : list (Q * nat)) :
  StronglySorted ge_fst l -> non_increasing (map fst l).
Proof.
  unfold non_increasing.
  induction 1 as [| a l Hs IH Ha]; simpl; constructor; [exact IH |].
  apply Forall_forall. intros x Hx. apply in_map_iff in Hx.
  destruct Hx as [b [<- Hb]]. rewrite Forall_forall in Ha. now apply Ha.
Qed.

Lemma combine_seq_bound (row : tensor1) :
  Forall (fun p : Q * nat => snd p < length row)
         (combine row (seq 0 (length row))).
Proof.
  apply Forall_forall. intros [v i] Hin. apply in_combine_r in Hin.
  apply in_seq in Hin. simpl. lia.
Qed.

(** The pairs [topk] selects from a row: as many as asked for, by
    descending value, each index within the row. *)
Lemma topk1_spec (k : nat) (row : tensor1) :
  k <= length row ->
  exists top,
    topk1 k row = Returned (map fst top, map snd top) /\
    length top = k /\
    StronglySorted ge_fst top /\
    Forall (fun p : Q * nat => snd p < length row) top.
Proof.
  intros Hk. unfold topk1.
  apply Nat.leb_le in Hk. rewrite Hk. apply Nat.leb_le in Hk.
  eexists. split; [reflexivity |]. split; [| split].
  - rewrite length_firstn, sort_desc_length, length_combine, length_seq. lia.
  - apply firstn_sorted, sort_desc_sorted.
  - apply Forall_forall. intros p Hp. apply In_firstn in Hp.
    pose proof (sort_desc_Forall _ _ (combine_seq_bound row)) as H.
    rewrite Forall_forall in H. now apply H.
Qed.

Lemma topk1_too_many (k : nat) (row : tensor1) :
  length row < k -> topk1 k row = Raised RuntimeError.
Proof.
  intros Hk. unfold topk1.
  destruct (Nat.leb_spec k (length row)); [lia | reflexivity].
Qed.

(** ** Prediction *)

Lemma printed_nil (w : world) : printed w [] = w.
Proof.
  destruct w. unfold printed. simpl. now rewrite app_nil_r.
Qed.

Lemma printed_app (w : world) (a b : list event) :
  printed (printed w a) b = printed w (a ++ b).
Proof.
  unfold printed. simpl. now rewrite app_assoc.
Qed.

Lemma py_getitem_single {A} (x : A) : py_getitem [x] 0 = Returned x.
Proof. reflexivity. Qed.

(** A loop whose body appends the entry of the i-th selected pair and
    prints it collects and prints the entries in order. *)
Lemma predict_loop_collect (all_categories : list string)
  (top : list (Q * nat))
  (body : nat -> list (Q * string) -> M (list (Q * string))) :
  (forall i p acc w,
      nth_error top i = Some p ->
      body i acc w
      = (Returned (acc ++ [prediction_of all_categories p]),
         printed w [guess_event (prediction_of all_categories p)])) ->
  forall m s acc w,
    s + m <= length top ->
    for_each (seq s m) body acc w
    = (Returned
         (acc ++ map (prediction_of all_categories) (firstn m (skipn s top))),
       printed w (map guess_event
                      (map (prediction_of all_categories)
                           (firstn m (skipn s top))))).
Proof.
  intros Hbody. induction m as [| m IH]; intros s acc w Hlen.
  - simpl. now rewrite app_nil_r, printed_nil.
  - destruct (nth_error top s) as [p |] eqn:Hp.
    2:{ apply nth_error_None in Hp. lia. }
    rewrite (skipn_nth_error _ _ _ Hp).
    cbn [seq for_each firstn map]. unfold mbind at 1.
    rewrite (Hbody _ _ _ _ Hp), IH by lia.
    rewrite printed_app, <- app_assoc. reflexivity.
Qed.

Lemma predict_body_step (all_categories : list string) (top : list (Q * nat))
  (i : nat) (p : Q * nat) (acc : list (Q * string)) (w : world) :
  Forall (fun q : Q * nat => snd q < length all_categories) top ->
  nth_error top i = Some p ->
  (topv0 <- lift (py_getitem [map fst top] 0) ;;
   value <- lift (py_getitem topv0 (Z.of_nat i)) ;;
   topi0 <- lift (py_getitem [map snd top] 0) ;;
   category_index <- lift (py_getitem topi0 (Z.of_nat i)) ;;
   category <- lift (py_getitem all_categories (Z.of_nat category_index)) ;;
   print (PrintGuess value category) ;;
   mret (acc ++ [(value, category)]))%monad w
  = (Returned (acc ++ [prediction_of all_categories p]),
     printed w [guess_event (prediction_of all_categories p)]).
Proof.
  intros Hbound Hp.
  assert (Hlt : snd p < length all_categories).
  { rewrite Forall_forall in Hbound. apply Hbound.
    eapply nth_error_In. exact Hp. }
  assert (Hv : py_getitem (map fst top) (Z.of_nat i) = Returned (fst p)).
  { apply py_getitem_nat. now rewrite nth_error_map, Hp. }
  assert (Hi : py_getitem (map snd top) (Z.of_nat i) = Returned (snd p)).
  { apply py_getitem_nat. now rewrite nth_error_map, Hp. }
  assert (Hc : py_getitem all_categories (Z.of_nat (snd p))
               = Returned (nth (snd p) all_categories EmptyString)).
  { apply py_getitem_nat. now apply nth_error_nth'. }
  cbv [mbind lift]. rewrite !py_getitem_single, Hv, Hi, Hc.
  reflexivity.
Qed.

Lemma prediction_scores (all_categories : list string) (top : list (Q * nat)) :
  map fst (map (prediction_of all_categories) top) = map fst top.
Proof.
  rewrite map_map. apply map_ext. reflexivity.
Qed.

Lemma print_run (e : event) (w : world) :
  print e w = (Returned tt, printed w [e]).
Proof. reflexivity. Qed.

Lemma topk_one_row (k : nat) (o : tensor1) :
  topk k [o]
  = rbind (topk1 k o) (fun r => Returned ([fst r], [snd r])).
Proof.
  unfold topk. cbn [mapR]. destruct (topk1 k o); reflexivity.
Qed.

Lemma combine_seq_entries (row : tensor1) (s : nat) :
  Forall (fun p : Q * nat =>
            s <= snd p /\ nth_error row (snd p - s) = Some (fst p))
         (combine row (seq s (length row))).
Proof.
  revert s. induction row as [| v row IH]; intros s; simpl; constructor.
  - simpl. rewrite Nat.sub_diag. split; [lia | reflexivity].
  - eapply Forall_impl; [| exact (IH (S s))].
    intros p [Hle Hnth]. split; [lia |].
    replace (snd p - s) with (S (snd p - S s)) by lia. exact Hnth.
Qed.

Lemma topk1_entries (k : nat) (row : tensor1) :
  k <= length row ->
  exists top,
    topk1 k row = Returned (map fst top, map snd top) /\
    length top = k /\
    StronglySorted ge_fst top /\
    Forall (fun p : Q * nat => nth_error row (snd p) = Some (fst p)) top.
Proof.
  intros Hk. unfold topk1.
  apply Nat.leb_le in Hk. rewrite Hk. apply Nat.leb_le in Hk.
  eexists. split; [reflexivity |]. split; [| split].
  - rewrite length_firstn, sort_desc_length, length_combine, length_seq. lia.
  - apply firstn_sorted, sort_desc_sorted.
  - apply Forall_forall. intros p Hp. apply In_firstn in Hp.
    pose proof (sort_desc_Forall _ _ (combine_seq_entries row 0)) as H.
    rewrite Forall_forall in H. destruct (H p Hp) as [_ Hnth].
    now rewrite Nat.sub_0_r in Hnth.
Qed.

(** The part of [predict] after [evaluate]: from one row of finite scores,
    one per category, it collects and prints the top k. *)
Lemma predict_body_report (log_softmax : tensor1 -> tensor1)
  (all_categories : list string) (line : pystr) (k : nat) (w : world)
  (scores : tensor1) :
  evaluate log_softmax (map (fun c => [one_hot (letter_slot c)]) line)
           (printed w [PrintInput line])
  = (Returned [scores], printed w [PrintInput line]) ->
  length scores = length all_categories ->
  k <= length all_categories ->
  exists top,
    predict_body log_softmax all_categories line k w
    = (Returned (map (prediction_of all_categories) top),
       printed w (PrintInput line
                  :: map guess_event (map (prediction_of all_categories) top)))
    /\ length top = k
    /\ StronglySorted ge_fst top
    /\ Forall (fun p : Q * nat =>
                 nth_error scores (snd p) = Some (fst p) /\
                 snd p < length all_categories) top.
Proof.
  intros Hev Ho Hk.
  destruct (topk1_entries k scores ltac:(lia))
    as [top [Htop [Hlen [Hsorted Hentries]]]].
  assert (Hbound : Forall (fun p : Q * nat =>
                             nth_error scores (snd p) = Some (fst p) /\
                             snd p < length all_categories) top).
  { eapply Forall_impl; [| exact Hentries]. intros p Hp.
    split; [exact Hp |]. rewrite <- Ho. apply nth_error_Some. congruence. }
  exists top. split; [| repeat split; assumption].
  unfold predict_body. unfold mbind at 1. rewrite print_run.
  unfold mbind at 1. unfold lift at 1. rewrite lineToTensor_spec.
  unfold mbind at 1. rewrite Hev.
  unfold mbind at 1. unfold lift at 1. rewrite topk_one_row, Htop.
  cbn [rbind fst snd]. unfold range.
  rewrite (predict_loop_collect all_categories top).
  - rewrite skipn_O, <- Hlen, firstn_all, printed_app. reflexivity.
  - intros i p acc w0 Hp. apply predict_body_step; [| exact Hp].
    eapply Forall_impl; [| exact Hbound]. intros q Hq. exact (proj2 Hq).
  - simpl. lia.
Qed.

Lemma predict_body_too_many (log_softmax : tensor1 -> tensor1)
  (all_categories : list string) (line : pystr) (k : nat) (w : world) :
  keeps_length log_softmax ->
  RNN_shape n_letters (length all_categories) (rnn w) ->
  line <> [] ->
  length all_categories < k ->
  predict_body log_softmax all_categories line k w
  = (Raised RuntimeError, printed w [PrintInput line]).
Proof.
  intros Hls Hshape Hne Hk.
  destruct (evaluate_encoded_line log_softmax (length all_categories) line
              (printed w [PrintInput line]) Hls Hshape Hne) as [o [Hev Ho]].
  unfold predict_body. unfold mbind at 1. rewrite print_run.
  unfold mbind at 1. unfold lift at 1. rewrite lineToTensor_spec.
  unfold mbind at 1. rewrite Hev.
  unfold mbind at 1. unfold lift at 1.
  rewrite topk_one_row, topk1_too_many by lia. reflexivity.
Qed.

Lemma sample_Linear_shape (n_in n_out : nat) :
  Linear_shape n_in n_out (sample_Linear n_in n_out).
Proof.
  unfold Linear_shape, sample_Linear, sample_weight. simpl.
  repeat split; try (now rewrite length_map, length_seq).
  apply Forall_forall. intros row Hrow. apply in_map_iff in Hrow.
  destruct Hrow as [j [<- _]]. now rewrite length_map, length_seq.
Qed.

Lemma sample_rnn_shape :
  RNN_shape n_letters (length sample_categories) (rnn sample_world).
Proof.
  split; apply sample_Linear_shape.
Qed.

Lemma log_softmax_sample_keeps_length : keeps_length log_softmax_sample.
Proof.
  intros row. unfold log_softmax_sample. apply length_map.
Qed.

(** C1 (as stated, refuted): with two categories, asking for the top
    three does not return min(3, 2) = 2 entries: the top-k selection raises
    and [predict] reports none. *)
Lemma C1_top_three_of_two_raises :
  Nat.min 3 (n_categories sample_categories) = 2 /\
  predict log_softmax_sample sample_categories (str_of "Satoshi") 3
          sample_world
  = (Raised RuntimeError,
     printed sample_world [PrintInput (str_of "Satoshi")]).
Proof.
  split; [reflexivity |].
  vm_compute. reflexivity.
Qed.

(** C1 (amended): for every non-empty input line and every k up to the
    number of categories, [predict] completes and collects and prints
    exactly k (score, category) entries, each category one of the corpus;
    and whenever the row of scores that [evaluate] returned consists of
    finite numbers, as every tensor of this embedding does (an overflowing
    float32 forward pass, whose scores are NaN, is not covered), each
    entry pairs the score at a position with the category at that position
    and the entries are in non-increasing score order. For k above the
    number of categories the top-k selection raises and no entry is
    reported. *)
Theorem C1_predict_top_k (log_softmax : tensor1 -> tensor1)
  (all_categories : list string) (line : pystr) (k : nat) (w : world) :
  keeps_length log_softmax ->
  RNN_shape n_letters (n_categories all_categories) (rnn w) ->
  line <> [] ->
  (k <= n_categories all_categories ->
   exists predictions w',
     predict_body log_softmax all_categories line k w
     = (Returned predictions, w') /\
     snd (predict log_softmax all_categories line k w) = w' /\
     (exists r, fst (predict log_softmax all_categories line k w)
                = Returned r) /\
     stdout w' = stdout w ++ PrintInput line :: map guess_event predictions /\
     length predictions = k /\
     Forall (fun p => In (snd p) all_categories) predictions /\
     forall line_tensor scores w1,
       lineToTensor line = Returned line_tensor ->
       evaluate log_softmax line_tensor (printed w [PrintInput line])
       = (Returned [scores], w1) ->
       non_increasing (map fst predictions) /\
       Forall (fun p => exists i,
                   nth_error scores i = Some (fst p) /\
                   nth_error all_categories i = Some (snd p))
              predictions) /\
  (n_categories all_categories < k ->
   fst (predict log_softmax all_categories line k w) = Raised RuntimeError /\
   stdout (snd (predict log_softmax all_categories line k w))
   = stdout w ++ [PrintInput line]).
Proof.
  unfold n_categories. intros Hls Hshape Hne. split; intros Hk.
  - destruct (evaluate_encoded_line log_softmax (length all_categories) line
                (printed w [PrintInput line]) Hls Hshape Hne) as [o [Hev Ho]].
    destruct (predict_body_report log_softmax all_categories line k w o
                Hev Ho Hk) as [top [Hrun [Hlen [Hsorted Hbound]]]].
    exists (map (prediction_of all_categories) top).
    eexists. split; [exact Hrun |].
    unfold predict, mbind. rewrite Hrun. cbn [fst snd mret].
    split; [reflexivity |]. split; [now exists tt |].
    split; [reflexivity |].
    split; [now rewrite length_map |].
    split.
    { apply Forall_forall. intros q Hq. apply in_map_iff in Hq.
      destruct Hq as [p [<- Hp]]. rewrite Forall_forall in Hbound.
      simpl. apply nth_In. exact (proj2 (Hbound p Hp)). }
    intros line_tensor scores w1 Hlt Hev'.
    rewrite lineToTensor_spec in Hlt. injection Hlt as <-.
    rewrite Hev in Hev'. injection Hev' as <- _.
    split; [rewrite prediction_scores; now apply map_fst_sorted |].
    apply Forall_forall. intros q Hq. apply in_map_iff in Hq.
    destruct Hq as [p [<- Hp]]. rewrite Forall_forall in Hbound.
    destruct (Hbound p Hp) as [Hnth Hlt]. exists (snd p).
    split; [exact Hnth |]. simpl. now apply nth_error_nth'.
  - unfold predict, mbind.
    rewrite (predict_body_too_many log_softmax all_categories line k w
               Hls Hshape Hne Hk).
    split; reflexivity.
Qed.

Lemma C1_predict_top_k_witness :
  exists predictions w',
    predict_body log_softmax_sample sample_categories (str_of "Satoshi") 2
                 sample_world
    = (Returned predictions, w') /\
    snd (predict log_softmax_sample sample_categories (str_of "Satoshi") 2
                 sample_world) = w' /\
    (exists r, fst (predict log_softmax_sample sample_categories
                            (str_of "Satoshi") 2 sample_world)
               = Returned r) /\
    stdout w' = stdout sample_world
                ++ PrintInput (str_of "Satoshi") :: map guess_event predictions /\
    length predictions = 2 /\
    Forall (fun p => In (snd p) sample_categories) predictions /\
    forall line_tensor scores w1,
      lineToTensor (str_of "Satoshi") = Returned line_tensor ->
      evaluate log_softmax_sample line_tensor
               (printed sample_world [PrintInput (str_of "Satoshi")])
      = (Returned [scores], w1) ->
      non_increasing (map fst predictions) /\
      Forall (fun p => exists i,
                  nth_error scores i = Some (fst p) /\
                  nth_error sample_categories i = Some (snd p))
             predictions.
Proof.
  exact (proj1 (C1_predict_top_k log_softmax_sample sample_categories
                  (str_of "Satoshi") 2 sample_world
                  log_softmax_sample_keeps_length sample_rnn_shape
                  ltac:(discriminate))
               (le_n 2)).
Defined.

(** ** The confusion matrix *)

Lemma for_each_counted {A St} (P : nat -> St -> Prop) (items : list A)
  (body : A -> St -> M St) :
  (forall k a s w s' w',
      P k s -> body a s w = (Returned s', w') -> P (S k) s') ->
  forall k s w s' w',
    P k s -> for_each items body s w = (Returned s', w') ->
    P (k + length items) s'.
Proof.
  intros Hbody. induction items as [| a items IH]; intros k s w s' w' Hs Hrun.
  - cbv [for_each mret] in Hrun. injection Hrun as <- _.
    simpl. now rewrite Nat.add_0_r.
  - cbn [for_each] in Hrun. unfold mbind in Hrun.
    destruct (body a s w) as [[e | s1] w1] eqn:Hb; [discriminate |].
    simpl length. rewrite Nat.add_succ_r.
    apply (IH (S k) s1 w1 s' w'); [| exact Hrun].
    eapply Hbody; eassumption.
Qed.

Lemma py_getitem_inv {A} (l : list A) (i : Z) (a : A) :
  py_getitem l i = Returned a ->
  exists n, py_norm_index (length l) i = Some n /\ nth_error l n = Some a.
Proof.
  unfold py_getitem. destruct (py_norm_index (length l) i) as [n |];
    [| discriminate].
  destruct (nth_error l n) as [x |] eqn:Hx; [| discriminate].
  intros [= <-]. now exists n.
Qed.

Lemma py_setitem_inv {A} (l : list A) (i : Z) (a : A) (l' : list A) :
  py_setitem l i a = Returned l' ->
  exists n, py_norm_index (length l) i = Some n /\ l' = list_set l n a.
Proof.
  unfold py_setitem. destruct (py_norm_index (length l) i) as [n |];
    [| discriminate].
  intros [= <-]. now exists n.
Qed.




Lemma confusion_normalize_loop (rest done : xtensor2) (w : world) :
  for_each (seq (length done) (length rest))
    (fun i confusion =>
       row <- lift (py_getitem confusion (Z.of_nat i)) ;;
       lift (py_setitem confusion (Z.of_nat i) (normalize_row row)))
    (done ++ rest) w
  = (Returned (done ++ map normalize_row rest), w).
Proof.
  revert done. induction rest as [| row rest IH]; intros done.
  - reflexivity.
  - cbn [length seq for_each map]. unfold mbind at 1.
    cbv [mbind lift]. rewrite py_getitem_middle, py_setitem_middle.
    specialize (IH (done ++ [normalize_row row])).
    rewrite length_app in IH. simpl length in IH.
    rewrite Nat.add_1_r, <- !app_assoc in IH. simpl app in IH.
    cbv [mbind lift] in IH. exact IH.
Qed.

Lemma confusion_normalize_map (all_categories : list string)
  (confusion : xtensor2) (w : world) :
  length confusion = n_categories all_categories ->
  confusion_normalize all_categories confusion w
  = (Returned (map normalize_row confusion), w).
Proof.
  intros Hlen. unfold confusion_normalize, range. rewrite <- Hlen.
  exact (confusion_normalize_loop confusion [] w).
Qed.



Lemma py_norm_index_of_nat (len n m : nat) :
  py_norm_index len (Z.of_nat n) = Some m -> m = n /\ n < len.
Proof.
  unfold py_norm_index. cbv zeta. intros Hidx.
  destruct (Z.leb_spec 0 (Z.of_nat n)), (Z.ltb_spec (Z.of_nat n) (Z.of_nat len)),
           (Z.leb_spec (- Z.of_nat len) (Z.of_nat n)),
           (Z.ltb_spec (Z.of_nat n) 0);
    cbn [andb] in Hidx; try discriminate Hidx; try lia.
  all: injection Hidx as <-; lia.
Qed.



(** ** Rounding to float32 *)

Section Float32Rounding.

Local Open Scope Q_scope.

Lemma pow2_pos (e : Z) : 0 < 2 ^ e.
Proof. apply Qpower_0_lt. reflexivity. Qed.

Lemma pow2_succ (e : Z) : 2 ^ (e + 1) == 2 * 2 ^ e.
Proof.
  rewrite Qpower_plus by discriminate. rewrite Qpower_1_r. ring.
Qed.

Lemma pow2_log2 (n : Z) :
  (0 < n)%Z ->
  2 ^ Z.log2 n <= inject_Z n /\ inject_Z n < 2 * 2 ^ Z.log2 n.
Proof.
  intros Hn. destruct (Z.log2_spec n Hn) as [Hlo Hhi].
  pose proof (Z.log2_nonneg n) as Hl.
  rewrite <- pow2_succ.
  change 2 with (inject_Z 2).
  rewrite <- !Zpower_Qpower by lia.
  rewrite <- Zle_Qle, <- Zlt_Qlt. split; [exact Hlo |].
  now rewrite <- Z.add_1_r in Hhi.
Qed.

Lemma floor_log2_spec (a : Q) :
  0 < a -> 2 ^ floor_log2 a <= a /\ a < 2 * 2 ^ floor_log2 a.
Proof.
  intros Ha. destruct a as [n d].
  assert (Hn : (0 < n)%Z).
  { unfold Qlt in Ha. simpl in Ha. lia. }
  destruct (pow2_log2 n Hn) as [Hn1 Hn2].
  destruct (pow2_log2 (Z.pos d) ltac:(lia)) as [Hd1 Hd2].
  unfold floor_log2. cbn [Qnum Qden].
  set (la := Z.log2 n) in *. set (ld := Z.log2 (Z.pos d)) in *.
  assert (Hk : 2 ^ (la - ld) * 2 ^ ld == 2 ^ la).
  { rewrite <- Qpower_plus by discriminate.
    now replace (la - ld + ld)%Z with la by lia. }
  assert (Hk1 : 2 ^ (la - ld) == 2 * 2 ^ (la - ld - 1)).
  { rewrite <- pow2_succ.
    now replace (la - ld - 1 + 1)%Z with (la - ld)%Z by lia. }
  pose proof (pow2_pos (la - ld)) as Hp.
  pose proof (pow2_pos ld) as Hpd. pose proof (pow2_pos la) as Hpa.
  assert (Hq : (n # d) * inject_Z (Z.pos d) == inject_Z n).
  { rewrite (Qmake_Qdiv n d). field. discriminate. }
  set (N := inject_Z n) in *. set (D := inject_Z (Z.pos d)) in *.
  set (P := 2 ^ (la - ld)) in *. set (A := 2 ^ la) in *.
  set (B := 2 ^ ld) in *. set (x := n # d) in *.
  assert (HD : 0 < D) by lra.
  assert (Hup : x < 2 * P).
  { apply Qmult_lt_r with (z := D); [exact HD |].
    rewrite Hq. apply Qlt_le_trans with (y := 2 * A); [exact Hn2 |].
    rewrite <- Hk.
    setoid_replace (2 * P * D) with (2 * (P * D)) by ring.
    apply Qmult_le_l; [reflexivity |].
    apply Qmult_le_l; [exact Hp | exact Hd1]. }
  assert (Hlow : P <= 2 * x).
  { apply Qmult_le_r with (z := D); [exact HD |].
    setoid_replace (2 * x * D) with (2 * (x * D)) by ring.
    rewrite Hq.
    apply Qle_trans with (y := P * (2 * B)).
    - apply Qmult_le_l; [exact Hp | lra].
    - setoid_replace (P * (2 * B)) with (2 * (P * B)) by ring.
      rewrite Hk. lra. }
  destruct (Qle_bool P x) eqn:E.
  - apply Qle_bool_iff in E. split; assumption.
  - assert (Hlt : x < P).
    { destruct (Qlt_le_dec x P) as [H | H]; [exact H |].
      apply Qle_bool_iff in H. congruence. }
    fold P in Hk1. split; lra.
Qed.

Lemma round_half_even_error (y : Q) :
  y - (1 # 2) <= inject_Z (round_half_even y) /\
  inject_Z (round_half_even y) <= y + (1 # 2).
Proof.
  unfold round_half_even.
  pose proof (Qfloor_le y) as Hlo. pose proof (Qlt_floor y) as Hhi.
  rewrite inject_Z_plus in Hhi.
  change (inject_Z 1) with 1 in Hhi.
  destruct (y - inject_Z (Qfloor y) ?= 1 # 2) eqn:E.
  - apply Qeq_alt in E.
    destruct (Z.even (Qfloor y));
      [| rewrite inject_Z_plus; change (inject_Z 1) with 1];
      split; lra.
  - apply Qlt_alt in E. split; lra.
  - apply Qgt_alt in E. rewrite inject_Z_plus.
    change (inject_Z 1) with 1. split; lra.
Qed.

(** In the normal range of float32 the rounding is finite and within a
    relative [2^-24] of the number. *)
Lemma float32_error (x : Q) :
  2 ^ (-126) <= x -> x < 2 ^ 127 ->
  exists y,
    float32 x = Finite y /\
    x - x * (1 # 16777216) <= y /\ y <= x + x * (1 # 16777216).
Proof.
  intros Hlo Hhi.
  assert (Hx : 0 < x).
  { apply Qlt_le_trans with (y := 2 ^ (-126)); [apply pow2_pos | exact Hlo]. }
  unfold float32.
  assert (Hne : Qeq_bool x 0 = false).
  { destruct (Qeq_bool x 0) eqn:E; [| reflexivity].
    apply Qeq_bool_iff in E. lra. }
  rewrite Hne.
  assert (Habs : Qabs x = x).
  { destruct x as [n d]. unfold Qlt in Hx. simpl in Hx. simpl.
    rewrite Z.abs_eq by lia. reflexivity. }
  rewrite Habs.
  destruct (floor_log2_spec x Hx) as [Hl1 Hl2].
  set (l := floor_log2 x) in *.
  assert (Hlmin : (-126 <= l)%Z).
  { assert (H : 2 ^ (-126) < 2 ^ (l + 1)).
    { rewrite pow2_succ. lra. }
    apply Qpower_lt_compat_l_inv in H; [lia | reflexivity]. }
  assert (Hlmax : (l <= 126)%Z).
  { assert (H : 2 ^ l < 2 ^ 127) by lra.
    apply Qpower_lt_compat_l_inv in H; [lia | reflexivity]. }
  rewrite Z.max_l by lia.
  set (e := (l - 23)%Z).
  pose proof (pow2_pos e) as He.
  assert (Hle : 2 ^ l == 16777216 * (2 ^ e * (1 # 2))).
  { unfold e. rewrite Qpower_minus by discriminate.
    change (2 ^ 23) with 8388608. field. }
  destruct (round_half_even_error (x / 2 ^ e)) as [Hm1 Hm2].
  set (m := inject_Z (round_half_even (x / 2 ^ e))) in *.
  assert (Hy1 : x - 2 ^ e * (1 # 2) <= m * 2 ^ e).
  { apply Qle_trans with (y := (x / 2 ^ e - (1 # 2)) * 2 ^ e).
    - apply Qle_lteq. right. field. lra.
    - apply Qmult_le_r; [exact He | exact Hm1]. }
  assert (Hy2 : m * 2 ^ e <= x + 2 ^ e * (1 # 2)).
  { apply Qle_trans with (y := (x / 2 ^ e + (1 # 2)) * 2 ^ e).
    - apply Qmult_le_r; [exact He | exact Hm2].
    - apply Qle_lteq. right. field. lra. }
  assert (Hover : Qle_bool (2 ^ 128) (Qred (m * 2 ^ e)) = false).
  { destruct (Qle_bool (2 ^ 128) (Qred (m * 2 ^ e))) eqn:E; [| reflexivity].
    apply Qle_bool_iff in E. rewrite Qred_correct in E.
    change (2 ^ 128) with (2 * 2 ^ 127) in E. lra. }
  rewrite Hover.
  assert (Hpos : Qle_bool 0 x = true) by (apply Qle_bool_iff; lra).
  rewrite Hpos. eexists. split; [reflexivity |].
  rewrite Qred_correct. split; lra.
Qed.

(** The float32 quotient of a count by a total of at most [2^24]. *)
Lemma float32_count_quotient (c s : nat) :
  (c <= s)%nat -> (0 < s)%nat -> (Z.of_nat s <= 2 ^ 24)%Z ->
  exists y,
    float32 (inject_Z (Z.of_nat c) / inject_Z (Z.of_nat s)) = Finite y /\
    inject_Z (Z.of_nat c) / inject_Z (Z.of_nat s)
    - inject_Z (Z.of_nat c) / inject_Z (Z.of_nat s) * (1 # 16777216) <= y /\
    y <= inject_Z (Z.of_nat c) / inject_Z (Z.of_nat s)
         + inject_Z (Z.of_nat c) / inject_Z (Z.of_nat s) * (1 # 16777216) /\
    ((0 < c)%nat -> 0 < y).
Proof.
  intros Hcs Hs Hmax.
  assert (HS1 : 1 <= inject_Z (Z.of_nat s)).
  { change 1 with (inject_Z 1). rewrite <- Zle_Qle. lia. }
  assert (HS2 : inject_Z (Z.of_nat s) <= 16777216).
  { change 16777216 with (inject_Z (2 ^ 24)).
    rewrite <- Zle_Qle. exact Hmax. }
  assert (HCS : inject_Z (Z.of_nat c) <= inject_Z (Z.of_nat s)).
  { rewrite <- Zle_Qle. lia. }
  destruct c as [| c].
  - exists 0. change (inject_Z (Z.of_nat 0)) with 0.
    split; [reflexivity |].
    assert (H0 : 0 / inject_Z (Z.of_nat s) == 0) by (field; lra).
    rewrite H0. split; [lra |]. split; [lra |]. intros H. lia.
  - assert (HC1 : 1 <= inject_Z (Z.of_nat (S c))).
    { change 1 with (inject_Z 1). rewrite <- Zle_Qle. lia. }
    set (C := inject_Z (Z.of_nat (S c))) in *.
    set (T := inject_Z (Z.of_nat s)) in *.
    assert (Hlow : (1 # 16777216) <= C / T).
    { apply Qle_shift_div_l; lra. }
    assert (Hup : C / T <= 1).
    { apply Qle_shift_div_r; lra. }
    assert (Hmin : 2 ^ (-126) <= 1 # 16777216) by (vm_compute; discriminate).
    assert (Hbig : 1 < 2 ^ 127) by (vm_compute; reflexivity).
    destruct (float32_error (C / T)) as [y [Hy [Hy1 Hy2]]]; [lra | lra |].
    exists y. split; [exact Hy |]. split; [exact Hy1 |].
    split; [exact Hy2 |]. intros _. lra.
Qed.

End Float32Rounding.

(** ** Counting the trials *)

Lemma count_pair_snoc (i j : nat) (trials : list (nat * nat)) (p : nat * nat) :
  count_pair i j (trials ++ [p])
  = count_pair i j trials
    + (if (fst p =? i) && (snd p =? j) then 1 else 0).
Proof.
  unfold count_pair. rewrite filter_app, length_app. simpl.
  destruct ((fst p =? i) && (snd p =? j)); reflexivity.
Qed.

Lemma count_pair_le_true (i j : nat) (trials : list (nat * nat)) :
  count_pair i j trials <= count_true i trials.
Proof.
  unfold count_pair, count_true.
  induction trials as [| p trials IH]; simpl; [lia |].
  destruct (fst p =? i), (snd p =? j); simpl; lia.
Qed.

Lemma count_true_le_length (i : nat) (trials : list (nat * nat)) :
  count_true i trials <= length trials.
Proof.
  unfold count_true. induction trials as [| p trials IH]; simpl; [lia |].
  destruct (fst p =? i); simpl; lia.
Qed.

Lemma list_sum_indicator (k n : nat) :
  k < n ->
  list_sum (map (fun j => if k =? j then 1 else 0) (seq 0 n)) = 1.
Proof.
  intros Hk.
  assert (H : forall s len,
             list_sum (map (fun j => if k =? j then 1 else 0) (seq s len))
             = if (s <=? k) && (k <? s + len) then 1 else 0).
  { intros s len. revert s. induction len as [| len IH]; intros s; simpl.
    - destruct (Nat.leb_spec s k), (Nat.ltb_spec k (s + 0)); simpl; lia.
    - rewrite IH.
      destruct (Nat.eqb_spec k s), (Nat.leb_spec s k),
               (Nat.leb_spec (S s) k), (Nat.ltb_spec k (S s + len)),
               (Nat.ltb_spec k (s + S len)); simpl; lia. }
  rewrite H. destruct (Nat.leb_spec 0 k), (Nat.ltb_spec k (0 + n));
    simpl; lia.
Qed.

Lemma list_sum_zero {A} (l : list A) :
  list_sum (map (fun _ => 0) l) = 0.
Proof. induction l; simpl; auto. Qed.

Lemma list_sum_plus {A} (f g : A -> nat) (l : list A) :
  list_sum (map (fun a => f a + g a) l)
  = list_sum (map f l) + list_sum (map g l).
Proof. induction l as [| a l IH]; simpl; lia. Qed.

(** The counts of a row add up to the trials of its category. *)
Lemma count_row_sum (n i : nat) (trials : list (nat * nat)) :
  Forall (fun p => fst p < n /\ snd p < n) trials ->
  list_sum (map (fun j => count_pair i j trials) (seq 0 n))
  = count_true i trials.
Proof.
  induction 1 as [| p trials [_ Hp] _ IH].
  - apply list_sum_zero.
  - unfold count_pair, count_true in *. cbn [filter].
    destruct (fst p =? i); cbn [andb length].
    + rewrite <- IH.
      rewrite (map_ext
                 (fun j => length (if snd p =? j then p :: filter (fun p0 => (fst p0 =? i) && (snd p0 =? j)) trials
                                   else filter (fun p0 => (fst p0 =? i) && (snd p0 =? j)) trials))
                 (fun j => (if snd p =? j then 1 else 0)
                           + length (filter (fun p0 => (fst p0 =? i) && (snd p0 =? j)) trials))).
      * rewrite list_sum_plus, (list_sum_indicator (snd p) n Hp). reflexivity.
      * intros j. destruct (snd p =? j); reflexivity.
    + exact IH.
Qed.

Lemma nth_error_map_seq {A} (f : nat -> A) (n k : nat) :
  nth_error (map f (seq 0 n)) k = if k <? n then Some (f k) else None.
Proof.
  rewrite nth_error_map, nth_error_seq.
  destruct (k <? n); reflexivity.
Qed.

Lemma length_counts_of (n : nat) (trials : list (nat * nat)) :
  length (counts_of n trials) = n.
Proof. unfold counts_of. now rewrite length_map, length_seq. Qed.

(** One more trial: the cell of its pair grows by one. *)
Lemma iadd2_counts_of (n : nat) (trials : list (nat * nat))
  (category_i guess_i : nat) (t' : xtensor2) :
  iadd2 (counts_of n trials) (Z.of_nat category_i) (Z.of_nat guess_i)
        (Finite 1%Q)
  = Returned t' ->
  category_i < n /\ guess_i < n /\
  t' = counts_of n (trials ++ [(category_i, guess_i)]).
Proof.
  intros Hrun. unfold iadd2, setitem2 in Hrun.
  unfold xtensor2, xtensor1 in *.
  destruct (py_getitem _ (Z.of_nat category_i)) as [e | row] eqn:Hrow;
    [discriminate |].
  cbn [rbind] in Hrun.
  destruct (py_getitem row (Z.of_nat guess_i)) as [e | x] eqn:Hx;
    [discriminate |].
  cbn [rbind] in Hrun.
  destruct (py_setitem row (Z.of_nat guess_i) (xadd x (Finite 1%Q)))
    as [e | row'] eqn:Hset; [cbn [rbind] in Hrun; discriminate Hrun |].
  cbn [rbind] in Hrun.
  apply py_getitem_inv in Hrow. destruct Hrow as [ni [Hi Hni]].
  apply py_norm_index_of_nat in Hi. destruct Hi as [-> Hci].
  apply py_getitem_inv in Hx. destruct Hx as [nj [Hj Hnj]].
  apply py_norm_index_of_nat in Hj. destruct Hj as [-> Hgi].
  apply py_setitem_inv in Hset. destruct Hset as [nj [Hj ->]].
  apply py_norm_index_of_nat in Hj. destruct Hj as [-> _].
  apply py_setitem_inv in Hrun. destruct Hrun as [ni [Hi ->]].
  apply py_norm_index_of_nat in Hi. destruct Hi as [-> _].
  rewrite length_counts_of in Hci.
  unfold counts_of in Hni. rewrite nth_error_map_seq in Hni.
  apply Nat.ltb_lt in Hci. rewrite Hci in Hni. apply Nat.ltb_lt in Hci.
  injection Hni as <-. rewrite length_map, length_seq in Hgi.
  rewrite nth_error_map_seq in Hnj.
  apply Nat.ltb_lt in Hgi. rewrite Hgi in Hnj. apply Nat.ltb_lt in Hgi.
  injection Hnj as <-.
  split; [exact Hci |]. split; [exact Hgi |].
  apply nth_error_ext. intros i.
  rewrite nth_error_list_set by (now rewrite length_counts_of).
  unfold counts_of. rewrite !nth_error_map_seq.
  destruct (Nat.eqb_spec i category_i) as [-> | Hi].
  - apply Nat.ltb_lt in Hci. rewrite Hci. f_equal.
    apply nth_error_ext. intros j.
    rewrite nth_error_list_set by (now rewrite length_map, length_seq).
    rewrite !nth_error_map_seq.
    destruct (Nat.eqb_spec j guess_i) as [-> | Hj].
    + apply Nat.ltb_lt in Hgi. rewrite Hgi. f_equal.
      rewrite count_pair_snoc. cbn [fst snd]. rewrite !Nat.eqb_refl.
      cbn [andb xadd]. f_equal. unfold Qplus, inject_Z. cbn [Qnum Qden].
      rewrite !Z.mul_1_r. f_equal. lia.
    + destruct (j <? n); [| reflexivity]. f_equal.
      rewrite count_pair_snoc. cbn [fst snd].
      destruct (Nat.eqb_spec guess_i j); [congruence |].
      rewrite andb_false_r, Nat.add_0_r. reflexivity.
  - destruct (i <? n); [| reflexivity]. f_equal.
    apply map_ext. intros j. rewrite count_pair_snoc. cbn [fst snd].
    destruct (Nat.eqb_spec category_i i); [congruence |].
    cbn [andb]. now rewrite Nat.add_0_r.
Qed.

Lemma repeat_map_seq {A} (a : A) (n : nat) :
  repeat a n = map (fun _ => a) (seq 0 n).
Proof.
  generalize 0. induction n as [| n IH]; intros s; simpl; [reflexivity |].
  now rewrite (IH (S s)).
Qed.

Lemma xzeros_counts_of (n : nat) : xzeros n n = counts_of n [].
Proof.
  unfold xzeros, counts_of. rewrite (repeat_map_seq (repeat _ n)).
  apply map_ext. intros i. rewrite repeat_map_seq.
  apply map_ext. intros j. reflexivity.
Qed.

(** Two loops over the same items that keep a relation between their
    accumulators and leave the same world. *)
Lemma for_each_simulation {A S1 S2} (R : S1 -> S2 -> Prop) (items : list A)
  (body1 : A -> S1 -> M S1) (body2 : A -> S2 -> M S2) :
  (forall a s1 s2 w s1' w',
      R s1 s2 -> body1 a s1 w = (Returned s1', w') ->
      exists s2', body2 a s2 w = (Returned s2', w') /\ R s1' s2') ->
  forall s1 s2 w s1' w',
    R s1 s2 -> for_each items body1 s1 w = (Returned s1', w') ->
    exists s2', for_each items body2 s2 w = (Returned s2', w') /\ R s1' s2'.
Proof.
  intros Hbody.
  induction items as [| a items IH]; intros s1 s2 w s1' w' HR Hrun.
  - cbv [for_each mret] in Hrun. injection Hrun as <- <-.
    exists s2. split; [reflexivity | exact HR].
  - cbn [for_each] in Hrun |- *. unfold mbind in Hrun |- *.
    destruct (body1 a s1 w) as [[e | s1a] w1] eqn:Hb; [discriminate |].
    destruct (Hbody _ _ _ _ _ _ HR Hb) as [s2a [Hb2 HRa]].
    rewrite Hb2. eapply IH; eassumption.
Qed.

(** The counts come from the trials: the matrix after the sampling loop is
    the matrix of the counts of the (true category, guess) pairs that the
    loop went through. *)
Lemma confusion_accumulate_trials (log_softmax : tensor1 -> tensor1)
  (all_categories : list string) (category_lines : dict (list pystr))
  (n_confusion : nat) (w w' : world) (confusion : xtensor2) :
  confusion_accumulate log_softmax all_categories category_lines
                       n_confusion w
  = (Returned confusion, w') ->
  exists trials,
    confusion_trials log_softmax all_categories category_lines
                     n_confusion w
    = (Returned trials, w') /\
    length trials = n_confusion /\
    Forall (fun p => fst p < n_categories all_categories /\
                     snd p < n_categories all_categories) trials /\
    confusion = counts_of (n_categories all_categories) trials.
Proof.
  intros Hrun. unfold confusion_accumulate in Hrun.
  rewrite xzeros_counts_of in Hrun.
  eapply (for_each_simulation
            (fun conf trials =>
               conf = counts_of (n_categories all_categories) trials /\
               Forall (fun p => fst p < n_categories all_categories /\
                                snd p < n_categories all_categories)
                      trials))
    with (s2 := []) in Hrun.
  - destruct Hrun as [trials [Htr [Hconf Hrange]]].
    exists trials. split; [exact Htr |].
    split; [| split; assumption].
    unfold confusion_trials in Htr.
    apply (for_each_counted (fun k (t : list (nat * nat)) => length t = k))
      with (k := 0) in Htr.
    + unfold range in Htr. now rewrite length_seq in Htr.
    + clear. intros k _ s w s' w' Hs Hbody. unfold mbind, lift in Hbody.
      destruct (randomTrainingExample all_categories category_lines w)
        as [[e | [[[c l] ct] lt]] w1]; [discriminate |].
      destruct (evaluate log_softmax lt w1) as [[e | output] w2];
        [discriminate |].
      destruct (categoryFromOutput all_categories output) as [e | [g gi]];
        [discriminate |].
      destruct (list_index all_categories c) as [e | ci]; [discriminate |].
      cbv [mret] in Hbody. injection Hbody as <- _.
      rewrite length_app. simpl. lia.
    + reflexivity.
  - clear. intros _ conf trials w conf' w' [-> Hrange] Hbody.
    unfold mbind, lift in Hbody |- *.
    destruct (randomTrainingExample all_categories category_lines w)
      as [[e | [[[c l] ct] lt]] w1]; [discriminate |].
    destruct (evaluate log_softmax lt w1) as [[e | output] w2];
      [discriminate |].
    destruct (categoryFromOutput all_categories output) as [e | [g gi]];
      [discriminate |].
    destruct (list_index all_categories c) as [e | ci]; [discriminate |].
    injection Hbody as Hbody <-.
    apply iadd2_counts_of in Hbody. destruct Hbody as [Hci [Hgi ->]].
    eexists. split; [reflexivity |]. split; [reflexivity |].
    apply Forall_app. split; [exact Hrange |].
    constructor; [split; assumption | constructor].
  - split; [reflexivity | constructor].
Qed.

Lemma xsum_counts {A} (f : A -> nat) (l : list A) :
  xsum (map (fun a => Finite (inject_Z (Z.of_nat (f a)))) l)
  = Finite (inject_Z (Z.of_nat (list_sum (map f l)))).
Proof.
  unfold xsum. induction l as [| a l IH]; [reflexivity |].
  cbn [map fold_right]. rewrite IH. cbn [xadd]. f_equal.
  change (list_sum (f a :: map f l)) with (f a + list_sum (map f l)).
  rewrite Nat2Z.inj_add. unfold Qplus, inject_Z. cbn [Qnum Qden].
  now rewrite !Z.mul_1_r.
Qed.

(** A row of counts after the normalization: NaN throughout when its
    category has no trial, and otherwise the float32 quotients of the
    counts by the number of trials of the category. *)
Lemma normalize_counts_row (n i : nat) (trials : list (nat * nat)) :
  Forall (fun p => fst p < n /\ snd p < n) trials ->
  normalize_row
    (map (fun j => Finite (inject_Z (Z.of_nat (count_pair i j trials))))
         (seq 0 n))
  = map (fun j => if count_true i trials =? 0 then NaN
                  else float32 (share i j trials))
        (seq 0 n).
Proof.
  intros Hrange. unfold normalize_row.
  rewrite xsum_counts, (count_row_sum n i trials Hrange), map_map.
  apply map_ext. intros j. cbn [xdiv].
  pose proof (count_pair_le_true i j trials) as Hle.
  destruct (Nat.eqb_spec (count_true i trials) 0) as [H0 | H0].
  - rewrite H0 in *. assert (Hc : count_pair i j trials = 0) by lia.
    rewrite Hc. reflexivity.
  - assert (Hne : Qeq_bool (inject_Z (Z.of_nat (count_true i trials))) 0
                  = false).
    { destruct (Qeq_bool (inject_Z (Z.of_nat (count_true i trials))) 0)
        eqn:E; [| reflexivity].
      apply Qeq_bool_iff in E. unfold Qeq in E. simpl in E. lia. }
    rewrite Hne. reflexivity.
Qed.

(** The finished confusion matrix, entry by entry. *)
Lemma confusion_matrix_entries (log_softmax : tensor1 -> tensor1)
  (all_categories : list string) (category_lines : dict (list pystr))
  (n_confusion : nat) (w w' : world) (final : xtensor2) :
  confusion_matrix log_softmax all_categories category_lines n_confusion w
  = (Returned final, w') ->
  exists trials,
    confusion_trials log_softmax all_categories category_lines
                     n_confusion w
    = (Returned trials, w') /\
    length trials = n_confusion /\
    Forall (fun p => fst p < n_categories all_categories /\
                     snd p < n_categories all_categories) trials /\
    final
    = map (fun i =>
             map (fun j => if count_true i trials =? 0 then NaN
                           else float32 (share i j trials))
                 (seq 0 (n_categories all_categories)))
          (seq 0 (n_categories all_categories)).
Proof.
  intros Hrun. unfold confusion_matrix, mbind in Hrun.
  destruct (confusion_accumulate log_softmax all_categories category_lines
              n_confusion w) as [[e | confusion] w1] eqn:Hacc;
    [discriminate |].
  destruct (confusion_accumulate_trials _ _ _ _ _ _ _ Hacc)
    as [trials [Htr [Hlen [Hrange ->]]]].
  rewrite confusion_normalize_map in Hrun by apply length_counts_of.
  injection Hrun as <- <-.
  exists trials. split; [exact Htr |]. split; [exact Hlen |].
  split; [exact Hrange |].
  unfold counts_of. rewrite map_map. apply map_ext. intros i.
  now apply normalize_counts_row.
Qed.

(** ** The rows of the confusion matrix *)










(** The rounding agrees with the division of the Standard Library's
    IEEE 754 specification at the format of float32 (24 bits, exponents up
    to 128) on every count among up to 48 trials. *)
Example float32_agrees_with_SFdiv :
  forallb (fun s =>
    forallb (fun c =>
      match float32 (inject_Z (Z.of_nat c) / inject_Z (Z.of_nat s)),
            xq_of_spec_float
              (SFdiv 24 128 (float32_of_Z (Z.of_nat c))
                            (float32_of_Z (Z.of_nat s))) with
      | Finite a, Finite b => Qeq_bool a b
      | _, _ => false
      end) (seq 0 (S s))) (seq 1 48)
  = true.
Proof. vm_compute. reflexivity. Qed.

(** ** The script's examples, run on the model *)

Example unicodeToAscii_Slusarski :
  unicodeToAscii normalize_NFD_sample category_sample
    [346; 108; 117; 115; 224; 114; 115; 107; 105]%N
  = str_of "Slusarski".
Proof. reflexivity. Qed.

Example unicodeToAscii_Garcia :
  unicodeToAscii normalize_NFD_sample category_sample
    [71; 97; 114; 99; 237; 97]%N
  = str_of "Garcia".
Proof. reflexivity. Qed.

Example readLines_empty_file :
  readLines normalize_NFD_sample category_sample [] = [[]].
Proof. reflexivity. Qed.

Example letterToTensor_J :
  letterToTensor 74%N = Returned [one_hot 35].
Proof. reflexivity. Qed.

Example lineToTensor_Jones_size :
  rbind (lineToTensor (str_of "Jones"))
        (fun t => Returned (length t, map (@length _) t,
                            map (map (@length _)) t))
  = Returned (5, [1; 1; 1; 1; 1], repeat [57] 5).
Proof. reflexivity. Qed.

Example predict_Satoshi_two :
  fst (predict_body log_softmax_sample sample_categories (str_of "Satoshi") 2
                    sample_world)
  = Returned [(0%Q, "Spanish"%string);
              (inject_Z (-162887824338), "English"%string)].
Proof. vm_compute. reflexivity. Qed.

(** Tied scores: the category of the lower index wins. *)
Example categoryFromOutput_tie :
  categoryFromOutput sample_categories [[0%Q; 0%Q]]
  = Returned ("English"%string, 0).
Proof. reflexivity. Qed.

(** The clock readings 60.3 and 0.3 are doubles whose difference is 60.0:
    one minute and no second. *)
Example timeSince_one_minute :
  timeSince 0x1.e266666666666p+5%float 0x1.3333333333333p-2%float = Returned (1%Z, 0%Z).
Proof. vm_compute. reflexivity. Qed.

(** [29 / 100 * 100] is 28.999999999999996 in doubles, printed by [%d] as
    28. *)
Example percent_done_29_of_100 :
  percent_done 29 100 = Returned 28%Z.
Proof. vm_compute. reflexivity. Qed.

(** On a name of one letter the loss does not reach [i2h], whose gradient
    stays [None]: the update loop raises at the first parameter and no
    parameter has changed. *)
Example train_one_letter_name :
  let run := train log_softmax_sample (fun p _ _ => p) [0]
                   [[one_hot 0]] sample_world in
  fst run = Raised AttributeError /\
  rnn (snd run) = sample_rnn /\
  rnn_grad (snd run) = Some (i2o_grad_only sample_rnn).
Proof. vm_compute. repeat split; reflexivity. Qed.

(** A category that the sampling never drew keeps a row of zeros, which
    the normalization turns into 0/0. *)
Example confusion_unsampled_row :
  fst (confusion_matrix log_softmax_sample sample_categories sample_lines 6
                        sample_world)
  = Returned [[NaN; NaN]; [Finite 0%Q; Finite 1%Q]].
Proof. vm_compute. reflexivity. Qed.

(** * Further properties of the script *)

(** ** Encoder: indices and tensors *)

Lemma one_hot_injective (n m : nat) :
  n < n_letters -> m < n_letters -> one_hot n = one_hot m -> n = m.
Proof.
  intros Hn Hm Heq.
  assert (H : nth_error (one_hot n) n = nth_error (one_hot m) n)
    by now rewrite Heq.
  rewrite !one_hot_nth in H by assumption.
  apply Nat.ltb_lt in Hn. rewrite Hn, Nat.eqb_refl in H.
  destruct (Nat.eqb_spec n m) as [-> | _]; [reflexivity | discriminate H].
Qed.

Lemma letter_slot_injective (c d : codepoint) :
  In c all_letters -> In d all_letters ->
  letter_slot c = letter_slot d -> c = d.
Proof.
  intros Hc Hd Heq.
  destruct (letter_slot_member c Hc) as [_ Hnc].
  destruct (letter_slot_member d Hd) as [_ Hnd].
  rewrite Heq in Hnc. congruence.
Qed.

(** X1: on the alphabet, [letterToIndex] and indexing [all_letters] are
    inverse: the index of a member is within 0..56, the character at that
    index is the member itself, and hence two members with the same index
    are the same character. *)
Theorem letterToIndex_round_trip (c : codepoint) :
  In c all_letters ->
  (0 <= letterToIndex c < 57)%Z /\
  py_getitem all_letters (letterToIndex c) = Returned c /\
  forall d, In d all_letters -> letterToIndex d = letterToIndex c -> d = c.
Proof.
  intros Hc. destruct (letter_slot_member c Hc) as [Hk Hnth].
  pose proof (letter_slot_lt c) as Hlt.
  assert (Hn : n_letters = 57) by reflexivity.
  split; [lia |]. split.
  - rewrite <- Hk. now apply py_getitem_nat.
  - intros d Hd Heq. destruct (letter_slot_member d Hd) as [Hkd _].
    apply letter_slot_injective; [assumption | assumption | lia].
Qed.

Lemma letterToIndex_round_trip_witness :
  In 74%N all_letters /\
  (0 <= letterToIndex 74%N < 57)%Z /\
  py_getitem all_letters (letterToIndex 74%N) = Returned 74%N /\
  forall d, In d all_letters -> letterToIndex d = letterToIndex 74%N ->
            d = 74%N.
Proof.
  assert (H : In 74%N all_letters) by (apply str_contains_In; reflexivity).
  split; [exact H |].
  exact (letterToIndex_round_trip 74%N H).
Defined.

(** X2: the encoding is injective on names over the alphabet: two such
    names with the same tensor are the same name. *)
Theorem lineToTensor_injective (a b : pystr) :
  Forall (fun c => In c all_letters) a ->
  Forall (fun c => In c all_letters) b ->
  lineToTensor a = lineToTensor b ->
  a = b.
Proof.
  intros Ha Hb Heq. rewrite !lineToTensor_spec in Heq.
  injection Heq as Heq. revert b Hb Heq.
  induction Ha as [| c a Hc Ha IH]; intros [| d b] Hb Heq;
    simpl in Heq; try discriminate; [reflexivity |].
  injection Heq as Hrow Hrest.
  pose proof (Forall_inv Hb) as Hd. pose proof (Forall_inv_tail Hb) as Hb'.
  f_equal.
  - apply letter_slot_injective; [assumption | assumption |].
    apply one_hot_injective; [apply letter_slot_lt | apply letter_slot_lt |].
    exact Hrow.
  - now apply IH.
Qed.

Lemma lineToTensor_injective_witness :
  Forall (fun c => In c all_letters) (str_of "Jones") /\
  lineToTensor (str_of "Jones") = lineToTensor [74; 111; 110; 101; 115]%N /\
  str_of "Jones" = [74; 111; 110; 101; 115]%N.
Proof.
  assert (H : Forall (fun c => In c all_letters) (str_of "Jones")).
  { apply Forall_forall. intros c Hc. apply str_contains_In.
    assert (Hb : forallb (str_contains all_letters) (str_of "Jones") = true)
      by reflexivity.
    rewrite forallb_forall in Hb. now apply Hb. }
  split; [exact H |]. split; [reflexivity |].
  exact (lineToTensor_injective (str_of "Jones") [74; 111; 110; 101; 115]%N
           H H eq_refl).
Defined.

Lemma mapR_Returned {A B} (f : A -> result B) (g : A -> B) (l : list A) :
  (forall a, f a = Returned (g a)) -> mapR f l = Returned (map g l).
Proof.
  intros H. induction l as [| a l IH]; simpl; [reflexivity |].
  now rewrite H, IH.
Qed.

(** X3: [lineToTensor] encodes a line letter by letter: for every line,
    alphabet or not, its result is the sequence of the [letterToTensor]
    of each character, and neither function raises. *)
Theorem lineToTensor_is_letterToTensor_each (line : pystr) :
  lineToTensor line = mapR letterToTensor line /\
  exists t, lineToTensor line = Returned t /\ length t = length line.
Proof.
  rewrite lineToTensor_spec. split.
  - symmetry. apply mapR_Returned. intros c.
    unfold letterToTensor. apply setitem2_letter.
  - eexists. split; [reflexivity | apply length_map].
Qed.

(** ** Normalization and loading *)

Lemma split_length (sep : codepoint) (s : pystr) :
  length (split sep s) = S (count_occ N.eq_dec s sep).
Proof.
  induction s as [| c s IH]; [reflexivity |].
  cbn [split count_occ].
  destruct (N.eqb_spec c sep) as [-> | Hne].
  - destruct (N.eq_dec sep sep) as [_ | Hn]; [| congruence].
    simpl. now rewrite IH.
  - destruct (N.eq_dec c sep) as [He | _]; [congruence |].
    destruct (split sep s) as [| h t]; [discriminate IH | exact IH].
Qed.

Section UnicodeMore.

Variable normalize_NFD : pystr -> pystr.
Variable category : codepoint -> string.

(** X4: normalization is the identity on a name that is already over the
    alphabet, given of the Unicode tables that such a string is its own
    canonical decomposition and that no character of the alphabet is a
    combining mark. *)
Theorem unicodeToAscii_identity_on_alphabet (s : pystr) :
  (forall t, Forall (fun c => In c all_letters) t -> normalize_NFD t = t) ->
  (forall c, In c all_letters -> category c <> "Mn"%string) ->
  Forall (fun c => In c all_letters) s ->
  unicodeToAscii normalize_NFD category s = s.
Proof.
  intros Hnfd Hcat Hs. unfold unicodeToAscii. rewrite (Hnfd s Hs).
  apply filter_all_true. intros c Hc.
  rewrite Forall_forall in Hs. specialize (Hs c Hc).
  apply andb_true_iff. split.
  - apply negb_true_iff. apply String.eqb_neq. now apply Hcat.
  - now apply str_contains_In.
Qed.

(** X5: [readLines] returns one name per line of the stripped text, that
    is one more than the text has newlines after stripping, and every
    name it returns is over the alphabet. *)
Theorem readLines_names (text : pystr) :
  length (readLines normalize_NFD category text)
  = S (count_occ N.eq_dec (strip text) newline) /\
  Forall (Forall (fun c => In c all_letters))
         (readLines normalize_NFD category text).
Proof.
  unfold readLines. split.
  - now rewrite length_map, split_length.
  - apply Forall_forall. intros name Hname. apply in_map_iff in Hname.
    destruct Hname as [line [<- _]].
    apply Forall_forall. intros c Hc.
    now apply (unicodeToAscii_In normalize_NFD category) in Hc.
Qed.

(** X6: the loading loop lists the categories in the order of the files,
    one per file, and every listed category has an entry in the name
    dictionary: the lines read from a file of that category. *)
Theorem load_corpus_categories (files : list (string * pystr)) :
  corpus_categories (load_corpus normalize_NFD category files)
  = map fst files /\
  length (corpus_categories (load_corpus normalize_NFD category files))
  = length files /\
  forall name,
    In name (corpus_categories (load_corpus normalize_NFD category files)) ->
    exists text,
      In (name, text) files /\
      dict_get (corpus_lines (load_corpus normalize_NFD category files)) name
      = Some (readLines normalize_NFD category text).
Proof.
  unfold load_corpus.
  assert (Hc : corpus_categories
                 (fold_left (load_file normalize_NFD category) files
                    {| corpus_categories := []; corpus_lines := [] |})
               = map fst files)
    by (now rewrite load_files_categories).
  split; [exact Hc |]. split; [now rewrite Hc, length_map |].
  intros name Hin. rewrite Hc in Hin. now apply load_files_entry.
Qed.

End UnicodeMore.

Lemma unicodeToAscii_identity_on_alphabet_witness :
  unicodeToAscii normalize_NFD_sample category_sample (str_of "O'Neil, Jr.")
  = str_of "O'Neil, Jr.".
Proof.
  apply (unicodeToAscii_identity_on_alphabet normalize_NFD_sample
           category_sample (str_of "O'Neil, Jr.")
           normalize_NFD_sample_alphabet category_sample_alphabet).
  apply Forall_forall. intros c Hc. apply str_contains_In.
  assert (Hb : forallb (str_contains all_letters) (str_of "O'Neil, Jr.") = true)
    by reflexivity.
  rewrite forallb_forall in Hb. now apply Hb.
Defined.

(** ** Sampling *)

Lemma randomChoice_empty {A} (w : world) :
  randomChoice (@nil A) w = (Raised ValueError, w).
Proof. reflexivity. Qed.

(** X7: [randomChoice] fails exactly on the empty list: there
    [random.randint(0, -1)] raises [ValueError] and nothing is drawn; on a
    non-empty list it returns one of the elements and consumes exactly one
    draw of the random stream, touching nothing else. *)
Theorem randomChoice_behaviour {A} (l : list A) (w : world) :
  (l = [] /\ randomChoice l w = (Raised ValueError, w)) \/
  (l <> [] /\
   exists a, In a l /\
     randomChoice l w
     = (Returned a,
        {| rnn := rnn w; rnn_grad := rnn_grad w; stdout := stdout w;
           entropy := entropy w; draws := S (draws w) |})).
Proof.
  destruct l as [| x l].
  - left. split; [reflexivity | apply randomChoice_empty].
  - right. split; [discriminate |].
    apply randomChoice_nonempty. discriminate.
Qed.

Lemma list_index_In (l : list string) (x : string) :
  In x l -> exists n, list_index l x = Returned n /\ nth_error l n = Some x.
Proof.
  induction l as [| y l IH]; intros Hin; [destruct Hin |].
  simpl. destruct (String.eqb_spec y x) as [-> | Hne].
  - exists 0. split; reflexivity.
  - destruct Hin as [-> | Hin]; [congruence |].
    destruct (IH Hin) as [n [Hn Hnth]].
    exists (S n). rewrite Hn. split; [reflexivity | exact Hnth].
Qed.

(** X8: on the corpus loaded from at least one file,
    [randomTrainingExample] never fails: it returns a listed category, one
    of that category's names, the category's position in [all_categories]
    as the target, and the encoding of the name; it consumes two draws of
    the random stream and touches nothing else. *)
Theorem randomTrainingExample_loaded
  (normalize_NFD : pystr -> pystr) (category : codepoint -> string)
  (files : list (string * pystr)) (w : world) :
  files <> [] ->
  let all_categories :=
    corpus_categories (load_corpus normalize_NFD category files) in
  let category_lines :=
    corpus_lines (load_corpus normalize_NFD category files) in
  exists name line i line_tensor lines,
    randomTrainingExample all_categories category_lines w
    = (Returned (name, line, [i], line_tensor),
       {| rnn := rnn w; rnn_grad := rnn_grad w; stdout := stdout w;
          entropy := entropy w; draws := S (S (draws w)) |}) /\
    nth_error all_categories i = Some name /\
    dict_get category_lines name = Some lines /\
    In line lines /\
    lineToTensor line = Returned line_tensor.
Proof.
  intros Hne all_categories category_lines.
  assert (Hcats : all_categories = map fst files).
  { unfold all_categories, load_corpus.
    now rewrite load_files_categories. }
  assert (Hentry : forall name, In name all_categories ->
            exists text,
              In (name, text) files /\
              dict_get category_lines name
              = Some (readLines normalize_NFD category text)).
  { intros name Hin. rewrite Hcats in Hin.
    unfold category_lines, load_corpus. now apply load_files_entry. }
  assert (Hcne : all_categories <> []).
  { rewrite Hcats. destruct files; [congruence | discriminate]. }
  destruct (randomChoice_nonempty all_categories w Hcne) as [name [Hin Hrun1]].
  destruct (Hentry name Hin) as [text [_ Hget]].
  set (lines := readLines normalize_NFD category text) in *.
  assert (Hlne : lines <> []) by apply readLines_nonempty.
  destruct (randomChoice_nonempty lines
              {| rnn := rnn w; rnn_grad := rnn_grad w; stdout := stdout w;
                 entropy := entropy w; draws := S (draws w) |} Hlne)
    as [line [Hline Hrun2]].
  destruct (list_index_In all_categories name Hin) as [i [Hi Hnth]].
  exists name, line, i, (map (fun c => [one_hot (letter_slot c)]) line), lines.
  split; [| split; [exact Hnth | split; [exact Hget | split;
                    [exact Hline | apply lineToTensor_spec]]]].
  unfold randomTrainingExample. unfold mbind at 1. rewrite Hrun1.
  unfold mbind at 1. unfold lift at 1. rewrite Hget.
  unfold mbind at 1. rewrite Hrun2.
  unfold mbind at 1. unfold lift at 1. rewrite Hi.
  unfold mbind at 1. unfold lift at 1. rewrite lineToTensor_spec.
  reflexivity.
Qed.

Lemma randomTrainingExample_loaded_witness :
  exists name line i line_tensor lines,
    randomTrainingExample
      (corpus_categories
         (load_corpus normalize_NFD_sample category_sample
            [("English"%string, str_of "Smith")]))
      (corpus_lines
         (load_corpus normalize_NFD_sample category_sample
            [("English"%string, str_of "Smith")]))
      sample_world
    = (Returned (name, line, [i], line_tensor),
       {| rnn := rnn sample_world; rnn_grad := rnn_grad sample_world;
          stdout := stdout sample_world; entropy := entropy sample_world;
          draws := S (S (draws sample_world)) |}) /\
    nth_error
      (corpus_categories
         (load_corpus normalize_NFD_sample category_sample
            [("English"%string, str_of "Smith")])) i = Some name /\
    dict_get
      (corpus_lines
         (load_corpus normalize_NFD_sample category_sample
            [("English"%string, str_of "Smith")])) name = Some lines /\
    In line lines /\
    lineToTensor line = Returned line_tensor.
Proof.
  exact (randomTrainingExample_loaded normalize_NFD_sample category_sample
           [("English"%string, str_of "Smith")] sample_world
           ltac:(discriminate)).
Defined.

(** ** The best guess *)

Lemma insert_desc_In (p q : Q * nat) (l : list (Q * nat)) :
  In q (insert_desc p l) <-> q = p \/ In q l.
Proof.
  induction l as [| x l IH]; simpl.
  - intuition.
  - destruct (Qle_bool (fst x) (fst p)); simpl; rewrite ?IH; intuition.
Qed.

Lemma sort_desc_In (q : Q * nat) (l : list (Q * nat)) :
  In q (sort_desc l) <-> In q l.
Proof.
  induction l as [| p l IH]; simpl; [reflexivity |].
  rewrite insert_desc_In, IH. intuition.
Qed.

Lemma combine_seq_nth {A} (l : list A) (s i : nat) (v : A) :
  In (v, i) (combine l (seq s (length l))) <->
  s <= i /\ nth_error l (i - s) = Some v.
Proof.
  revert s. induction l as [| x l IH]; intros s; simpl.
  - split; [intros [] | intros [_ H]]. destruct (i - s); discriminate H.
  - rewrite IH. split.
    + intros [H | [Hle Hnth]].
      * injection H as -> ->. rewrite Nat.sub_diag. split; [lia | reflexivity].
      * split; [lia |]. replace (i - s) with (S (i - S s)) by lia. exact Hnth.
    + intros [Hle Hnth]. destruct (i - s) as [| k] eqn:Hk.
      * left. injection Hnth as ->. f_equal. lia.
      * right. split; [lia |]. replace (i - S s) with k by lia. exact Hnth.
Qed.

(** X9: on one row of scores, not empty and no longer than the list of
    categories, [categoryFromOutput] returns a position of the row whose
    score no other score exceeds, together with the category listed at
    that position. *)
Theorem categoryFromOutput_argmax (all_categories : list string)
  (row : tensor1) :
  row <> [] ->
  length row <= length all_categories ->
  exists name i v,
    categoryFromOutput all_categories [row] = Returned (name, i) /\
    nth_error all_categories i = Some name /\
    nth_error row i = Some v /\
    forall x, In x row -> (x <= v)%Q.
Proof.
  intros Hne Hlen.
  assert (Hpos : 1 <= length row) by (destruct row; [congruence | simpl; lia]).
  unfold categoryFromOutput. rewrite topk_one_row. unfold topk1.
  apply Nat.leb_le in Hpos. rewrite Hpos. apply Nat.leb_le in Hpos.
  set (pairs := combine row (seq 0 (length row))).
  pose proof (sort_desc_sorted pairs) as Hsorted.
  pose proof (sort_desc_length pairs) as Hslen.
  assert (Hplen : length pairs = length row)
    by (unfold pairs; rewrite length_combine, length_seq; lia).
  destruct (sort_desc pairs) as [| [v i] rest] eqn:Hs;
    [simpl in Hslen; lia |].
  assert (Hin : In (v, i) pairs)
    by (apply sort_desc_In; rewrite Hs; now left).
  apply combine_seq_nth in Hin. destruct Hin as [_ Hnth].
  rewrite Nat.sub_0_r in Hnth.
  assert (Hi : i < length all_categories).
  { assert (i < length row) by (apply nth_error_Some; congruence). lia. }
  destruct (nth_error all_categories i) as [name |] eqn:Hname.
  2:{ apply nth_error_None in Hname. lia. }
  exists name, i, v. cbn [firstn map fst snd rbind].
  rewrite py_getitem_single. cbn [rbind item].
  rewrite (py_getitem_nat _ _ _ Hname). cbn [rbind].
  split; [reflexivity |]. split; [exact Hname |]. split; [exact Hnth |].
  intros x Hx. apply In_nth_error in Hx. destruct Hx as [j Hj].
  assert (Hxj : In (x, j) (sort_desc pairs)).
  { apply sort_desc_In. apply combine_seq_nth.
    rewrite Nat.sub_0_r. split; [lia | exact Hj]. }
  rewrite Hs in Hxj. destruct Hxj as [Heq | Hrest].
  - injection Heq as -> _. apply Qle_refl.
  - inversion Hsorted as [| ? ? _ Hall]; subst.
    rewrite Forall_forall in Hall. exact (Hall _ Hrest).
Qed.

Lemma categoryFromOutput_argmax_witness :
  exists name i v,
    categoryFromOutput sample_categories [[(-3)%Q; 0%Q]]
    = Returned (name, i) /\
    nth_error sample_categories i = Some name /\
    nth_error [(-3)%Q; 0%Q] i = Some v /\
    forall x, In x [(-3)%Q; 0%Q] -> (x <= v)%Q.
Proof.
  apply (categoryFromOutput_argmax sample_categories [(-3)%Q; 0%Q]).
  - discriminate.
  - simpl. lia.
Defined.

(** ** One step of the network *)

(** X10: a step of a network of the constructed shapes, on a hidden state
    of its hidden width, returns one row of scores per category and a new
    hidden state of the same width when the input row has the input width,
    and raises [RuntimeError] when it has any other width. *)
Theorem RNN_forward_widths (log_softmax : tensor1 -> tensor1)
  (n_in n_out : nat) (self : RNN) (r h : tensor1) :
  keeps_length log_softmax ->
  RNN_shape n_in n_out self ->
  length h = hidden_size self ->
  (length r = n_in ->
   exists o h',
     RNN_forward log_softmax self [r] [h] = Returned ([o], [h']) /\
     length o = n_out /\ length h' = hidden_size self) /\
  (length r <> n_in ->
   RNN_forward log_softmax self [r] [h] = Raised RuntimeError).
Proof.
  intros Hls Hshape Hh. split.
  - intros Hr. now apply (RNN_forward_shape log_softmax n_in n_out).
  - intros Hr. destruct Hshape as [(Hin & _) _].
    unfold RNN_forward, cat1. cbn [length Nat.eqb map2 rbind].
    unfold Linear_forward at 1. cbn [mapR]. unfold Linear_row at 1.
    rewrite Hin, length_app, Hh.
    destruct (Nat.eqb_spec (length r + hidden_size self)
                           (n_in + hidden_size self)) as [Heq | _]; [lia |].
    reflexivity.
Qed.

Lemma RNN_forward_widths_witness :
  (exists o h',
      RNN_forward log_softmax_sample sample_rnn [one_hot 0]
                  (initHidden sample_rnn)
      = Returned ([o], [h']) /\
      length o = 2 /\ length h' = hidden_size sample_rnn) /\
  RNN_forward log_softmax_sample sample_rnn [[1%Q]] (initHidden sample_rnn)
  = Raised RuntimeError.
Proof.
  pose proof (RNN_forward_widths log_softmax_sample n_letters 2 sample_rnn
                (one_hot 0) (zeros1 n_hidden)
                log_softmax_sample_keeps_length sample_rnn_shape
                (repeat_length _ _)) as H1.
  pose proof (RNN_forward_widths log_softmax_sample n_letters 2 sample_rnn
                [1%Q] (zeros1 n_hidden)
                log_softmax_sample_keeps_length sample_rnn_shape
                (repeat_length _ _)) as H2.
  split.
  - apply (proj1 H1). apply one_hot_length.
  - apply (proj2 H2). discriminate.
Defined.

(** X11: on the encoding of any non-empty line, in or outside the
    alphabet, [evaluate] with a network of the constructed shapes returns
    one row holding one score per category, and leaves the world as it
    was. *)
Theorem evaluate_scores_per_category (log_softmax : tensor1 -> tensor1)
  (all_categories : list string) (line : pystr) (w : world) :
  keeps_length log_softmax ->
  RNN_shape n_letters (n_categories all_categories) (rnn w) ->
  line <> [] ->
  exists line_tensor scores,
    lineToTensor line = Returned line_tensor /\
    evaluate log_softmax line_tensor w = (Returned [scores], w) /\
    length scores = n_categories all_categories.
Proof.
  intros Hls Hshape Hne.
  destruct (evaluate_encoded_line log_softmax (n_categories all_categories)
              line w Hls Hshape Hne) as [o [Hev Ho]].
  eexists. exists o. split; [apply lineToTensor_spec |].
  split; assumption.
Qed.

Lemma evaluate_scores_per_category_witness :
  exists line_tensor scores,
    lineToTensor (str_of "Yuan 2") = Returned line_tensor /\
    evaluate log_softmax_sample line_tensor sample_world
    = (Returned [scores], sample_world) /\
    length scores = n_categories sample_categories.
Proof.
  exact (evaluate_scores_per_category log_softmax_sample sample_categories
           (str_of "Yuan 2") sample_world
           log_softmax_sample_keeps_length sample_rnn_shape
           ltac:(discriminate)).
Defined.

(** ** A training step *)

(** X12: a call of [train] never prints and never touches the random
    stream, and ends in one of three ways. It returns only on a line of at
    least two characters: then the loss is the negative log-likelihood of
    the returned output, every parameter has moved by [-learning_rate]
    times the gradient taken at the old parameters, and the [.grad]s hold
    that gradient alone, whatever was accumulated before. On a line of one
    character whose forward pass and loss succeed, the loss does not reach
    [i2h], whose [.grad] stays [None]: the update loop raises
    [AttributeError] at its first parameter, with no parameter changed and
    only the gradients of [i2o] stored. When the forward pass or the loss
    raises, the parameters are unchanged and the gradients are cleared. *)
Theorem train_effects (log_softmax : tensor1 -> tensor1)
  (autograd : RNN -> tensor3 -> list nat -> RNN)
  (category_tensor : list nat) (line_tensor : tensor3) (w : world) :
  let run := train log_softmax autograd category_tensor line_tensor w in
  let g := autograd (rnn w) line_tensor category_tensor in
  stdout (snd run) = stdout w /\
  draws (snd run) = draws w /\
  entropy (snd run) = entropy w /\
  ((exists output loss,
       fst run = Returned (output, loss) /\
       2 <= length line_tensor /\
       fst (evaluate log_softmax line_tensor w) = Returned output /\
       NLLLoss output category_tensor = Returned loss /\
       rnn (snd run) = RNN_add (- learning_rate) (rnn w) g /\
       rnn_grad (snd run) = Some (full_grad g))
   \/
   (exists output loss,
       fst run = Raised AttributeError /\
       length line_tensor = 1 /\
       fst (evaluate log_softmax line_tensor w) = Returned output /\
       NLLLoss output category_tensor = Returned loss /\
       rnn (snd run) = rnn w /\
       rnn_grad (snd run) = Some (i2o_grad_only g))
   \/
   (exists e,
       fst run = Raised e /\
       (fst (evaluate log_softmax line_tensor w) = Raised e \/
        exists output,
          fst (evaluate log_softmax line_tensor w) = Returned output /\
          NLLLoss output category_tensor = Raised e) /\
       rnn (snd run) = rnn w /\
       rnn_grad (snd run) = None)).
Proof.
  cbv zeta. rewrite train_run, evaluate_fold. cbn [fst].
  destruct (forward_fold log_softmax (rnn w) line_tensor
                         (None, initHidden (rnn w))) as [e | st] eqn:Hfold.
  { cbn [rbind fst snd stdout draws entropy rnn rnn_grad].
    repeat split. right. right. exists e. repeat split. now left. }
  cbn [rbind]. destruct (read_output st) as [e | output] eqn:Hout.
  { cbn [rbind fst snd stdout draws entropy rnn rnn_grad].
    repeat split. right. right. exists e. repeat split. now left. }
  cbn [rbind].
  destruct (NLLLoss output category_tensor) as [e | loss] eqn:Hloss.
  { cbn [rbind fst snd stdout draws entropy rnn rnn_grad].
    repeat split. right. right. exists e. repeat split.
    right. now exists output. }
  cbn [rbind].
  destruct line_tensor as [| x [| y rest]].
  - cbn in Hfold. injection Hfold as <-. discriminate Hout.
  - cbn [length Nat.leb fst snd stdout draws entropy rnn rnn_grad].
    repeat split. right. left. exists output, loss. repeat split.
    exact Hloss.
  - cbn [length Nat.leb fst snd stdout draws entropy rnn rnn_grad].
    repeat split. left. exists output, loss. repeat split.
    + simpl. lia.
    + exact Hloss.
Qed.

Lemma add_1_length (alpha : Q) (p g : tensor1) :
  length g = length p -> length (add_1 alpha p g) = length p.
Proof.
  intros H. unfold add_1. rewrite length_map2, H. apply Nat.min_id.
Qed.

Lemma add_2_rows (alpha : Q) (n : nat) (p g : tensor2) :
  length g = length p ->
  Forall (fun r => length r = n) p ->
  Forall (fun r => length r = n) g ->
  length (add_2 alpha p g) = length p /\
  Forall (fun r => length r = n) (add_2 alpha p g).
Proof.
  intros Hlen Hp. revert g Hlen.
  induction Hp as [| r p Hr Hp IH]; intros [| s g] Hlen Hg;
    simpl in Hlen; try discriminate.
  - split; [reflexivity | constructor].
  - destruct (IH g ltac:(lia) (Forall_inv_tail Hg)) as [Hl Hf].
    cbn [add_2 map2 length]. split; [unfold add_2 in Hl; now rewrite Hl |].
    constructor; [| exact Hf].
    rewrite add_1_length; [exact Hr |].
    rewrite (Forall_inv Hg). now symmetry.
Qed.

Lemma Linear_add_shape (alpha : Q) (n_in n_out : nat) (p g : Linear) :
  Linear_shape n_in n_out p -> Linear_shape n_in n_out g ->
  Linear_shape n_in n_out (Linear_add alpha p g).
Proof.
  intros (Hi & Ho & Hw & Hb & Hrows) (_ & _ & Hw' & Hb' & Hrows').
  destruct (add_2_rows alpha n_in (weight p) (weight g)
              ltac:(congruence) Hrows Hrows') as [Hl Hf].
  unfold Linear_shape, Linear_add. cbn.
  repeat split; try assumption; try congruence.
  rewrite add_1_length; congruence.
Qed.

Lemma RNN_add_shape (alpha : Q) (n_in n_out : nat) (p g : RNN) :
  hidden_size g = hidden_size p ->
  RNN_shape n_in n_out p -> RNN_shape n_in n_out g ->
  RNN_shape n_in n_out (RNN_add alpha p g).
Proof.
  intros Hh [Hp1 Hp2] [Hg1 Hg2]. rewrite Hh in Hg1, Hg2.
  split; cbn [RNN_add hidden_size i2h i2o]; now apply Linear_add_shape.
Qed.

(** X13: a call of [train] keeps the network's shapes and hidden width,
    whether it returns (every parameter updated) or raises (no parameter
    updated), provided the gradient has the shapes of the parameters. *)
Theorem train_keeps_shape (log_softmax : tensor1 -> tensor1)
  (autograd : RNN -> tensor3 -> list nat -> RNN)
  (n_in n_out : nat)
  (category_tensor : list nat) (line_tensor : tensor3) (w : world) :
  RNN_shape n_in n_out (rnn w) ->
  hidden_size (autograd (rnn w) line_tensor category_tensor)
  = hidden_size (rnn w) ->
  RNN_shape n_in n_out (autograd (rnn w) line_tensor category_tensor) ->
  RNN_shape n_in n_out
    (rnn (snd (train log_softmax autograd category_tensor line_tensor w))) /\
  hidden_size
    (rnn (snd (train log_softmax autograd category_tensor line_tensor w)))
  = hidden_size (rnn w).
Proof.
  intros Hw Hh Hg. rewrite train_run.
  destruct (rbind (forward_fold log_softmax (rnn w) line_tensor
                                (None, initHidden (rnn w))) _) as [e | r].
  - cbn. split; [exact Hw | reflexivity].
  - destruct (2 <=? length line_tensor); cbn [snd rnn].
    + split; [now apply RNN_add_shape | reflexivity].
    + split; [exact Hw | reflexivity].
Qed.

Lemma train_keeps_shape_witness :
  RNN_shape n_letters 2
    (rnn (snd (train log_softmax_sample (fun p _ _ => p) [1]
                     [[one_hot 0]; [one_hot 1]] sample_world))) /\
  hidden_size
    (rnn (snd (train log_softmax_sample (fun p _ _ => p) [1]
                     [[one_hot 0]; [one_hot 1]] sample_world)))
  = hidden_size (rnn sample_world).
Proof.
  exact (train_keeps_shape log_softmax_sample (fun p _ _ => p) n_letters 2
           [1] [[one_hot 0]; [one_hot 1]] sample_world
           sample_rnn_shape eq_refl sample_rnn_shape).
Defined.

(** ** Counting in the confusion matrix *)







(** X15: the finished confusion matrix of at most 2^24 trials, row by
    row. The trials are the (true category, guess) pairs of the sampling
    loop. The row of a category is NaN in every entry exactly when no
    trial had it as its true category; otherwise every entry is a finite
    float32 number, the entry of a guess being the float32 quotient of
    the number of trials of the row's category with that guess by the
    number of trials of the row's category. *)
Theorem confusion_matrix_rows (log_softmax : tensor1 -> tensor1)
  (all_categories : list string) (category_lines : dict (list pystr))
  (n_confusion : nat) (w w' : world) (final : xtensor2) :
  (Z.of_nat n_confusion <= 2 ^ 24)%Z ->
  confusion_matrix log_softmax all_categories category_lines n_confusion w
  = (Returned final, w') ->
  exists trials,
    confusion_trials log_softmax all_categories category_lines
                     n_confusion w
    = (Returned trials, w') /\
    length trials = n_confusion /\
    Forall (fun p => fst p < n_categories all_categories /\
                     snd p < n_categories all_categories) trials /\
    length final = n_categories all_categories /\
    forall i row,
      nth_error final i = Some row ->
      length row = n_categories all_categories /\
      (Forall (fun x => x = NaN) row <-> count_true i trials = 0) /\
      (0 < count_true i trials ->
       forall j x,
         nth_error row j = Some x ->
         x = float32 (share i j trials) /\ exists q, x = Finite q).
Proof.
  intros Hmax Hrun.
  destruct (confusion_matrix_entries _ _ _ _ _ _ _ Hrun)
    as [trials [Htr [Hlen [Hrange ->]]]].
  set (n := n_categories all_categories) in *.
  exists trials. split; [exact Htr |]. split; [exact Hlen |].
  split; [exact Hrange |].
  split; [now rewrite length_map, length_seq |].
  intros i row Hrow. rewrite nth_error_map_seq in Hrow.
  destruct (Nat.ltb_spec i n) as [Hi | Hi]; [| discriminate].
  injection Hrow as <-.
  split; [now rewrite length_map, length_seq |].
  pose proof (count_true_le_length i trials) as Hct.
  assert (Hfinite : 0 < count_true i trials ->
                    forall j, exists q, float32 (share i j trials) = Finite q).
  { intros Hpos j. unfold share.
    destruct (float32_count_quotient (count_pair i j trials)
                (count_true i trials)) as [y [Hy _]];
      [apply count_pair_le_true | exact Hpos | lia |].
    now exists y. }
  destruct (Nat.eqb_spec (count_true i trials) 0) as [H0 | H0].
  - split; [| lia]. split; [intros _; exact H0 |]. intros _.
    apply Forall_forall. intros x Hx. apply in_map_iff in Hx.
    now destruct Hx as [j [<- _]].
  - split.
    + split; [| intros H; contradiction].
      intros Hnan. exfalso.
      destruct (Hfinite ltac:(lia) 0) as [q Hq].
      rewrite Forall_forall in Hnan.
      assert (Hin : In (float32 (share i 0 trials))
                       (map (fun j => float32 (share i j trials)) (seq 0 n))).
      { apply in_map_iff. exists 0. split; [reflexivity |].
        apply in_seq. lia. }
      apply Hnan in Hin. congruence.
    + intros Hpos j x Hx. rewrite nth_error_map_seq in Hx.
      destruct (j <? n); [| discriminate]. injection Hx as <-.
      split; [reflexivity |].
      destruct (Hfinite Hpos j) as [q Hq]. now exists q.
Qed.

Lemma confusion_matrix_rows_witness :
  exists trials,
    confusion_trials log_softmax_sample sample_categories sample_lines 6
                     sample_world
    = (Returned trials,
       {| rnn := sample_rnn; rnn_grad := None; stdout := [];
          entropy := entropy sample_world; draws := 12 |}) /\
    length trials = 6 /\
    Forall (fun p => fst p < n_categories sample_categories /\
                     snd p < n_categories sample_categories) trials /\
    length [[NaN; NaN]; [Finite 0%Q; Finite 1%Q]]
    = n_categories sample_categories /\
    forall i row,
      nth_error [[NaN; NaN]; [Finite 0%Q; Finite 1%Q]] i = Some row ->
      length row = n_categories sample_categories /\
      (Forall (fun x => x = NaN) row <-> count_true i trials = 0) /\
      (0 < count_true i trials ->
       forall j x,
         nth_error row j = Some x ->
         x = float32 (share i j trials) /\ exists q, x = Finite q).
Proof.
  apply (confusion_matrix_rows log_softmax_sample sample_categories
           sample_lines 6 sample_world).
  - vm_compute. discriminate.
  - vm_compute. reflexivity.
Defined.

(** ** What prediction leaves alone *)

Lemma only_prints_ret {A} (a : A) : only_prints (mret a).
Proof.
  intros w. exists []. cbn. now rewrite printed_nil.
Qed.

Lemma only_prints_lift {A} (r : result A) : only_prints (lift r).
Proof.
  intros w. exists []. cbn. now rewrite printed_nil.
Qed.

Lemma only_prints_print (e : event) : only_prints (print e).
Proof.
  intros w. exists [e]. reflexivity.
Qed.

Lemma only_prints_bind {A B} (c : M A) (k : A -> M B) :
  only_prints c -> (forall a, only_prints (k a)) -> only_prints (mbind c k).
Proof.
  intros Hc Hk w. unfold mbind. destruct (Hc w) as [evs Hw].
  destruct (c w) as [[e | a] w1]; cbn [snd] in Hw; subst w1.
  - now exists evs.
  - destruct (Hk a (printed w evs)) as [evs' Hw'].
    exists (evs ++ evs'). rewrite Hw'. apply printed_app.
Qed.

Lemma only_prints_for_each {A St} (items : list A) (body : A -> St -> M St) :
  (forall a s, only_prints (body a s)) ->
  forall s, only_prints (for_each items body s).
Proof.
  intros Hbody. induction items as [| a items IH]; intros s; cbn [for_each].
  - apply only_prints_ret.
  - apply only_prints_bind; [apply Hbody | exact IH].
Qed.

Lemma only_prints_evaluate (log_softmax : tensor1 -> tensor1)
  (line_tensor : tensor3) :
  only_prints (evaluate log_softmax line_tensor).
Proof.
  intros w. exists []. rewrite evaluate_fold. cbn [snd].
  now rewrite printed_nil.
Qed.

Lemma snd_then_ret {A B} (c : M A) (b : B) (w : world) :
  snd ((c ;; mret b)%monad w) = snd (c w).
Proof.
  unfold mbind. destruct (c w) as [[e | a] w1]; reflexivity.
Qed.

Lemma prints_first {A} (e : event) (k : M A) (w : world) :
  only_prints k ->
  exists evs, snd ((print e ;; k)%monad w) = printed w (e :: evs).
Proof.
  intros Hk. unfold mbind. rewrite print_run.
  destruct (Hk (printed w [e])) as [evs Hevs].
  exists evs. rewrite Hevs. apply printed_app.
Qed.

(** X16: [predict] is read-only on the model: for every input line and
    every k, whether it completes or raises, the parameters, their
    gradients and the random stream are as before; all it does to the
    world is print, its input line first. *)
Theorem predict_only_prints (log_softmax : tensor1 -> tensor1)
  (all_categories : list string) (input_line : pystr) (n_predictions : nat)
  (w : world) :
  exists evs,
    snd (predict log_softmax all_categories input_line n_predictions w)
    = printed w (PrintInput input_line :: evs).
Proof.
  unfold predict. rewrite snd_then_ret. unfold predict_body.
  apply prints_first.
  apply only_prints_bind; [apply only_prints_lift |]. intros lt.
  apply only_prints_bind; [apply only_prints_evaluate |]. intros out.
  apply only_prints_bind; [apply only_prints_lift |]. intros [topv topi].
  apply only_prints_for_each. intros i acc.
  repeat (apply only_prints_bind; [apply only_prints_lift |]; intros ?).
  apply only_prints_bind; [apply only_prints_print |]. intros _.
  apply only_prints_ret.
Qed.

(** ** The training loop *)

Lemma div_succ (k p : nat) :
  0 < p ->
  S k / p = k / p + (if S k mod p =? 0 then 1 else 0).
Proof.
  intros Hp.
  pose proof (Nat.div_mod_eq k p) as Hk.
  pose proof (Nat.mod_upper_bound k p ltac:(lia)) as Hr.
  destruct (Nat.eq_dec (S (k mod p)) p) as [Heq | Hne].
  - assert (Hs : S k = (k / p + 1) * p) by nia.
    rewrite Hs, Nat.Div0.mod_mul, Nat.div_mul by lia. reflexivity.
  - assert (Hd : S k / p = k / p).
    { symmetry. apply (Nat.div_unique (S k) p (k / p) (S (k mod p))); lia. }
    assert (Hm : S k mod p = S (k mod p)).
    { symmetry. apply (Nat.mod_unique (S k) p (k / p) (S (k mod p))); lia. }
    rewrite Hd, Hm. simpl. lia.
Qed.

Lemma for_each_seq_counted {St} (P : nat -> St -> Prop)
  (body : nat -> St -> M St) (first : nat) :
  (forall k s w s' w',
      P k s -> body (first + k) s w = (Returned s', w') -> P (S k) s') ->
  forall n k s w s' w',
    P k s ->
    for_each (seq (first + k) n) body s w = (Returned s', w') ->
    P (k + n) s'.
Proof.
  intros Hbody. induction n as [| n IH]; intros k s w s' w' Hs Hrun.
  - cbv [seq for_each mret] in Hrun. injection Hrun as <- _.
    now rewrite Nat.add_0_r.
  - cbn [seq for_each] in Hrun. unfold mbind in Hrun.
    destruct (body (first + k) s w) as [[e | s1] w1] eqn:Hb; [discriminate |].
    rewrite Nat.add_succ_r.
    apply (IH (S k) s1 w1 s' w'); [eapply Hbody; eassumption |].
    now rewrite Nat.add_succ_r.
Qed.

Lemma training_iteration_counts
  (log_softmax : tensor1 -> tensor1)
  (autograd : RNN -> tensor3 -> list nat -> RNN)
  (all_categories : list string) (category_lines : dict (list pystr))
  (start : float) (clock : nat -> float) (n_iters print_every plot_every : nat)
  (iter : nat) (st st' : training) (w w' : world) :
  training_iteration log_softmax autograd all_categories category_lines
                     start clock n_iters print_every plot_every iter st w
  = (Returned st', w') ->
  length (all_losses st')
  = length (all_losses st) + (if iter mod plot_every =? 0 then 1 else 0) /\
  length (progress_lines st')
  = length (progress_lines st)
    + (if iter mod print_every =? 0 then 1 else 0) /\
  (iter mod plot_every = 0 -> current_loss st' = 0%Q).
Proof.
  unfold training_iteration. intros Hrun. unfold mbind at 1 in Hrun.
  destruct (randomTrainingExample all_categories category_lines w)
    as [[e | [[[c l] ct] lt]] w1]; [discriminate |].
  unfold mbind at 1 in Hrun.
  destruct (train log_softmax autograd ct lt w1) as [[e | [output loss]] w2];
    [discriminate |].
  cbv zeta in Hrun. unfold mbind at 1 in Hrun.
  destruct (iter mod print_every =? 0).
  - unfold mbind at 1, lift at 1 in Hrun.
    destruct (categoryFromOutput all_categories output) as [e | [g gi]];
      [discriminate |].
    cbv zeta in Hrun. unfold mbind at 1, lift at 1 in Hrun.
    destruct (timeSince (clock iter) start) as [e | elapsed];
      [discriminate |].
    unfold mbind at 1, lift at 1 in Hrun.
    destruct (percent_done iter n_iters) as [e | percent]; [discriminate |].
    cbn [mret] in Hrun.
    destruct (Nat.eqb_spec (iter mod plot_every) 0) as [Hz | Hnz];
      cbn [mret] in Hrun; injection Hrun as <- _;
      cbn [all_losses progress_lines current_loss];
      rewrite ?length_app; cbn [length]; repeat split; try lia; congruence.
  - cbn [mret] in Hrun.
    destruct (Nat.eqb_spec (iter mod plot_every) 0) as [Hz | Hnz];
      cbn [mret] in Hrun; injection Hrun as <- _;
      cbn [all_losses progress_lines current_loss];
      rewrite ?length_app; cbn [length]; repeat split; try lia; congruence.
Qed.

(** X18: when the training loop completes its [n_iters] iterations, the
    loss history holds one average per full block of [plot_every]
    iterations, and one progress line was printed per full block of
    [print_every] iterations; if [plot_every] divides [n_iters], the
    running loss ends at 0. *)
Theorem training_loop_history
  (log_softmax : tensor1 -> tensor1)
  (autograd : RNN -> tensor3 -> list nat -> RNN)
  (all_categories : list string) (category_lines : dict (list pystr))
  (start : float) (clock : nat -> float) (n_iters print_every plot_every : nat)
  (w : world) :
  0 < print_every ->
  0 < plot_every ->
  match fst (training_loop log_softmax autograd all_categories
               category_lines start clock n_iters print_every plot_every w)
  with
  | Returned st =>
      length (all_losses st) = n_iters / plot_every /\
      length (progress_lines st) = n_iters / print_every /\
      (n_iters mod plot_every = 0 -> current_loss st = 0%Q)
  | Raised _ => True
  end.
Proof.
  intros Hprint Hplot. unfold training_loop.
  destruct (for_each _ _ _ w) as [[e | st] w'] eqn:Hrun; cbn [fst];
    [exact I |].
  apply (for_each_seq_counted
           (fun k s =>
              length (all_losses s) = k / plot_every /\
              length (progress_lines s) = k / print_every /\
              (k mod plot_every = 0 -> current_loss s = 0%Q))
           _ 1) with (k := 0) in Hrun.
  - exact Hrun.
  - intros k s w0 s' w0' (Hl & Hp & _) Hbody.
    apply training_iteration_counts in Hbody.
    destruct Hbody as (Hl' & Hp' & Hc').
    change (1 + k) with (S k) in *.
    rewrite Hl', Hp', Hl, Hp, !div_succ by assumption.
    repeat split; try reflexivity. exact Hc'.
  - cbn [all_losses progress_lines current_loss length].
    rewrite !Nat.Div0.div_0_l. repeat split; reflexivity.
Qed.

Lemma training_loop_history_witness :
  match fst (training_loop log_softmax_sample (fun p _ _ => p)
               sample_categories sample_lines 0%float
               (fun _ => 90.5%float) 4 2 2 sample_world)
  with
  | Returned st =>
      length (all_losses st) = 4 / 2 /\
      length (progress_lines st) = 4 / 2 /\
      (4 mod 2 = 0 -> current_loss st = 0%Q)
  | Raised _ => True
  end.
Proof.
  apply (training_loop_history log_softmax_sample (fun p _ _ => p)
           sample_categories sample_lines 0%float
           (fun _ => 90.5%float) 4 2 2 sample_world).
  - apply Nat.lt_0_succ.
  - apply Nat.lt_0_succ.
Defined.

(** ** The LSTM classifier *)

Lemma py_getitem_last {A} (l : list A) :
  l <> [] -> exists a, py_getitem l (-1) = Returned a /\ In a l.
Proof.
  intros Hne.
  assert (Hlen : 0 < length l) by (destruct l; [congruence | simpl; lia]).
  destruct (nth_error l (length l - 1)) as [a |] eqn:Ha.
  2:{ apply nth_error_None in Ha. lia. }
  exists a. split; [| eapply nth_error_In; exact Ha].
  unfold py_getitem, py_norm_index. cbv zeta.
  destruct (Z.leb_spec 0 (-1)); [lia |]. cbn [andb].
  destruct (Z.leb_spec (- Z.of_nat (length l)) (-1)); [| lia].
  destruct (Z.ltb_spec (-1) 0); [| lia]. cbn [andb].
  replace (Z.to_nat (-1 + Z.of_nat (length l))) with (length l - 1) by lia.
  now rewrite Ha.
Qed.

Lemma LSTM_forward_scores (lstm : LSTM) (n_out : nat) (line : pystr) :
  LSTM_layer_shape n_letters lstm ->
  Linear_shape (LSTM_hidden_size lstm) n_out (LSTM_linear lstm) ->
  line <> [] ->
  exists o,
    LSTM_forward lstm (map (fun c => [one_hot (letter_slot c)]) line)
    = Returned [o] /\ length o = n_out.
Proof.
  intros Hlayer Hlinear Hne.
  destruct (Hlayer (map (fun c => [one_hot (letter_slot c)]) line))
    as [seq [hc [Hrun [Hlen Hrows]]]].
  - destruct line; [congruence | discriminate].
  - apply Forall_forall. intros x Hx. apply in_map_iff in Hx.
    destruct Hx as [c [<- _]]. eexists. split; [reflexivity |].
    apply one_hot_length.
  - assert (Hseq : seq <> []).
    { destruct seq; [| discriminate]. rewrite length_map in Hlen.
      destruct line; [congruence | discriminate]. }
    destruct (py_getitem_last seq Hseq) as [last [Hlast Hin]].
    rewrite Forall_forall in Hrows.
    destruct (Hrows last Hin) as [h [-> Hh]].
    destruct (Linear_forward_shape _ _ _ _ Hlinear Hh) as [o [Ho Lo]].
    exists o. unfold LSTM_forward. rewrite Hrun. cbn [rbind].
    unfold tensor3, tensor2 in *. rewrite Hlast. cbn [rbind].
    split; [exact Ho | exact Lo].
Qed.

Lemma predict_lstm_body_top_k (lstm : LSTM) (all_categories : list string)
  (line : pystr) (k : nat) (w : world) :
  LSTM_layer_shape n_letters lstm ->
  Linear_shape (LSTM_hidden_size lstm) (length all_categories)
               (LSTM_linear lstm) ->
  line <> [] ->
  k <= length all_categories ->
  exists top,
    predict_lstm_body lstm all_categories line k w
    = (Returned (map (prediction_of all_categories) top),
       printed w (PrintInput line
                  :: map guess_event (map (prediction_of all_categories) top)))
    /\ length top = k
    /\ StronglySorted ge_fst top
    /\ Forall (fun p : Q * nat => snd p < length all_categories) top.
Proof.
  intros Hlayer Hlinear Hne Hk.
  destruct (LSTM_forward_scores lstm (length all_categories) line
              Hlayer Hlinear Hne) as [o [Hfw Ho]].
  destruct (topk1_spec k o ltac:(lia)) as [top [Htop [Hlen [Hsorted Hbound]]]].
  rewrite Ho in Hbound.
  exists top. split; [| repeat split; assumption].
  unfold predict_lstm_body. unfold mbind at 1. rewrite print_run.
  unfold mbind at 1. unfold lift at 1. rewrite lineToTensor_spec.
  unfold mbind at 1. unfold lift at 1. rewrite Hfw.
  unfold mbind at 1. unfold lift at 1. rewrite topk_one_row, Htop.
  cbn [rbind fst snd]. unfold range.
  rewrite (predict_loop_collect all_categories top).
  - rewrite skipn_O, <- Hlen, firstn_all, printed_app. reflexivity.
  - intros i p acc w0 Hp. now apply predict_body_step.
  - simpl. lia.
Qed.

Lemma predict_lstm_body_too_many (lstm : LSTM) (all_categories : list string)
  (line : pystr) (k : nat) (w : world) :
  LSTM_layer_shape n_letters lstm ->
  Linear_shape (LSTM_hidden_size lstm) (length all_categories)
               (LSTM_linear lstm) ->
  line <> [] ->
  length all_categories < k ->
  predict_lstm_body lstm all_categories line k w
  = (Raised RuntimeError, printed w [PrintInput line]).
Proof.
  intros Hlayer Hlinear Hne Hk.
  destruct (LSTM_forward_scores lstm (length all_categories) line
              Hlayer Hlinear Hne) as [o [Hfw Ho]].
  unfold predict_lstm_body. unfold mbind at 1. rewrite print_run.
  unfold mbind at 1. unfold lift at 1. rewrite lineToTensor_spec.
  unfold mbind at 1. unfold lift at 1. rewrite Hfw.
  unfold mbind at 1. unfold lift at 1.
  rewrite topk_one_row, topk1_too_many by lia. reflexivity.
Qed.

(** X19: the second [predict], which asks the LSTM: given that the
    library's LSTM layer returns one hidden row of the hidden width per
    step and that the linear layer maps that width to one score per
    category, on every non-empty line and for every k up to the number of
    categories it completes and collects and prints exactly k (score,
    category) entries in non-increasing score order, each category one of
    the corpus; for k above the number of categories the top-k selection
    raises and no entry is reported. *)
Theorem predict_lstm_top_k (lstm : LSTM) (all_categories : list string)
  (line : pystr) (k : nat) (w : world) :
  LSTM_layer_shape n_letters lstm ->
  Linear_shape (LSTM_hidden_size lstm) (length all_categories)
               (LSTM_linear lstm) ->
  line <> [] ->
  (k <= length all_categories ->
   exists predictions,
     predict_lstm_body lstm all_categories line k w
     = (Returned predictions,
        printed w (PrintInput line :: map guess_event predictions)) /\
     predict_lstm lstm all_categories line k w
     = (Returned tt,
        printed w (PrintInput line :: map guess_event predictions)) /\
     length predictions = k /\
     non_increasing (map fst predictions) /\
     Forall (fun p => In (snd p) all_categories) predictions) /\
  (length all_categories < k ->
   predict_lstm lstm all_categories line k w
   = (Raised RuntimeError, printed w [PrintInput line])).
Proof.
  intros Hlayer Hlinear Hne. split; intros Hk.
  - destruct (predict_lstm_body_top_k lstm all_categories line k w
                Hlayer Hlinear Hne Hk) as [top [Hrun [Hlen [Hsorted Hbound]]]].
    exists (map (prediction_of all_categories) top).
    split; [exact Hrun |].
    split; [unfold predict_lstm, mbind; now rewrite Hrun |].
    split; [now rewrite length_map |].
    split; [rewrite prediction_scores; now apply map_fst_sorted |].
    apply Forall_forall. intros q Hq. apply in_map_iff in Hq.
    destruct Hq as [p [<- Hp]]. rewrite Forall_forall in Hbound.
    simpl. apply nth_In. now apply Hbound.
  - unfold predict_lstm, mbind.
    now rewrite (predict_lstm_body_too_many lstm all_categories line k w
                   Hlayer Hlinear Hne Hk).
Qed.

Lemma sample_lstm_layer_shape : LSTM_layer_shape n_letters sample_lstm.
Proof.
  intros x _ Hx.
  exists (map (fun step => map (fun row => firstn 4 (row ++ zeros1 4)) step) x),
    ([], []).
  split; [reflexivity |].
  split; [apply length_map |].
  apply Forall_forall. intros step Hstep. apply in_map_iff in Hstep.
  destruct Hstep as [s [<- Hs]]. rewrite Forall_forall in Hx.
  destruct (Hx s Hs) as [r [-> _]].
  exists (firstn 4 (r ++ zeros1 4)). split; [reflexivity |].
  change (LSTM_hidden_size sample_lstm) with 4.
  rewrite length_firstn, length_app. unfold zeros1.
  rewrite repeat_length. lia.
Qed.

Lemma predict_lstm_top_k_witness :
  (exists predictions,
      predict_lstm_body sample_lstm sample_categories (str_of "Satoshi") 2
                        sample_world
      = (Returned predictions,
         printed sample_world
           (PrintInput (str_of "Satoshi") :: map guess_event predictions)) /\
      predict_lstm sample_lstm sample_categories (str_of "Satoshi") 2
                   sample_world
      = (Returned tt,
         printed sample_world
           (PrintInput (str_of "Satoshi") :: map guess_event predictions)) /\
      length predictions = 2 /\
      non_increasing (map fst predictions) /\
      Forall (fun p => In (snd p) sample_categories) predictions) /\
  predict_lstm sample_lstm sample_categories (str_of "Satoshi") 3
               sample_world
  = (Raised RuntimeError,
     printed sample_world [PrintInput (str_of "Satoshi")]).
Proof.
  split.
  - apply (predict_lstm_top_k sample_lstm sample_categories
             (str_of "Satoshi") 2 sample_world
             sample_lstm_layer_shape (sample_Linear_shape 4 2)
             ltac:(discriminate)).
    apply le_n.
  - apply (predict_lstm_top_k sample_lstm sample_categories
             (str_of "Satoshi") 3 sample_world
             sample_lstm_layer_shape (sample_Linear_shape 4 2)
             ltac:(discriminate)).
    apply le_n.
Defined.

(** ** Training on an empty name *)

(** X20: an empty name, as the loader produces from an empty line or an
    empty file, makes [train] fail: the loop over the characters does not
    run, so taking the loss of the unbound [output] raises
    [UnboundLocalError]; the gradients have been cleared by then and the
    parameters are not changed. The first iteration of the training loop
    that draws such a name therefore raises. *)
Theorem train_empty_line_fails (log_softmax : tensor1 -> tensor1)
  (autograd : RNN -> tensor3 -> list nat -> RNN)
  (all_categories : list string) (category_lines : dict (list pystr))
  (start : float) (clock : nat -> float) (n_iters print_every plot_every iter : nat)
  (st : training) (category_tensor : list nat) (w : world) :
  train log_softmax autograd category_tensor [] w
  = (Raised UnboundLocalError,
     {| rnn := rnn w; rnn_grad := None; stdout := stdout w;
        entropy := entropy w; draws := draws w |}) /\
  forall name i w1,
    randomTrainingExample all_categories category_lines w
    = (Returned (name, [], [i], []), w1) ->
    fst (training_iteration log_softmax autograd all_categories
           category_lines start clock n_iters print_every plot_every
           iter st w)
    = Raised UnboundLocalError.
Proof.
  split; [reflexivity |].
  intros name i w1 Hsample. unfold training_iteration.
  unfold mbind at 1. rewrite Hsample. unfold mbind at 1.
  rewrite train_run. reflexivity.
Qed.

Lemma train_empty_line_fails_witness :
  fst (training_iteration log_softmax_sample (fun p _ _ => p)
         (corpus_categories
            (load_corpus normalize_NFD_sample category_sample
               [("Empty"%string, [])]))
         (corpus_lines
            (load_corpus normalize_NFD_sample category_sample
               [("Empty"%string, [])]))
         0%float (fun _ => 90.5%float) 4 2 2 1
         {| current_loss := 0%Q; all_losses := []; progress_lines := [] |}
         sample_world)
  = Raised UnboundLocalError.
Proof.
  apply (proj2 (train_empty_line_fails log_softmax_sample (fun p _ _ => p)
                  (corpus_categories
                     (load_corpus normalize_NFD_sample category_sample
                        [("Empty"%string, [])]))
                  (corpus_lines
                     (load_corpus normalize_NFD_sample category_sample
                        [("Empty"%string, [])]))
                  0%float (fun _ => 90.5%float) 4 2 2 1
                  {| current_loss := 0%Q; all_losses := [];
                     progress_lines := [] |}
                  [0] sample_world)
          "Empty"%string 0
          {| rnn := sample_rnn; rnn_grad := None; stdout := [];
             entropy := entropy sample_world; draws := 2 |}).
  vm_compute. reflexivity.
Defined.
